(** * dc_schema: dataclass-to-JSON-Schema compiler

    A shallow embedding of [dc_schema/__init__.py] (the compiler
    [_GetSchema] and the typed metadata object [SchemaAnnotation]) and of
    the metadata helper [annotation] of the older
    [dataclass_schema/dataclass_schema.py], followed by the properties
    proved about them.

    Python dictionaries keep insertion order and hold one entry per key;
    they are modelled as association lists with Python's update rule
    (assigning to an existing key replaces its value in place, assigning
    to a new key appends).  The compiler object's attributes ([root],
    [seen_root], [defs]) are threaded through a state-and-exception
    monad.  Python's recursion is bounded by a fuel argument; running out
    of fuel is a third outcome, distinct from every exception. *)

From Stdlib Require Import List String Ascii ZArith Bool Arith Lia.
Import ListNotations.
Open Scope string_scope.
Open Scope list_scope.

Set Implicit Arguments.
Set Warnings "-register-all".


(** ** Python values *)

(** The values that flow through the compiler: defaults of fields,
    arguments of [Literal], values of enumeration members, and the
    schema documents themselves.  A [str] is held as its UTF-8
    encoding, a float is [m * 2^e], and a [dict] is keyed by strings.
    [VEnumMember] is a member of an enumeration, with the name of its
    class, its own name and its value; [mixed] tells that the class
    mixes in the type of its values (an [IntEnum], a [StrEnum],
    [class E(str, Enum)]), so that the member is an instance of that
    type too and behaves as its value wherever it is taken as data.
    [VIter] stands for an iterable object of any other class (a set, a
    frozenset, a range, a [bytes] object), known by its [repr] and by
    the items that iterating over it yields; [VObject] stands for any
    other object that cannot be iterated (a [datetime] instance, a
    [Decimal]), known by its [repr]. *)
Inductive pyval : Type :=
| VNone
| VBool (b : bool)
| VInt (z : Z)
| VFloat (m e : Z)
| VStr (s : string)
| VList (l : list pyval)
| VTuple (l : list pyval)
| VDict (d : list (string * pyval))
| VEnumMember (cls name : string) (value : pyval) (mixed : bool)
| VIter (repr : string) (items : list pyval)
| VObject (repr : string).

Definition pydict : Type := list (string * pyval).

Definition is_None (v : pyval) : bool :=
  match v with VNone => true | _ => false end.

(** ** Dictionaries *)

Module Dict.

Fixpoint get (k : string) (d : pydict) : option pyval :=
  match d with
  | [] => None
  | (k', v) :: r => if String.eqb k k' then Some v else get k r
  end.

(** [d[k] = v] *)
Fixpoint set (k : string) (v : pyval) (d : pydict) : pydict :=
  match d with
  | [] => [(k, v)]
  | (k', v') :: r =>
      if String.eqb k k' then (k, v) :: r else (k', v') :: set k v r
  end.

(** [d.update(e)], also the meaning of [**e] inside a display *)
Definition update (d e : pydict) : pydict :=
  fold_left (fun acc kv => set (fst kv) (snd kv) acc) e d.

(** [d.pop(k)], the popped value dropped *)
Fixpoint pop (k : string) (d : pydict) : pydict :=
  match d with
  | [] => []
  | (k', v') :: r => if String.eqb k k' then r else (k', v') :: pop k r
  end.

(** [k in d] *)
Definition contains (k : string) (d : pydict) : bool :=
  match get k d with Some _ => true | None => false end.

Definition keys (d : pydict) : list string := map fst d.

(** number of entries stored under [k] *)
Definition count (k : string) (d : pydict) : nat :=
  List.length (filter (fun kv => String.eqb k (fst kv)) d).

(** A dictionary display [{k1: v1, **d, k2: v2}], evaluated left to
    right. *)
Inductive item : Type :=
| KV (k : string) (v : pyval)
| Spread (d : pydict).

Definition display (items : list item) : pydict :=
  fold_left (fun acc it =>
               match it with
               | KV k v => set k v acc
               | Spread d => update acc d
               end) items [].

End Dict.

Import Dict(KV, Spread).

(** ** Metadata: [SchemaAnnotation] *)

(** A [numbers.Number]: an int, a float, or a number of another class
    (a [Decimal], a [Fraction]), known by its [repr]. *)
Inductive number : Type :=
| NInt (z : Z)
| NFloat (m e : Z)
| NOther (repr : string).

Definition number_val (n : number) : pyval :=
  match n with
  | NInt z => VInt z
  | NFloat m e => VFloat m e
  | NOther repr => VObject repr
  end.

(** The frozen dataclass [SchemaAnnotation]; every field is optional and
    defaults to [None]. *)
Record SchemaAnnotation : Type := {
  title : option string;
  description : option string;
  examples : option (list pyval);
  deprecated : option bool;
  min_length : option Z;
  max_length : option Z;
  pattern : option string;
  format : option string;
  minimum : option number;
  maximum : option number;
  exclusive_minimum : option number;
  exclusive_maximum : option number;
  multiple_of : option number;
  min_items : option Z;
  max_items : option Z;
  unique_items : option bool
}.

(** [SchemaAnnotation()] *)
Definition SchemaAnnotation_new : SchemaAnnotation :=
  {| title := None; description := None; examples := None;
     deprecated := None; min_length := None; max_length := None;
     pattern := None; format := None; minimum := None; maximum := None;
     exclusive_minimum := None; exclusive_maximum := None;
     multiple_of := None; min_items := None; max_items := None;
     unique_items := None |}.

(** An optional field as a Python value: [None] when absent. *)
Definition opt {A : Type} (inj : A -> pyval) (o : option A) : pyval :=
  match o with Some a => inj a | None => VNone end.

(** [dataclasses.asdict(self)]: field names with their values, in
    declaration order. *)
Definition asdict (self : SchemaAnnotation) : list (string * pyval) :=
  [ ("title", opt VStr (title self));
    ("description", opt VStr (description self));
    ("examples", opt VList (examples self));
    ("deprecated", opt VBool (deprecated self));
    ("min_length", opt VInt (min_length self));
    ("max_length", opt VInt (max_length self));
    ("pattern", opt VStr (pattern self));
    ("format", opt VStr (format self));
    ("minimum", opt number_val (minimum self));
    ("maximum", opt number_val (maximum self));
    ("exclusive_minimum", opt number_val (exclusive_minimum self));
    ("exclusive_maximum", opt number_val (exclusive_maximum self));
    ("multiple_of", opt number_val (multiple_of self));
    ("min_items", opt VInt (min_items self));
    ("max_items", opt VInt (max_items self));
    ("unique_items", opt VBool (unique_items self)) ].

Definition key_map : list (string * string) :=
  [ ("min_length", "minLength");
    ("max_length", "maxLength");
    ("exclusive_minimum", "exclusiveMinimum");
    ("exclusive_maximum", "exclusiveMaximum");
    ("multiple_of", "multipleOf");
    ("min_items", "minItems");
    ("max_items", "maxItems");
    ("unique_items", "uniqueItems") ].

(** [key_map.get(k, k)] *)
Definition key_map_get (k : string) : string :=
  match find (fun p => String.eqb k (fst p)) key_map with
  | Some p => snd p
  | None => k
  end.

(** [SchemaAnnotation.schema] *)
Definition schema (self : SchemaAnnotation) : pydict :=
  map (fun kv => (key_map_get (fst kv), snd kv))
      (filter (fun kv => negb (is_None (snd kv))) (asdict self)).

(** ** Type descriptors *)

(** A class that is none of [str], [bool], [int], [NoneType] and no
    dataclass, described by what the dispatcher asks of it: the answers
    of [issubclass] and, for an enumeration, its members in definition
    order. *)
Record pyclass : Type := {
  cls_name : string;
  sub_Number : bool;
  sub_Enum : bool;
  sub_datetime : bool;
  sub_date : bool;
  cls_members : list (string * pyval)
}.

(** What a resolved type hint can be.  A dataclass is a reference (its
    index in the table of classes), so that classes can refer to each
    other and to themselves; the containers carry [typing.get_args];
    [TEllipsis] is the [...] of [tuple[int, ...]]. *)
Inductive ty : Type :=
| TDataclass (dc : nat)
| TUnion (args : list ty)
| TLiteral (args : list pyval)
| TAnnotated (base : ty) (metadata : list SchemaAnnotation)
| TDict (args : list ty)
| TList (args : list ty)
| TTuple (args : list ty)
| TSet (args : list ty)
| TNone
| TStr
| TBool
| TInt
| TClass (c : pyclass)
| TEllipsis.

(** [dataclasses.Field]: [None] is [dataclasses.MISSING]. *)
Record field : Type := {
  fld_name : string;
  fld_type : ty;
  fld_default : option pyval;
  fld_default_factory : option (unit -> pyval)
}.

(** A dataclass: [__name__], [dataclasses.fields], and the nested
    [SchemaConfig] class if there is one, with its [annotation]
    attribute if it has one. *)
Record dataclass : Type := {
  dc_name : string;
  dc_fields : list field;
  dc_SchemaConfig : option (option SchemaAnnotation)
}.

Definition is_str (t : ty) : bool :=
  match t with TStr => true | _ => false end.

Definition is_present {A : Type} (o : option A) : bool :=
  match o with Some _ => true | None => false end.

(** ** The compiler object and its monad *)

(** The attributes [__call__] sets on [self]. *)
Record GetSchema : Type := {
  root : nat;
  seen_root : bool;
  defs : pydict
}.

Inductive exn : Type :=
| AssertionError
| NotImplementedError
| TypeError
| AttributeError
| KeyError
| IndexError
| NameError.

Inductive outcome (A : Type) : Type :=
| Ok (a : A)
| Raise (e : exn)
| OutOfFuel.

Arguments Ok {A} a.
Arguments Raise {A} e.
Arguments OutOfFuel {A}.

Definition M (A : Type) : Type := GetSchema -> outcome (A * GetSchema).

Definition ret {A : Type} (a : A) : M A := fun self => Ok (a, self).

Definition bind {A B : Type} (m : M A) (f : A -> M B) : M B :=
  fun self =>
    match m self with
    | Ok (a, self') => f a self'
    | Raise e => Raise e
    | OutOfFuel => OutOfFuel
    end.

Definition raise {A : Type} (e : exn) : M A := fun _ => Raise e.

Definition get_self : M GetSchema := fun self => Ok (self, self).

Definition set_seen_root (b : bool) : M unit :=
  fun self =>
    Ok (tt, {| root := root self; seen_root := b; defs := defs self |}).

(** [self.defs[k] = v] *)
Definition set_def (k : string) (v : pyval) : M unit :=
  fun self =>
    Ok (tt, {| root := root self; seen_root := seen_root self;
               defs := Dict.set k v (defs self) |}).

Declare Scope py_scope.
Delimit Scope py_scope with py.
Notation "x <- m ;; k" := (bind m (fun x => k))
  (at level 100, m at next level, right associativity) : py_scope.
Notation "m ;;; k" := (bind m (fun _ => k))
  (at level 100, right associativity) : py_scope.
Open Scope py_scope.

(** A list comprehension whose element expression has effects. *)
Fixpoint mapM {A B : Type} (f : A -> M B) (l : list A) : M (list B) :=
  match l with
  | [] => ret []
  | x :: r => y <- f x ;; ys <- mapM f r ;; ret (y :: ys)
  end.

(** A [for] loop that updates a local variable. *)
Fixpoint foldM {A B : Type} (f : A -> B -> M A) (l : list B) (a : A) : M A :=
  match l with
  | [] => ret a
  | x :: r => a' <- f a x ;; foldM f r a'
  end.

(** The first byte of a code point in UTF-8 is any byte that is not of
    the form [10xxxxxx]; the bytes of that form that follow belong to
    it. *)
Definition is_continuation (c : ascii) : bool :=
  match c with Ascii _ _ _ _ _ _ b6 b7 => b7 && negb b6 end.

(** The continuation bytes [s] starts with, and the code points after
    them. *)
Fixpoint split_code_points (s : string) : string * list string :=
  match s with
  | EmptyString => (EmptyString, [])
  | String c r =>
      let (continuation, points) := split_code_points r in
      if is_continuation c then (String c continuation, points)
      else (EmptyString, String c continuation :: points)
  end.

(** The characters of a [str], one string per code point. *)
Definition code_points (s : string) : list string :=
  let (continuation, points) := split_code_points s in
  match continuation with
  | EmptyString => points
  | String _ _ => continuation :: points
  end.

(** What iterating over [v] yields: the elements of a list or tuple,
    the characters of a [str], the keys of a [dict], the items of any
    other iterable; [None] when [v] cannot be iterated. *)
Fixpoint py_iter (v : pyval) : option (list pyval) :=
  match v with
  | VList l => Some l
  | VTuple l => Some l
  | VStr s => Some (map VStr (code_points s))
  | VDict d => Some (map (fun kv => VStr (fst kv)) d)
  | VIter _ items => Some items
  | VEnumMember _ _ value true => py_iter value
  | _ => None
  end.

(** [list(v)] *)
Definition py_list (v : pyval) : M (list pyval) :=
  match py_iter v with
  | Some l => ret l
  | None => raise TypeError
  end.

(** [v.value] *)
Definition py_value (v : pyval) : M pyval :=
  match v with
  | VEnumMember _ _ value _ => ret value
  | _ => raise AttributeError
  end.

(** [schema[key][k] = v] *)
Definition setitem_in (key k : string) (v : pyval) (schema : pydict) : M pydict :=
  match Dict.get key schema with
  | Some (VDict p) => ret (Dict.set key (VDict (Dict.set k v p)) schema)
  | Some _ => raise TypeError
  | None => raise KeyError
  end.

(** [schema[key].append(v)] *)
Definition append_in (key : string) (v : pyval) (schema : pydict) : M pydict :=
  match Dict.get key schema with
  | Some (VList l) => ret (Dict.set key (VList (l ++ [v])) schema)
  | Some _ => raise AttributeError
  | None => raise KeyError
  end.

(** [not schema[key]] for a list-valued entry *)
Definition is_empty_in (key : string) (schema : pydict) : M bool :=
  match Dict.get key schema with
  | Some (VList []) => ret true
  | Some (VList (_ :: _)) => ret false
  | Some _ => raise TypeError
  | None => raise KeyError
  end.

(** ** The compiler [_GetSchema] *)

Section Compiler.

(** The dataclasses of the program; [TDataclass i] is the [i]-th. *)
Variable classes : list dataclass.

Definition lookup_class (dc : nat) : M dataclass :=
  match nth_error classes dc with
  | Some cls => ret cls
  | None => raise NameError
  end.

Definition ref_to (target : string) : pyval :=
  VList [VDict (Dict.display [KV "$ref" (VStr target)])].

Definition defs_path (name : string) : string :=
  String.append "#/$defs/" name.

Section Body.

(** [self.get_field_schema] at the recursive call sites. *)
Variable rec : ty -> option pyval -> SchemaAnnotation -> M pydict.

(** One turn of the loop [for field in dataclasses.fields(dc)] of
    [create_dc_schema]. *)
Definition add_field (schema1 : pydict) (fld : field) : M pydict :=
  let type_ := fld_type fld in
  prop <- rec type_ (fld_default fld) SchemaAnnotation_new ;;
  schema1 <- setitem_in "properties" (fld_name fld) (VDict prop) schema1 ;;
  let field_is_optional :=
    is_present (fld_default fld) || is_present (fld_default_factory fld) in
  if negb field_is_optional
  then append_in "required" (VStr (fld_name fld)) schema1
  else ret schema1.

Definition create_dc_schema (dc : nat) : M pydict :=
  cls <- lookup_class dc ;;
  let annotation :=
    match dc_SchemaConfig cls with
    | Some SchemaConfig =>
        match SchemaConfig with
        | Some a => a
        | None => SchemaAnnotation_new
        end
    | None => SchemaAnnotation_new
    end in
  let schema0 :=
    Dict.display [ KV "type" (VStr "object");
                   KV "title" (VStr (dc_name cls));
                   Spread (schema annotation);
                   KV "properties" (VDict []);
                   KV "required" (VList []) ] in
  schema1 <- foldM add_field (dc_fields cls) schema0 ;;
  no_required <- is_empty_in "required" schema1 ;;
  if no_required then ret (Dict.pop "required" schema1) else ret schema1.

Definition get_dc_schema (dc : nat) (annotation : SchemaAnnotation) : M pydict :=
  self <- get_self ;;
  if Nat.eqb dc (root self) then
    if seen_root self then
      ret (Dict.display [ KV "allOf" (ref_to "#");
                          Spread (schema annotation) ])
    else
      set_seen_root true ;;;
      schema1 <- create_dc_schema dc ;;
      ret schema1
  else
    cls <- lookup_class dc ;;
    (if negb (Dict.contains (dc_name cls) (defs self)) then
       schema1 <- create_dc_schema dc ;;
       set_def (dc_name cls) (VDict schema1)
     else ret tt) ;;;
    ret (Dict.display [ KV "allOf" (ref_to (defs_path (dc_name cls)));
                        Spread (schema annotation) ]).

Definition get_union_schema (args : list ty) (default : option pyval)
    (annotation : SchemaAnnotation) : M pydict :=
  match default with
  | None =>
      any_of <- mapM (fun arg => rec arg None SchemaAnnotation_new) args ;;
      ret (Dict.display [ KV "anyOf" (VList (map VDict any_of));
                          Spread (schema annotation) ])
  | Some d =>
      any_of <- mapM (fun arg => rec arg None SchemaAnnotation_new) args ;;
      ret (Dict.display [ KV "anyOf" (VList (map VDict any_of));
                          KV "default" d;
                          Spread (schema annotation) ])
  end.

Definition get_literal_schema (args : list pyval) (default : option pyval)
    (annotation : SchemaAnnotation) : M pydict :=
  let schema1 :=
    match default with
    | None => Dict.display [ Spread (schema annotation) ]
    | Some d => Dict.display [ KV "default" d; Spread (schema annotation) ]
    end in
  ret (Dict.display [ KV "enum" (VList args); Spread schema1 ]).

Definition get_dict_schema (args : list ty) (annotation : SchemaAnnotation)
    : M pydict :=
  if negb (Nat.eqb (List.length args) 0 || Nat.eqb (List.length args) 2)
  then raise AssertionError
  else
    match args with
    | [] => ret (Dict.display [ KV "type" (VStr "object");
                                Spread (schema annotation) ])
    | key :: _ =>
        if negb (is_str key) then raise AssertionError
        else
          match nth_error args 1 with
          | Some value =>
              additional <- rec value None SchemaAnnotation_new ;;
              ret (Dict.display [ KV "type" (VStr "object");
                                  KV "additionalProperties" (VDict additional);
                                  Spread (schema annotation) ])
          | None => raise IndexError
          end
    end.

Definition get_list_schema (args : list ty) (annotation : SchemaAnnotation)
    : M pydict :=
  if negb (Nat.eqb (List.length args) 0 || Nat.eqb (List.length args) 1)
  then raise AssertionError
  else
    match args with
    | arg0 :: _ =>
        items <- rec arg0 None SchemaAnnotation_new ;;
        ret (Dict.display [ KV "type" (VStr "array");
                            KV "items" (VDict items);
                            Spread (schema annotation) ])
    | [] => ret (Dict.display [ KV "type" (VStr "array");
                                Spread (schema annotation) ])
    end.

Definition get_tuple_schema (args : list ty) (default : option pyval)
    (annotation : SchemaAnnotation) : M pydict :=
  schema1 <-
    match default with
    | None => ret (Dict.display [ Spread (schema annotation) ])
    | Some d =>
        l <- py_list d ;;
        ret (Dict.display [ KV "default" (VList l);
                            Spread (schema annotation) ])
    end ;;
  match args with
  | [arg0; TEllipsis] =>
      items <- rec arg0 None SchemaAnnotation_new ;;
      ret (Dict.display [ KV "type" (VStr "array");
                          KV "items" (VDict items);
                          Spread schema1 ])
  | _ :: _ =>
      prefix <- mapM (fun arg => rec arg None SchemaAnnotation_new) args ;;
      ret (Dict.display [ KV "type" (VStr "array");
                          KV "prefixItems" (VList (map VDict prefix));
                          KV "minItems" (VInt (Z.of_nat (List.length args)));
                          KV "maxItems" (VInt (Z.of_nat (List.length args)));
                          Spread schema1 ])
  | [] => ret (Dict.display [ KV "type" (VStr "array"); Spread schema1 ])
  end.

Definition get_set_schema (args : list ty) (annotation : SchemaAnnotation)
    : M pydict :=
  if negb (Nat.eqb (List.length args) 0 || Nat.eqb (List.length args) 1)
  then raise AssertionError
  else
    match args with
    | arg0 :: _ =>
        items <- rec arg0 None SchemaAnnotation_new ;;
        ret (Dict.display [ KV "type" (VStr "array");
                            KV "items" (VDict items);
                            KV "uniqueItems" (VBool true);
                            Spread (schema annotation) ])
    | [] => ret (Dict.display [ KV "type" (VStr "array");
                                KV "uniqueItems" (VBool true);
                                Spread (schema annotation) ])
    end.

(** [get_none_schema], [get_str_schema], [get_bool_schema],
    [get_int_schema] and [get_number_schema] differ in the type name
    only. *)
Definition get_primitive_schema (type_name : string) (default : option pyval)
    (annotation : SchemaAnnotation) : M pydict :=
  match default with
  | None => ret (Dict.display [ KV "type" (VStr type_name);
                                Spread (schema annotation) ])
  | Some d => ret (Dict.display [ KV "type" (VStr type_name);
                                  KV "default" d;
                                  Spread (schema annotation) ])
  end.

Definition get_none_schema := get_primitive_schema "null".
Definition get_str_schema := get_primitive_schema "string".
Definition get_bool_schema := get_primitive_schema "boolean".
Definition get_int_schema := get_primitive_schema "integer".
Definition get_number_schema := get_primitive_schema "number".

Definition get_enum_schema (type_ : pyclass) (default : option pyval)
    (annotation : SchemaAnnotation) : M pydict :=
  self <- get_self ;;
  (if negb (Dict.contains (cls_name type_) (defs self)) then
     set_def (cls_name type_)
       (VDict (Dict.display
                 [ KV "title" (VStr (cls_name type_));
                   KV "enum" (VList (map snd (cls_members type_))) ]))
   else ret tt) ;;;
  match default with
  | None =>
      ret (Dict.display [ KV "allOf" (ref_to (defs_path (cls_name type_)));
                          Spread (schema annotation) ])
  | Some d =>
      value <- py_value d ;;
      ret (Dict.display [ KV "allOf" (ref_to (defs_path (cls_name type_)));
                          KV "default" value;
                          Spread (schema annotation) ])
  end.

Definition get_annotated_schema (base : ty) (metadata : list SchemaAnnotation)
    (default : option pyval) : M pydict :=
  match metadata with
  | [annotation] => rec base default annotation
  | _ => raise AssertionError
  end.

Definition get_datetime_schema (annotation : SchemaAnnotation) : M pydict :=
  ret (Dict.display [ KV "type" (VStr "string");
                      KV "format" (VStr "date-time");
                      Spread (schema annotation) ]).

Definition get_date_schema (annotation : SchemaAnnotation) : M pydict :=
  ret (Dict.display [ KV "type" (VStr "string");
                      KV "format" (VStr "date");
                      Spread (schema annotation) ]).

(** The body of [get_field_schema].  The tests on [is_dataclass], on
    [typing.get_origin] and on equality with a builtin select the
    constructor of [ty]; the chain of [issubclass] tests is kept in its
    order. *)
Definition dispatch (type_ : ty) (default : option pyval)
    (annotation : SchemaAnnotation) : M pydict :=
  match type_ with
  | TDataclass dc => get_dc_schema dc annotation
  | TUnion args => get_union_schema args default annotation
  | TLiteral args => get_literal_schema args default annotation
  | TAnnotated base metadata => get_annotated_schema base metadata default
  | TDict args => get_dict_schema args annotation
  | TList args => get_list_schema args annotation
  | TTuple args => get_tuple_schema args default annotation
  | TSet args => get_set_schema args annotation
  | TNone => get_none_schema default annotation
  | TStr => get_str_schema default annotation
  | TBool => get_bool_schema default annotation
  | TInt => get_int_schema default annotation
  | TClass c =>
      if sub_Number c then get_number_schema default annotation
      else if sub_Enum c then get_enum_schema c default annotation
      else if sub_datetime c then get_datetime_schema annotation
      else if sub_date c then get_date_schema annotation
      else raise NotImplementedError
  | TEllipsis => raise TypeError
  end.

End Body.

Fixpoint get_field_schema (fuel : nat) (type_ : ty) (default : option pyval)
    (annotation : SchemaAnnotation) : M pydict :=
  match fuel with
  | O => fun _ => OutOfFuel
  | S fuel' => dispatch (get_field_schema fuel') type_ default annotation
  end.

(** [_GetSchema.__call__] *)
Definition GetSchema_call (fuel : nat) (dc : nat) : outcome pydict :=
  let self := {| root := dc; seen_root := false; defs := [] |} in
  match get_dc_schema (get_field_schema fuel) dc SchemaAnnotation_new self with
  | Ok (schema1, self') =>
      let schema2 :=
        match defs self' with
        | [] => schema1
        | _ :: _ => Dict.set "$defs" (VDict (defs self')) schema1
        end in
      Ok (Dict.display
            [ KV "$schema" (VStr "https://json-schema.org/draft/2020-12/schema");
              Spread schema2 ])
  | Raise e => Raise e
  | OutOfFuel => OutOfFuel
  end.

Definition get_schema (fuel : nat) (dc : nat) : outcome pydict :=
  GetSchema_call fuel dc.

End Compiler.


(** * The older metadata helper

    [annotation] of [dataclass_schema/dataclass_schema.py] returns its
    keywords as a JSON text. *)

Module Legacy.

(** What a JSON text denotes. *)
Inductive json : Type :=
| JNull
| JBool (b : bool)
| JInt (z : Z)
| JFloat (m e : Z)
| JString (s : string)
| JArray (l : list json)
| JObject (members : list (string * json)).

(** [json.dumps] and [json.loads] belong to Python's standard library.
    A text is known by what it denotes; the texts that occur are those
    of objects, listed member by member as they are written. *)
Inductive json_text : Type := JsonText (members : list (string * json)).

Fixpoint all_some {A : Type} (l : list (option A)) : option (list A) :=
  match l with
  | [] => Some []
  | Some a :: r =>
      match all_some r with
      | Some l' => Some (a :: l')
      | None => None
      end
  | None :: _ => None
  end.

(** The encoder of [json.dumps]: [None], booleans, ints, floats and
    strings are written as such, lists and tuples as arrays, dicts as
    objects; [None] (here) when the value, or a value inside it, is of
    no such type, where the encoder raises [TypeError]. *)
Fixpoint encode (v : pyval) : option json :=
  match v with
  | VNone => Some JNull
  | VBool b => Some (JBool b)
  | VInt z => Some (JInt z)
  | VFloat m e => Some (JFloat m e)
  | VStr s => Some (JString s)
  | VList l => option_map JArray (all_some (map encode l))
  | VTuple l => option_map JArray (all_some (map encode l))
  | VDict d =>
      option_map JObject
        (all_some (map (fun kv => option_map (pair (fst kv)) (encode (snd kv)))
                       d))
  | VEnumMember _ _ value true => encode value
  | _ => None
  end.

Definition encode_members (d : pydict) : option (list (string * json)) :=
  all_some (map (fun kv => option_map (pair (fst kv)) (encode (snd kv))) d).

(** The decoder of [json.loads]: arrays become lists, objects become
    dicts; of two members of an object with the same name the later one
    gives the value. *)
Fixpoint decode (j : json) : pyval :=
  match j with
  | JNull => VNone
  | JBool b => VBool b
  | JInt z => VInt z
  | JFloat m e => VFloat m e
  | JString s => VStr s
  | JArray l => VList (map decode l)
  | JObject members =>
      VDict (Dict.display
               (map (fun kv => KV (fst kv) (decode (snd kv))) members))
  end.

Definition decode_members (members : list (string * json)) : pydict :=
  Dict.display (map (fun kv => KV (fst kv) (decode (snd kv))) members).

(** [json.dumps(d)] for a dict [d] *)
Definition json_dumps (d : pydict) : outcome json_text :=
  match encode_members d with
  | Some members => Ok (JsonText members)
  | None => Raise TypeError
  end.

(** [json.loads(s)] *)
Definition json_loads (s : json_text) : pydict :=
  match s with JsonText members => decode_members members end.

(** [annotation], all of whose parameters are keyword-only and default
    to [None] *)
Definition annotation
  (title description : option string) (examples : option (list pyval))
  (deprecated : option bool) (min_length max_length : option Z)
  (pattern format_ : option string)
  (minimum maximum exclusive_minimum exclusive_maximum multiple_of
     : option number) : outcome json_text :=
  let extra :=
    [ ("title", opt VStr title);
      ("description", opt VStr description);
      ("examples", opt VList examples);
      ("deprecated", opt VBool deprecated);
      ("minLength", opt VInt min_length);
      ("maxLength", opt VInt max_length);
      ("pattern", opt VStr pattern);
      ("format", opt VStr format_);
      ("minimum", opt number_val minimum);
      ("maximum", opt number_val maximum);
      ("exclusiveMinimum", opt number_val exclusive_minimum);
      ("exclusiveMaximum", opt number_val exclusive_maximum);
      ("multipleOf", opt number_val multiple_of) ] in
  let extra := filter (fun kv => negb (is_None (snd kv))) extra in
  json_dumps extra.

(** [json.loads(extra) if extra else {}], the first line of every
    [get_*_schema] of the older compiler. *)
Definition load_extra (extra : option json_text) : pydict :=
  match extra with
  | Some s => json_loads s
  | None => []
  end.

End Legacy.


(** * Vocabulary of the properties *)

Definition field_names : list string :=
  [ "title"; "description"; "examples"; "deprecated"; "min_length";
    "max_length"; "pattern"; "format"; "minimum"; "maximum";
    "exclusive_minimum"; "exclusive_maximum"; "multiple_of"; "min_items";
    "max_items"; "unique_items" ].

(** The JSON Schema keywords [SchemaAnnotation.schema] can emit. *)
Definition keywords : list string := map key_map_get field_names.

(** What a compilation step may do to the compiler object: [root] is
    fixed, [seen_root] is never reset, the keys of [defs] only grow and
    stay distinct. *)
Record ext (s s' : GetSchema) : Prop := {
  ext_root : root s' = root s;
  ext_seen : seen_root s = true -> seen_root s' = true;
  ext_keys : forall k, In k (Dict.keys (defs s)) -> In k (Dict.keys (defs s'));
  ext_nodup : NoDup (Dict.keys (defs s)) -> NoDup (Dict.keys (defs s'))
}.

Definition preserving {A : Type} (m : M A) : Prop :=
  forall s a s', m s = Ok (a, s') -> ext s s'.

Create HintDb py_inv.

(** The fields of a record that have neither a default value nor a
    default-producing factory, by name, in declaration order. *)
Definition lacks_default (f : field) : bool :=
  match fld_default f, fld_default_factory f with
  | None, None => true
  | _, _ => false
  end.

Definition required_names (fields : list field) : list string :=
  map fld_name (filter lacks_default fields).

(** The payload of the nested [SchemaConfig] of a record, the empty
    payload when the record has none. *)
Definition config_annotation (cls : dataclass) : SchemaAnnotation :=
  match dc_SchemaConfig cls with
  | Some (Some a) => a
  | _ => SchemaAnnotation_new
  end.

(** The object fragment of a record before its fields are added. *)
Definition object_header (cls : dataclass) : pydict :=
  Dict.display [ KV "type" (VStr "object");
                 KV "title" (VStr (dc_name cls));
                 Spread (schema (config_annotation cls));
                 KV "properties" (VDict []);
                 KV "required" (VList []) ].

(** An item of a dictionary display that does not set the key [k]. *)
Definition item_lacks (k : string) (it : Dict.item) : Prop :=
  match it with
  | KV k' _ => k <> k'
  | Spread d => Dict.get k d = None
  end.

(** * Example programs

    The dataclasses of the repository's tests and a few more, gathered
    in one table of classes. *)

Module Fixtures.

Definition float : pyclass :=
  {| cls_name := "float"; sub_Number := true; sub_Enum := false;
     sub_datetime := false; sub_date := false; cls_members := [] |}.

Definition datetime : pyclass :=
  {| cls_name := "datetime"; sub_Number := false; sub_Enum := false;
     sub_datetime := true; sub_date := true; cls_members := [] |}.

Definition date : pyclass :=
  {| cls_name := "date"; sub_Number := false; sub_Enum := false;
     sub_datetime := false; sub_date := true; cls_members := [] |}.

Definition MyEnum : pyclass :=
  {| cls_name := "MyEnum"; sub_Number := false; sub_Enum := true;
     sub_datetime := false; sub_date := false;
     cls_members := [("a", VInt 1); ("b", VInt 2)] |}.

Definition MyEnum_a : pyval := VEnumMember "MyEnum" "a" (VInt 1) false.

(** A field without default. *)
Definition fld (name : string) (type_ : ty) : field :=
  {| fld_name := name; fld_type := type_; fld_default := None;
     fld_default_factory := None |}.

(** A field with a default value. *)
Definition fld_with (name : string) (type_ : ty) (default : pyval) : field :=
  {| fld_name := name; fld_type := type_; fld_default := Some default;
     fld_default_factory := None |}.

(** A field with a default factory. *)
Definition fld_factory (name : string) (type_ : ty) (factory : unit -> pyval)
    : field :=
  {| fld_name := name; fld_type := type_; fld_default := None;
     fld_default_factory := Some factory |}.

Definition plain (name : string) (fields : list field) : dataclass :=
  {| dc_name := name; dc_fields := fields; dc_SchemaConfig := None |}.

(** Index 0 and 1: [DcRefs] refers twice to [DcRefsChild]. *)
Definition DcRefs : dataclass :=
  plain "DcRefs" [ fld "a" (TDataclass 1); fld "b" (TList [TDataclass 1]) ].

Definition DcRefsChild : dataclass :=
  plain "DcRefsChild" [ fld "c" TStr ].

(** Index 2: [DcRefsSelf] refers to itself. *)
Definition DcRefsSelf : dataclass :=
  plain "DcRefsSelf"
    [ fld "a" TStr;
      fld "b" (TUnion [TDataclass 2; TNone]);
      fld "c" (TList [TDataclass 2]) ].

(** Index 3: [DcEnum]. *)
Definition DcEnum : dataclass :=
  plain "DcEnum"
    [ fld "a" (TClass MyEnum); fld_with "b" (TClass MyEnum) MyEnum_a ].

(** Index 4: defaults, a factory, and a nullable field without default. *)
Definition DcOptional : dataclass :=
  plain "DcOptional"
    [ fld "n" (TUnion [TInt; TNone]);
      fld_with "a" TInt (VInt 42);
      fld_factory "c" TInt (fun _ => VInt 42);
      fld_with "f" TNone VNone;
      fld "s" TStr;
      fld_with "h" (TTuple [TInt; TClass float])
        (VTuple [VInt 1; VFloat 11 (-1)]) ].

(** Index 5: dates, one of them with a default. *)
Definition DcDateTime : dataclass :=
  plain "DcDateTime"
    [ fld "a" (TClass datetime);
      fld_with "b" (TClass date) (VObject "datetime.date(2000, 1, 1)") ].

(** Index 6 and 7: [Outer] has a field of type [Node], and [Node] has a
    field of its own type. *)
Definition Outer : dataclass :=
  plain "Outer" [ fld "tree" (TDataclass 7) ].

Definition Node : dataclass :=
  plain "Node" [ fld "next" (TUnion [TDataclass 7; TNone]) ].

(** Index 8: a mapping keyed by integers. *)
Definition DcIntKeys : dataclass :=
  plain "DcIntKeys" [ fld "a" TStr; fld "m" (TDict [TInt; TStr]) ].

(** Index 9: a record with a [SchemaConfig]. *)
Definition DcConfigured : dataclass :=
  {| dc_name := "DcConfigured";
     dc_fields := [ fld "x" TInt ];
     dc_SchemaConfig :=
       Some (Some {| title := Some "Configured";
                     description := Some "a record with its own payload";
                     examples := None; deprecated := Some true;
                     min_length := None; max_length := None;
                     pattern := None; format := None; minimum := None;
                     maximum := None; exclusive_minimum := None;
                     exclusive_maximum := None; multiple_of := None;
                     min_items := None; max_items := None;
                     unique_items := None |}) |}.

(** Index 10: a record that holds a configured record. *)
Definition DcHolder : dataclass :=
  plain "DcHolder" [ fld "c" (TDataclass 9) ].

Definition classes : list dataclass :=
  [ DcRefs; DcRefsChild; DcRefsSelf; DcEnum; DcOptional; DcDateTime;
    Outer; Node; DcIntKeys; DcConfigured; DcHolder ].

(** The compiler object as [__call__] leaves it before compiling. *)
Definition fresh (dc : nat) : GetSchema :=
  {| root := dc; seen_root := false; defs := [] |}.

End Fixtures.

(** The reference fragment [{"allOf": [{"$ref": target}], **metadata}]. *)
Definition reference (target : string) (annotation : SchemaAnnotation)
    : pydict :=
  Dict.display [ KV "allOf" (ref_to target); Spread (schema annotation) ].

(** An object fragment that carries the payload of the record's
    [SchemaConfig] next to its type and title. *)
Definition carries_config (cls : dataclass) (sch : pydict) : Prop :=
  Dict.get "type" sch = Some (VStr "object")
  /\ (title (config_annotation cls) = None ->
      Dict.get "title" sch = Some (VStr (dc_name cls)))
  /\ (forall k v, Dict.get k (schema (config_annotation cls)) = Some v ->
                  Dict.get k sch = Some v)
  /\ (forall k, In k (Dict.keys sch) ->
                In k ["type"; "title"; "properties"; "required"]
                \/ In k (Dict.keys (schema (config_annotation cls))))
  /\ (dc_SchemaConfig cls = None ->
      forall k, In k (Dict.keys sch) ->
                In k ["type"; "title"; "properties"; "required"]).

(** The class reaches the [enum.Enum] test of the dispatcher. *)
Definition is_enum (c : pyclass) : bool :=
  negb (sub_Number c) && sub_Enum c.

(** The type mentions an enumeration named [n] that the dispatcher
    would register: one that reaches the [enum.Enum] test, in the type
    itself or in an argument of it.  Records are not looked into. *)
Fixpoint mentions_enum (n : string) (t : ty) : bool :=
  match t with
  | TUnion args => existsb (mentions_enum n) args
  | TAnnotated base _ => mentions_enum n base
  | TDict args => existsb (mentions_enum n) args
  | TList args => existsb (mentions_enum n) args
  | TTuple args => existsb (mentions_enum n) args
  | TSet args => existsb (mentions_enum n) args
  | TClass c => is_enum c && String.eqb (cls_name c) n
  | _ => false
  end.

(** The name [n] is used by the record of index [dc] alone: no other
    record of the program is called [n], and no field of the program
    mentions an enumeration called [n]. *)
Definition unshared_name (classes : list dataclass) (dc : nat) (n : string)
    : Prop :=
  forall i cls,
    nth_error classes i = Some cls ->
    (i <> dc -> dc_name cls <> n)
    /\ (forall f, In f (dc_fields cls) ->
                  mentions_enum n (fld_type f) = false).

(** The compiler object compiles for the root [dc] and has nothing
    registered under [n]. *)
Definition unregistered (dc : nat) (n : string) (st : GetSchema) : Prop :=
  root st = dc /\ ~ In n (Dict.keys (defs st)).

(** The fragment at a reference to a named enumeration. *)
Definition enum_reference (name : string) (default : option pyval)
    (annotation : SchemaAnnotation) : pydict :=
  match default with
  | Some (VEnumMember _ _ value _) =>
      Dict.display [ KV "allOf" (ref_to (defs_path name));
                     KV "default" value;
                     Spread (schema annotation) ]
  | _ => reference (defs_path name) annotation
  end.

(** The fragment of a date or date-time type. *)
Definition temporal_fragment (fmt : string) (annotation : SchemaAnnotation)
    : pydict :=
  Dict.display [ KV "type" (VStr "string");
                 KV "format" (VStr fmt);
                 Spread (schema annotation) ].

(** The class reaches the [datetime.datetime] test of the dispatcher and
    passes it. *)
Definition is_datetime (c : pyclass) : bool :=
  negb (sub_Number c) && negb (sub_Enum c) && sub_datetime c.

(** The class reaches the [datetime.date] test of the dispatcher and
    passes it. *)
Definition is_date (c : pyclass) : bool :=
  negb (sub_Number c) && negb (sub_Enum c) && negb (sub_datetime c)
  && sub_date c.

(** The typed object built from the thirteen fields the free function
    knows. *)
Definition typed_of
    (title description : option string) (examples : option (list pyval))
    (deprecated : option bool) (min_length max_length : option Z)
    (pattern format_ : option string)
    (minimum maximum exclusive_minimum exclusive_maximum multiple_of
       : option number) : SchemaAnnotation :=
  {| title := title; description := description; examples := examples;
     deprecated := deprecated; min_length := min_length;
     max_length := max_length; pattern := pattern; format := format_;
     minimum := minimum; maximum := maximum;
     exclusive_minimum := exclusive_minimum;
     exclusive_maximum := exclusive_maximum; multiple_of := multiple_of;
     min_items := None; max_items := None; unique_items := None |}.

(** A value as it comes back from JSON: what [json.loads] gives for the
    text [json.dumps] wrote for it.  A value that cannot be encoded is
    left as it is. *)
Definition through_json (v : pyval) : pyval :=
  match Legacy.encode v with
  | Some j => Legacy.decode j
  | None => v
  end.

(** The payload with its examples as they come back from JSON. *)
Definition decoded (a : SchemaAnnotation) : SchemaAnnotation :=
  {| title := title a; description := description a;
     examples := option_map (map through_json) (examples a);
     deprecated := deprecated a; min_length := min_length a;
     max_length := max_length a; pattern := pattern a; format := format a;
     minimum := minimum a; maximum := maximum a;
     exclusive_minimum := exclusive_minimum a;
     exclusive_maximum := exclusive_maximum a;
     multiple_of := multiple_of a; min_items := min_items a;
     max_items := max_items a; unique_items := unique_items a |}.

Fixpoint distinct (l : list string) : bool :=
  match l with
  | [] => true
  | x :: r => negb (existsb (String.eqb x) r) && distinct r
  end.

(** A value that JSON has as such: [None], a bool, an int, a float, a
    [str], a list of such values, or a dict, with one entry per key, of
    such values. *)
Fixpoint json_native (v : pyval) : bool :=
  match v with
  | VNone | VBool _ | VInt _ | VFloat _ _ | VStr _ => true
  | VList l => forallb json_native l
  | VDict d =>
      distinct (map fst d) && forallb (fun kv => json_native (snd kv)) d
  | _ => false
  end.

(** A value that [json.dumps] accepts: a value that JSON has, a tuple,
    or a member of an enumeration that mixes in the type of its values,
    all the way down. *)
Fixpoint json_serialisable (v : pyval) : bool :=
  match v with
  | VNone | VBool _ | VInt _ | VFloat _ _ | VStr _ => true
  | VList l => forallb json_serialisable l
  | VTuple l => forallb json_serialisable l
  | VDict d => forallb (fun kv => json_serialisable (snd kv)) d
  | VEnumMember _ _ value true => json_serialisable value
  | _ => false
  end.

Definition all_examples (P : pyval -> bool) (e : option (list pyval)) : bool :=
  match e with
  | Some l => forallb P l
  | None => true
  end.

(** The number, if there is one, is an int or a float. *)
Definition json_number (n : option number) : bool :=
  match n with
  | Some (NOther _) => false
  | _ => true
  end.

(** * Vocabulary of the further properties *)

(** The type is an [Annotated] wrapper. *)
Definition is_annotated (t : ty) : bool :=
  match t with TAnnotated _ _ => true | _ => false end.

(** The type is the root record and the root has not been emitted. *)
Definition first_root_emission (t : ty) (st : GetSchema) : bool :=
  match t with
  | TDataclass dc => Nat.eqb dc (root st) && negb (seen_root st)
  | _ => false
  end.

(** The JSON type name of the builtin types and of the subclasses of
    [numbers.Number]. *)
Definition primitive_name (t : ty) : option string :=
  match t with
  | TNone => Some "null"
  | TStr => Some "string"
  | TBool => Some "boolean"
  | TInt => Some "integer"
  | TClass c => if sub_Number c then Some "number" else None
  | _ => None
  end.

(** A container without type arguments. *)
Definition bare_container (t : ty) : option string :=
  match t with
  | TDict [] => Some "object"
  | TList [] | TSet [] | TTuple [] => Some "array"
  | _ => None
  end.

(** The argument list of [tuple[T, ...]]. *)
Definition variadic (args : list ty) : bool :=
  match args with
  | [_; TEllipsis] => true
  | _ => false
  end.


(** A type that cannot be compiled, whatever the state: an unsupported
    class, a stray [...], a wrapper or container with the wrong number of
    arguments, a mapping with a key type other than [str], or a union,
    wrapper or container of such a type.  Records are not looked into. *)
Fixpoint broken (t : ty) : bool :=
  match t with
  | TDataclass _ => false
  | TUnion args => existsb broken args
  | TLiteral _ => false
  | TAnnotated base metadata =>
      negb (Nat.eqb (List.length metadata) 1) || broken base
  | TDict args =>
      match args with
      | [] => false
      | [key; value] => negb (is_str key) || broken value
      | _ => true
      end
  | TList args | TSet args =>
      match args with
      | [] => false
      | [arg0] => broken arg0
      | _ => true
      end
  | TTuple args =>
      match args with
      | [arg0; TEllipsis] => broken arg0
      | _ => existsb broken args
      end
  | TNone | TStr | TBool | TInt => false
  | TClass c =>
      negb (sub_Number c || sub_Enum c || sub_datetime c || sub_date c)
  | TEllipsis => true
  end.

(** * Further example values *)

Module MoreFixtures.

(** [SchemaAnnotation(unique_items=False, min_items=5)] *)
Definition loose : SchemaAnnotation :=
  {| title := None; description := None; examples := None;
     deprecated := None; min_length := None; max_length := None;
     pattern := None; format := None; minimum := None; maximum := None;
     exclusive_minimum := None; exclusive_maximum := None;
     multiple_of := None; min_items := Some 5%Z; max_items := None;
     unique_items := Some false |}.

(** An [enum.IntEnum]: an enumeration that is an [int], hence a
    [numbers.Number]. *)
Definition Level : pyclass :=
  {| cls_name := "Level"; sub_Number := true; sub_Enum := true;
     sub_datetime := false; sub_date := false;
     cls_members := [("LOW", VInt 1); ("HIGH", VInt 2)] |}.

Definition Level_LOW : pyval := VEnumMember "Level" "LOW" (VInt 1) true.


(** A class the compiler knows nothing about. *)
Definition Path : pyclass :=
  {| cls_name := "Path"; sub_Number := false; sub_Enum := false;
     sub_datetime := false; sub_date := false; cls_members := [] |}.

End MoreFixtures.

(** The $defs entry of a named enumeration. *)
Definition enum_definition (c : pyclass) : pyval :=
  VDict [ ("title", VStr (cls_name c));
          ("enum", VList (map snd (cls_members c))) ].

(** The value is a member of an enumeration. *)
Definition is_member (v : pyval) : bool :=
  match v with VEnumMember _ _ _ _ => true | _ => false end.

Module Collision.

(** Index 0: the root.  Index 1 and 2: two records that are both named
    [Item]; the second one has a field that cannot be compiled. *)
Definition Basket : dataclass :=
  Fixtures.plain "Basket"
    [ Fixtures.fld "first" (TDataclass 1);
      Fixtures.fld "second" (TDataclass 2) ].

Definition Item : dataclass :=
  Fixtures.plain "Item" [ Fixtures.fld "sku" TStr ].

Definition OtherItem : dataclass :=
  Fixtures.plain "Item" [ Fixtures.fld "where" (TClass MoreFixtures.Path) ].

Definition classes : list dataclass := [ Basket; Item; OtherItem ].

End Collision.

(** The nesting depth of a type: the number of nested calls of
    [get_field_schema] it takes when no record is entered. *)
Fixpoint depth (t : ty) : nat :=
  match t with
  | TUnion args | TDict args | TList args | TTuple args | TSet args =>
      S (list_max (map depth args))
  | TAnnotated base _ => S (depth base)
  | _ => 1
  end.

(** A type that mentions no record other than [r] and no named
    enumeration. *)
Fixpoint self_contained (r : nat) (t : ty) : bool :=
  match t with
  | TDataclass dc => Nat.eqb dc r
  | TUnion args | TDict args | TList args | TTuple args | TSet args =>
      forallb (self_contained r) args
  | TAnnotated base _ => self_contained r base
  | TClass c => negb (is_enum c)
  | _ => true
  end.

(** The computation comes to an end in [st], with a result and the
    state as it was, or with an exception. *)
Definition settles {A : Type} (m : M A) (st : GetSchema) : Prop :=
  match m st with
  | Ok (_, st') => st' = st
  | Raise _ => True
  | OutOfFuel => False
  end.

(** * The older compiler

    [dataclass_schema/dataclass_schema.py] holds an older [_GetSchema].
    Its metadata is the text that [annotation] returns, carried as
    [extra] and decoded at the start of every function; a nested call
    passes [None].  It knows no [SchemaConfig]. *)

Module LegacyCompiler.

Import Legacy.

(** Type hints whose [Annotated] payloads are encoded texts. *)
Inductive lty : Type :=
| LDataclass (dc : nat)
| LUnion (args : list lty)
| LLiteral (args : list pyval)
| LAnnotated (base : lty) (metadata : list json_text)
| LDict (args : list lty)
| LList (args : list lty)
| LTuple (args : list lty)
| LSet (args : list lty)
| LNone
| LStr
| LBool
| LInt
| LClass (c : pyclass)
| LEllipsis.

Record lfield : Type := {
  lfld_name : string;
  lfld_type : lty;
  lfld_default : option pyval;
  lfld_default_factory : option (unit -> pyval)
}.

Record ldataclass : Type := {
  ldc_name : string;
  ldc_fields : list lfield
}.

Definition l_is_str (t : lty) : bool :=
  match t with LStr => true | _ => false end.

Section Compiler.

Variable classes : list ldataclass.

Definition lookup_class (dc : nat) : M ldataclass :=
  match nth_error classes dc with
  | Some cls => ret cls
  | None => raise NameError
  end.

Section Body.

Variable rec : lty -> option pyval -> option json_text -> M pydict.

Definition add_field (schema1 : pydict) (fld : lfield) : M pydict :=
  let type_ := lfld_type fld in
  prop <- rec type_ (lfld_default fld) None ;;
  schema1 <- setitem_in "properties" (lfld_name fld) (VDict prop) schema1 ;;
  let field_is_optional :=
    is_present (lfld_default fld) || is_present (lfld_default_factory fld) in
  if negb field_is_optional
  then append_in "required" (VStr (lfld_name fld)) schema1
  else ret schema1.

Definition create_dc_schema (dc : nat) : M pydict :=
  cls <- lookup_class dc ;;
  let schema0 :=
    Dict.display [ KV "type" (VStr "object");
                   KV "title" (VStr (ldc_name cls));
                   KV "properties" (VDict []);
                   KV "required" (VList []) ] in
  schema1 <- foldM add_field (ldc_fields cls) schema0 ;;
  no_required <- is_empty_in "required" schema1 ;;
  if no_required then ret (Dict.pop "required" schema1) else ret schema1.

Definition get_dc_schema (dc : nat) (extra : option json_text) : M pydict :=
  let extra := load_extra extra in
  self <- get_self ;;
  if Nat.eqb dc (root self) then
    if seen_root self then
      ret (Dict.display [ KV "allOf" (ref_to "#"); Spread extra ])
    else
      set_seen_root true ;;;
      schema1 <- create_dc_schema dc ;;
      ret schema1
  else
    cls <- lookup_class dc ;;
    (if negb (Dict.contains (ldc_name cls) (defs self)) then
       schema1 <- create_dc_schema dc ;;
       set_def (ldc_name cls) (VDict schema1)
     else ret tt) ;;;
    ret (Dict.display [ KV "allOf" (ref_to (defs_path (ldc_name cls)));
                        Spread extra ]).

Definition get_union_schema (args : list lty) (default : option pyval)
    (extra : option json_text) : M pydict :=
  let extra := load_extra extra in
  match default with
  | None =>
      any_of <- mapM (fun arg => rec arg None None) args ;;
      ret (Dict.display [ KV "anyOf" (VList (map VDict any_of));
                          Spread extra ])
  | Some d =>
      any_of <- mapM (fun arg => rec arg None None) args ;;
      ret (Dict.display [ KV "anyOf" (VList (map VDict any_of));
                          KV "default" d;
                          Spread extra ])
  end.

Definition get_literal_schema (args : list pyval) (default : option pyval)
    (extra : option json_text) : M pydict :=
  let extra := load_extra extra in
  let schema1 :=
    match default with
    | None => Dict.display [ Spread extra ]
    | Some d => Dict.display [ KV "default" d; Spread extra ]
    end in
  ret (Dict.display [ KV "enum" (VList args); Spread schema1 ]).

Definition get_dict_schema (args : list lty) (extra : option json_text)
    : M pydict :=
  let extra := load_extra extra in
  if negb (Nat.eqb (List.length args) 0 || Nat.eqb (List.length args) 2)
  then raise AssertionError
  else
    match args with
    | [] => ret (Dict.display [ KV "type" (VStr "object"); Spread extra ])
    | key :: _ =>
        if negb (l_is_str key) then raise AssertionError
        else
          match nth_error args 1 with
          | Some value =>
              additional <- rec value None None ;;
              ret (Dict.display [ KV "type" (VStr "object");
                                  KV "additionalProperties" (VDict additional);
                                  Spread extra ])
          | None => raise IndexError
          end
    end.

Definition get_list_schema (args : list lty) (extra : option json_text)
    : M pydict :=
  let extra := load_extra extra in
  if negb (Nat.eqb (List.length args) 0 || Nat.eqb (List.length args) 1)
  then raise AssertionError
  else
    match args with
    | arg0 :: _ =>
        items <- rec arg0 None None ;;
        ret (Dict.display [ KV "type" (VStr "array");
                            KV "items" (VDict items);
                            Spread extra ])
    | [] => ret (Dict.display [ KV "type" (VStr "array"); Spread extra ])
    end.

Definition get_tuple_schema (args : list lty) (default : option pyval)
    (extra : option json_text) : M pydict :=
  let extra := load_extra extra in
  schema1 <-
    match default with
    | None => ret (Dict.display [ Spread extra ])
    | Some d =>
        l <- py_list d ;;
        ret (Dict.display [ KV "default" (VList l); Spread extra ])
    end ;;
  match args with
  | [arg0; LEllipsis] =>
      items <- rec arg0 None None ;;
      ret (Dict.display [ KV "type" (VStr "array");
                          KV "items" (VDict items);
                          Spread schema1 ])
  | _ :: _ =>
      prefix <- mapM (fun arg => rec arg None None) args ;;
      ret (Dict.display [ KV "type" (VStr "array");
                          KV "prefixItems" (VList (map VDict prefix));
                          KV "minItems" (VInt (Z.of_nat (List.length args)));
                          KV "maxItems" (VInt (Z.of_nat (List.length args)));
                          Spread schema1 ])
  | [] => ret (Dict.display [ KV "type" (VStr "array"); Spread schema1 ])
  end.

Definition get_set_schema (args : list lty) (extra : option json_text)
    : M pydict :=
  let extra := load_extra extra in
  if negb (Nat.eqb (List.length args) 0 || Nat.eqb (List.length args) 1)
  then raise AssertionError
  else
    match args with
    | arg0 :: _ =>
        items <- rec arg0 None None ;;
        ret (Dict.display [ KV "type" (VStr "array");
                            KV "items" (VDict items);
                            KV "uniqueItems" (VBool true);
                            Spread extra ])
    | [] => ret (Dict.display [ KV "type" (VStr "array");
                                KV "uniqueItems" (VBool true);
                                Spread extra ])
    end.

(** [get_none_schema], [get_str_schema], [get_bool_schema],
    [get_int_schema] and [get_number_schema] differ in the type name
    only. *)
Definition get_primitive_schema (type_name : string) (default : option pyval)
    (extra : option json_text) : M pydict :=
  let extra := load_extra extra in
  match default with
  | None => ret (Dict.display [ KV "type" (VStr type_name); Spread extra ])
  | Some d => ret (Dict.display [ KV "type" (VStr type_name);
                                  KV "default" d;
                                  Spread extra ])
  end.

Definition get_none_schema := get_primitive_schema "null".
Definition get_str_schema := get_primitive_schema "string".
Definition get_bool_schema := get_primitive_schema "boolean".
Definition get_int_schema := get_primitive_schema "integer".
Definition get_number_schema := get_primitive_schema "number".

Definition get_enum_schema (type_ : pyclass) (default : option pyval)
    (extra : option json_text) : M pydict :=
  let extra := load_extra extra in
  self <- get_self ;;
  (if negb (Dict.contains (cls_name type_) (defs self)) then
     set_def (cls_name type_)
       (VDict (Dict.display
                 [ KV "title" (VStr (cls_name type_));
                   KV "enum" (VList (map snd (cls_members type_))) ]))
   else ret tt) ;;;
  match default with
  | None =>
      ret (Dict.display [ KV "allOf" (ref_to (defs_path (cls_name type_)));
                          Spread extra ])
  | Some d =>
      value <- py_value d ;;
      ret (Dict.display [ KV "allOf" (ref_to (defs_path (cls_name type_)));
                          KV "default" value;
                          Spread extra ])
  end.

Definition get_annotated_schema (base : lty) (metadata : list json_text)
    (default : option pyval) : M pydict :=
  match metadata with
  | [extra] => rec base default (Some extra)
  | _ => raise AssertionError
  end.

Definition get_datetime_schema (extra : option json_text) : M pydict :=
  let extra := load_extra extra in
  ret (Dict.display [ KV "type" (VStr "string");
                      KV "format" (VStr "date-time");
                      Spread extra ]).

Definition get_date_schema (extra : option json_text) : M pydict :=
  let extra := load_extra extra in
  ret (Dict.display [ KV "type" (VStr "string");
                      KV "format" (VStr "date");
                      Spread extra ]).

Definition dispatch (type_ : lty) (default : option pyval)
    (extra : option json_text) : M pydict :=
  match type_ with
  | LDataclass dc => get_dc_schema dc extra
  | LUnion args => get_union_schema args default extra
  | LLiteral args => get_literal_schema args default extra
  | LAnnotated base metadata => get_annotated_schema base metadata default
  | LDict args => get_dict_schema args extra
  | LList args => get_list_schema args extra
  | LTuple args => get_tuple_schema args default extra
  | LSet args => get_set_schema args extra
  | LNone => get_none_schema default extra
  | LStr => get_str_schema default extra
  | LBool => get_bool_schema default extra
  | LInt => get_int_schema default extra
  | LClass c =>
      if sub_Number c then get_number_schema default extra
      else if sub_Enum c then get_enum_schema c default extra
      else if sub_datetime c then get_datetime_schema extra
      else if sub_date c then get_date_schema extra
      else raise NotImplementedError
  | LEllipsis => raise TypeError
  end.

End Body.

Fixpoint get_field_schema (fuel : nat) (type_ : lty) (default : option pyval)
    (extra : option json_text) : M pydict :=
  match fuel with
  | O => fun _ => OutOfFuel
  | S fuel' => dispatch (get_field_schema fuel') type_ default extra
  end.

(** [_GetSchema.__call__] *)
Definition GetSchema_call (fuel : nat) (dc : nat) : outcome pydict :=
  let self := {| root := dc; seen_root := false; defs := [] |} in
  match get_dc_schema (get_field_schema fuel) dc None self with
  | Ok (schema1, self') =>
      let schema2 :=
        match defs self' with
        | [] => schema1
        | _ :: _ => Dict.set "$defs" (VDict (defs self')) schema1
        end in
      Ok (Dict.display
            [ KV "$schema" (VStr "https://json-schema.org/draft/2020-12/schema");
              Spread schema2 ])
  | Raise e => Raise e
  | OutOfFuel => OutOfFuel
  end.

Definition get_schema (fuel : nat) (dc : nat) : outcome pydict :=
  GetSchema_call fuel dc.

End Compiler.

(** ** The same program for the older compiler

    The type hints of the newer compiler, with every payload replaced by
    the text that [json.dumps] returns for its keyword mapping, as
    [annotation] does.  There is no such program when a payload cannot
    be encoded. *)

Definition ok_value {A : Type} (o : outcome A) : option A :=
  match o with Ok a => Some a | _ => None end.

Fixpoint to_legacy (t : ty) : option lty :=
  match t with
  | TDataclass dc => Some (LDataclass dc)
  | TUnion args => option_map LUnion (all_some (map to_legacy args))
  | TLiteral args => Some (LLiteral args)
  | TAnnotated base metadata =>
      match to_legacy base,
            all_some (map (fun m => ok_value (json_dumps (schema m))) metadata)
      with
      | Some base', Some metadata' => Some (LAnnotated base' metadata')
      | _, _ => None
      end
  | TDict args => option_map LDict (all_some (map to_legacy args))
  | TList args => option_map LList (all_some (map to_legacy args))
  | TTuple args => option_map LTuple (all_some (map to_legacy args))
  | TSet args => option_map LSet (all_some (map to_legacy args))
  | TNone => Some LNone
  | TStr => Some LStr
  | TBool => Some LBool
  | TInt => Some LInt
  | TClass c => Some (LClass c)
  | TEllipsis => Some LEllipsis
  end.

Definition to_legacy_field (f : field) : option lfield :=
  option_map (fun t => {| lfld_name := fld_name f;
                          lfld_type := t;
                          lfld_default := fld_default f;
                          lfld_default_factory := fld_default_factory f |})
             (to_legacy (fld_type f)).

Definition to_legacy_class (cls : dataclass) : option ldataclass :=
  option_map (fun fields => {| ldc_name := dc_name cls;
                               ldc_fields := fields |})
             (all_some (map to_legacy_field (dc_fields cls))).

Definition to_legacy_program (classes : list dataclass)
    : option (list ldataclass) :=
  all_some (map to_legacy_class classes).

End LegacyCompiler.

(** The type hints with every payload as it comes back from JSON. *)
Fixpoint decoded_type (t : ty) : ty :=
  match t with
  | TUnion args => TUnion (map decoded_type args)
  | TAnnotated base metadata =>
      TAnnotated (decoded_type base) (map decoded metadata)
  | TDict args => TDict (map decoded_type args)
  | TList args => TList (map decoded_type args)
  | TTuple args => TTuple (map decoded_type args)
  | TSet args => TSet (map decoded_type args)
  | _ => t
  end.

Definition decoded_field (f : field) : field :=
  {| fld_name := fld_name f;
     fld_type := decoded_type (fld_type f);
     fld_default := fld_default f;
     fld_default_factory := fld_default_factory f |}.

Definition decoded_class (cls : dataclass) : dataclass :=
  {| dc_name := dc_name cls;
     dc_fields := map decoded_field (dc_fields cls);
     dc_SchemaConfig := dc_SchemaConfig cls |}.

(** The examples of every payload in the type are values that JSON
    has. *)
Fixpoint native_type (t : ty) : bool :=
  match t with
  | TUnion args => forallb native_type args
  | TAnnotated base metadata =>
      native_type base
      && forallb (fun m => all_examples json_native (examples m)) metadata
  | TDict args => forallb native_type args
  | TList args => forallb native_type args
  | TTuple args => forallb native_type args
  | TSet args => forallb native_type args
  | _ => true
  end.

Definition native_program (classes : list dataclass) : bool :=
  forallb (fun cls => forallb (fun f => native_type (fld_type f))
                              (dc_fields cls))
          classes.

Module Annotated.

(** [SchemaAnnotation(min_length=3, max_length=5)] *)
Definition short_text : SchemaAnnotation :=
  {| title := None; description := None; examples := None;
     deprecated := None; min_length := Some 3%Z; max_length := Some 5%Z;
     pattern := None; format := None; minimum := None; maximum := None;
     exclusive_minimum := None; exclusive_maximum := None;
     multiple_of := None; min_items := None; max_items := None;
     unique_items := None |}.

(** Index 0: a record with an annotated field and a reference to the
    record of index 1. *)
Definition DcStrAnnotated : dataclass :=
  Fixtures.plain "DcStrAnnotated"
    [ Fixtures.fld "a" (TAnnotated TStr [short_text]);
      Fixtures.fld "tags" (TList [TDataclass 1]) ].

Definition Tag : dataclass :=
  Fixtures.plain "Tag" [ Fixtures.fld_with "name" TStr (VStr "none") ].

Definition classes : list dataclass := [ DcStrAnnotated; Tag ].

(** [SchemaAnnotation(examples=[(1, 2)])] *)
Definition pair_example : SchemaAnnotation :=
  {| title := None; description := None;
     examples := Some [VTuple [VInt 1; VInt 2]];
     deprecated := None; min_length := None; max_length := None;
     pattern := None; format := None; minimum := None; maximum := None;
     exclusive_minimum := None; exclusive_maximum := None;
     multiple_of := None; min_items := None; max_items := None;
     unique_items := None |}.

(** A record with a field whose payload holds a tuple. *)
Definition DcPair : dataclass :=
  Fixtures.plain "DcPair"
    [ Fixtures.fld "p" (TAnnotated (TTuple [TInt; TInt]) [pair_example]) ].

End Annotated.

(** * Induction principles

    Values and type hints are nested in lists; these principles give an
    induction hypothesis for every element. *)

Section ValueInduction.

Variable P : pyval -> Prop.
Hypothesis P_None : P VNone.
Hypothesis P_Bool : forall b, P (VBool b).
Hypothesis P_Int : forall z, P (VInt z).
Hypothesis P_Float : forall m e, P (VFloat m e).
Hypothesis P_Str : forall s, P (VStr s).
Hypothesis P_List : forall l, Forall P l -> P (VList l).
Hypothesis P_Tuple : forall l, Forall P l -> P (VTuple l).
Hypothesis P_Dict : forall d, Forall (fun kv => P (snd kv)) d -> P (VDict d).
Hypothesis P_EnumMember :
  forall cls name value mixed, P value -> P (VEnumMember cls name value mixed).
Hypothesis P_Iter : forall repr items, P (VIter repr items).
Hypothesis P_Object : forall repr, P (VObject repr).

Fixpoint value_ind (v : pyval) : P v :=
  match v with
  | VNone => P_None
  | VBool b => P_Bool b
  | VInt z => P_Int z
  | VFloat m e => P_Float m e
  | VStr s => P_Str s
  | VList l =>
      P_List ((fix all (l : list pyval) : Forall P l :=
                 match l with
                 | [] => Forall_nil P
                 | x :: r => Forall_cons x (value_ind x) (all r)
                 end) l)
  | VTuple l =>
      P_Tuple ((fix all (l : list pyval) : Forall P l :=
                  match l with
                  | [] => Forall_nil P
                  | x :: r => Forall_cons x (value_ind x) (all r)
                  end) l)
  | VDict d =>
      P_Dict ((fix all (d : list (string * pyval))
                 : Forall (fun kv => P (snd kv)) d :=
                 match d with
                 | [] => Forall_nil _
                 | (k, x) :: r =>
                     Forall_cons (P := fun kv => P (snd kv)) (k, x)
                       (value_ind x) (all r)
                 end) d)
  | VEnumMember cls name value mixed =>
      P_EnumMember cls name mixed (value_ind value)
  | VIter repr items => P_Iter repr items
  | VObject repr => P_Object repr
  end.

End ValueInduction.

Section TypeInduction.

Variable P : ty -> Prop.
Hypothesis P_Dataclass : forall dc, P (TDataclass dc).
Hypothesis P_Union : forall args, Forall P args -> P (TUnion args).
Hypothesis P_Literal : forall args, P (TLiteral args).
Hypothesis P_Annotated : forall base metadata,
  P base -> P (TAnnotated base metadata).
Hypothesis P_Dict : forall args, Forall P args -> P (TDict args).
Hypothesis P_List : forall args, Forall P args -> P (TList args).
Hypothesis P_Tuple : forall args, Forall P args -> P (TTuple args).
Hypothesis P_Set : forall args, Forall P args -> P (TSet args).
Hypothesis P_None : P TNone.
Hypothesis P_Str : P TStr.
Hypothesis P_Bool : P TBool.
Hypothesis P_Int : P TInt.
Hypothesis P_Class : forall c, P (TClass c).
Hypothesis P_Ellipsis : P TEllipsis.

Fixpoint type_ind (t : ty) : P t :=
  let all :=
    fix all (l : list ty) : Forall P l :=
      match l with
      | [] => Forall_nil P
      | x :: r => Forall_cons x (type_ind x) (all r)
      end in
  match t with
  | TDataclass dc => P_Dataclass dc
  | TUnion args => P_Union (all args)
  | TLiteral args => P_Literal args
  | TAnnotated base metadata => P_Annotated metadata (type_ind base)
  | TDict args => P_Dict (all args)
  | TList args => P_List (all args)
  | TTuple args => P_Tuple (all args)
  | TSet args => P_Set (all args)
  | TNone => P_None
  | TStr => P_Str
  | TBool => P_Bool
  | TInt => P_Int
  | TClass c => P_Class c
  | TEllipsis => P_Ellipsis
  end.

End TypeInduction.
(** * Properties *)

(** ** Dictionaries *)

Module DictFacts.

Import Dict.

Lemma get_set_same (k : string) (v : pyval) (d : pydict) :
  get k (set k v d) = Some v.
Proof.
  induction d as [|[k' v'] r IH]; simpl.
  - now rewrite String.eqb_refl.
  - destruct (String.eqb k k') eqn:E; simpl.
    + now rewrite String.eqb_refl.
    + now rewrite E.
Qed.

Lemma get_set_other (k k' : string) (v : pyval) (d : pydict) :
  k <> k' -> get k (set k' v d) = get k d.
Proof.
  intros Hne. induction d as [|[k0 v0] r IH]; simpl.
  - apply String.eqb_neq in Hne. now rewrite Hne.
  - destruct (String.eqb k' k0) eqn:E; simpl.
    + apply String.eqb_eq in E. subst k0.
      apply String.eqb_neq in Hne. now rewrite Hne.
    + destruct (String.eqb k k0); auto.
Qed.

Lemma get_in_keys (k : string) (d : pydict) :
  In k (keys d) <-> get k d <> None.
Proof.
  induction d as [|[k' v'] r IH]; simpl.
  - split; [tauto | congruence].
  - destruct (String.eqb k k') eqn:E.
    + apply String.eqb_eq in E. subst. split; [congruence | auto].
    + apply String.eqb_neq in E. rewrite <- IH. split.
      * intros [H|H]; [congruence | exact H].
      * auto.
Qed.

Lemma get_none_not_in (k : string) (d : pydict) :
  get k d = None <-> ~ In k (keys d).
Proof.
  rewrite get_in_keys. destruct (get k d); intuition congruence.
Qed.

Lemma contains_in_keys (k : string) (d : pydict) :
  contains k d = true <-> In k (keys d).
Proof.
  unfold contains. rewrite get_in_keys.
  destruct (get k d); split; congruence.
Qed.

Lemma keys_set (k : string) (v : pyval) (d : pydict) :
  keys (set k v d) = if contains k d then keys d else keys d ++ [k].
Proof.
  unfold contains. induction d as [|[k' v'] r IH]; simpl; auto.
  destruct (String.eqb k k') eqn:E; simpl.
  - apply String.eqb_eq in E. now subst.
  - rewrite IH. destruct (get k r); reflexivity.
Qed.

Lemma in_keys_set (k k' : string) (v : pyval) (d : pydict) :
  In k (keys (set k' v d)) <-> k = k' \/ In k (keys d).
Proof.
  rewrite keys_set. destruct (contains k' d) eqn:E.
  - apply contains_in_keys in E. split; [auto | intros [->|H]; auto].
  - rewrite in_app_iff. simpl. intuition congruence.
Qed.

Lemma nodup_set (k : string) (v : pyval) (d : pydict) :
  NoDup (keys d) -> NoDup (keys (set k v d)).
Proof.
  intros Hd. rewrite keys_set. destruct (contains k d) eqn:E; auto.
  apply NoDup_app; auto.
  - repeat constructor. simpl. tauto.
  - intros x Hx [Hk|[]]. subst x.
    apply contains_in_keys in Hx. congruence.
Qed.

Lemma in_keys_update (k : string) (d e : pydict) :
  In k (keys (update d e)) <-> In k (keys d) \/ In k (keys e).
Proof.
  unfold update. revert d.
  induction e as [|[k' v'] r IH]; intros d; simpl.
  - tauto.
  - rewrite IH, in_keys_set. intuition.
Qed.

Lemma nodup_update (d e : pydict) :
  NoDup (keys d) -> NoDup (keys (update d e)).
Proof.
  unfold update. revert d.
  induction e as [|[k' v'] r IH]; intros d Hd; simpl; auto.
  apply IH. now apply nodup_set.
Qed.

Lemma get_update_other (k : string) (d e : pydict) :
  ~ In k (keys e) -> get k (update d e) = get k d.
Proof.
  unfold update. revert d.
  induction e as [|[k' v'] r IH]; intros d Hk; simpl in *; auto.
  rewrite IH by tauto. apply get_set_other. intros ->. tauto.
Qed.

Lemma get_update_in (k : string) (v : pyval) (d e : pydict) :
  NoDup (keys e) -> get k e = Some v -> get k (update d e) = Some v.
Proof.
  unfold update. revert d.
  induction e as [|[k' v'] r IH]; intros d Hnd Hget; simpl in *.
  - discriminate.
  - inversion Hnd as [|? ? Hnotin Hnd']; subst.
    destruct (String.eqb k k') eqn:E.
    + apply String.eqb_eq in E. subst k'. injection Hget as ->.
      fold (update (set k v d) r). rewrite get_update_other by exact Hnotin.
      apply get_set_same.
    + now apply IH.
Qed.

Lemma in_keys_pop (k k' : string) (d : pydict) :
  In k (keys (pop k' d)) -> In k (keys d).
Proof.
  induction d as [|[k0 v0] r IH]; simpl; auto.
  destruct (String.eqb k' k0); simpl; tauto.
Qed.

Lemma get_pop_same (k : string) (d : pydict) :
  NoDup (keys d) -> get k (pop k d) = None.
Proof.
  induction d as [|[k0 v0] r IH]; simpl; auto.
  intros Hnd. inversion Hnd as [|? ? Hnotin Hnd']; subst.
  destruct (String.eqb k k0) eqn:E; simpl.
  - apply String.eqb_eq in E. subst. now apply get_none_not_in.
  - rewrite E. auto.
Qed.

Lemma get_pop_other (k k' : string) (d : pydict) :
  k <> k' -> get k (pop k' d) = get k d.
Proof.
  intros Hne. induction d as [|[k0 v0] r IH]; simpl; auto.
  destruct (String.eqb k' k0) eqn:E; simpl.
  - apply String.eqb_eq in E. subst k0.
    apply String.eqb_neq in Hne. now rewrite Hne.
  - now rewrite IH.
Qed.

Lemma nodup_pop (k : string) (d : pydict) :
  NoDup (keys d) -> NoDup (keys (pop k d)).
Proof.
  induction d as [|[k0 v0] r IH]; simpl; auto.
  intros Hnd. inversion Hnd as [|? ? Hnotin Hnd']; subst.
  destruct (String.eqb k k0); simpl; auto.
  constructor; auto. intros Hin. apply Hnotin.
  eapply in_keys_pop. exact Hin.
Qed.

Lemma get_update (k : string) (d e : pydict) :
  NoDup (keys e) ->
  get k (update d e)
  = match get k e with Some v => Some v | None => get k d end.
Proof.
  intros Hnd. destruct (get k e) as [v|] eqn:E.
  - now apply get_update_in.
  - apply get_update_other. now apply get_none_not_in.
Qed.

Lemma count_not_in (k : string) (d : pydict) :
  ~ In k (keys d) -> count k d = 0.
Proof.
  unfold count. induction d as [|[k0 v0] r IH]; simpl; auto.
  intros Hk. destruct (String.eqb k k0) eqn:E.
  - apply String.eqb_eq in E. subst k0. exfalso. apply Hk. now left.
  - apply IH. tauto.
Qed.

Lemma count_nodup (k : string) (d : pydict) :
  NoDup (keys d) -> In k (keys d) -> count k d = 1.
Proof.
  induction d as [|[k0 v0] r IH]; simpl; [tauto|].
  intros Hnd Hin. inversion Hnd as [|? ? Hnotin Hnd']; subst.
  unfold count in *. simpl. destruct (String.eqb k k0) eqn:E.
  - apply String.eqb_eq in E. subst k0. simpl. f_equal.
    now apply (count_not_in k r).
  - apply String.eqb_neq in E. apply IH; auto.
    destruct Hin; [congruence | auto].
Qed.

Lemma nodup_display (items : list item) : NoDup (keys (display items)).
Proof.
  unfold display.
  assert (G : forall acc, NoDup (keys acc) ->
    NoDup (keys (fold_left (fun acc it =>
                 match it with
                 | KV k v => set k v acc
                 | Spread d => update acc d
                 end) items acc))).
  { induction items as [|[k v|e] r IH]; intros acc Hacc; simpl; auto.
    - apply IH. now apply nodup_set.
    - apply IH. now apply nodup_update. }
  apply G. constructor.
Qed.

End DictFacts.

(** ** The keywords of a metadata payload *)



Lemma asdict_names (a : SchemaAnnotation) : map fst (asdict a) = field_names.
Proof. reflexivity. Qed.

Lemma in_filter_keys {V : Type} (g : string -> string) (P : string * V -> bool)
    (l : list (string * V)) (k : string) :
  In k (map g (map fst (filter P l))) -> In k (map g (map fst l)).
Proof.
  induction l as [|x r IH]; simpl; auto.
  destruct (P x); simpl; tauto.
Qed.

Lemma nodup_filter_keys {V : Type} (g : string -> string)
    (P : string * V -> bool) (l : list (string * V)) :
  NoDup (map g (map fst l)) -> NoDup (map g (map fst (filter P l))).
Proof.
  induction l as [|x r IH]; simpl; auto.
  intros Hnd. inversion Hnd as [|? ? Hnotin Hnd']; subst.
  destruct (P x); simpl; auto.
  constructor; auto.
  intros Hin. apply Hnotin. eapply in_filter_keys. exact Hin.
Qed.

Lemma schema_keys (a : SchemaAnnotation) :
  Dict.keys (schema a)
  = map key_map_get
        (map fst (filter (fun kv => negb (is_None (snd kv))) (asdict a))).
Proof.
  unfold Dict.keys, schema. rewrite !map_map. reflexivity.
Qed.

Lemma schema_keys_incl (a : SchemaAnnotation) (k : string) :
  In k (Dict.keys (schema a)) -> In k keywords.
Proof.
  rewrite schema_keys. intros H. apply in_filter_keys in H.
  now rewrite asdict_names in H.
Qed.

Lemma keywords_nodup : NoDup keywords.
Proof.
  assert (nodup string_dec keywords = keywords) as H by (vm_compute; reflexivity).
  rewrite <- H. apply NoDup_nodup.
Qed.

Lemma schema_nodup (a : SchemaAnnotation) : NoDup (Dict.keys (schema a)).
Proof.
  rewrite schema_keys. apply nodup_filter_keys.
  rewrite asdict_names. exact keywords_nodup.
Qed.

Lemma schema_not_none (a : SchemaAnnotation) (k : string) (v : pyval) :
  In (k, v) (schema a) -> v <> VNone.
Proof.
  unfold schema. rewrite in_map_iff. intros [[k0 v0] [Heq Hin]].
  apply filter_In in Hin. destruct Hin as [_ Hv].
  simpl in *. injection Heq as _ <-. now destruct v0.
Qed.

(** A keyword that is none of the sixteen is not in a payload. *)
Lemma schema_lacks (a : SchemaAnnotation) (k : string) :
  existsb (String.eqb k) keywords = false -> ~ In k (Dict.keys (schema a)).
Proof.
  intros Hk Hin. apply schema_keys_incl in Hin.
  assert (existsb (String.eqb k) keywords = true) as Ht.
  { apply existsb_exists. exists k. split; auto. apply String.eqb_refl. }
  congruence.
Qed.

(** ** The monad *)

Lemma bind_ok {A B : Type} (m : M A) (f : A -> M B) (s : GetSchema)
    (b : B) (s2 : GetSchema) :
  bind m f s = Ok (b, s2) ->
  exists a s1, m s = Ok (a, s1) /\ f a s1 = Ok (b, s2).
Proof.
  unfold bind. destruct (m s) as [[a s1]| |]; try discriminate.
  intros H. now exists a, s1.
Qed.

Lemma ret_ok {A : Type} (a b : A) (s s' : GetSchema) :
  ret a s = Ok (b, s') -> b = a /\ s' = s.
Proof. unfold ret. intros H. injection H as -> ->. auto. Qed.


Lemma ext_refl (s : GetSchema) : ext s s.
Proof. constructor; auto. Qed.

Lemma ext_trans (s1 s2 s3 : GetSchema) : ext s1 s2 -> ext s2 s3 -> ext s1 s3.
Proof.
  intros [r1 n1 k1 d1] [r2 n2 k2 d2]. constructor; auto. congruence.
Qed.

Lemma preserving_ret {A : Type} (a : A) : preserving (ret a).
Proof. intros s b s' H. apply ret_ok in H as [_ ->]. apply ext_refl. Qed.

Lemma preserving_raise {A : Type} (e : exn) : preserving (@raise A e).
Proof. intros s b s' H. discriminate. Qed.

#[local] Hint Resolve preserving_ret preserving_raise : py_inv.

Lemma preserving_bind {A B : Type} (m : M A) (f : A -> M B) :
  preserving m -> (forall a, preserving (f a)) -> preserving (bind m f).
Proof.
  intros Hm Hf s b s2 H. apply bind_ok in H as (a & s1 & H1 & H2).
  eapply ext_trans; [eapply Hm | eapply Hf]; eassumption.
Qed.

Lemma preserving_get_self : preserving get_self.
Proof. intros s a s' H. injection H as _ <-. apply ext_refl. Qed.

Lemma preserving_set_seen_root : preserving (set_seen_root true).
Proof.
  intros s a s' H. unfold set_seen_root in H. inversion H; subst.
  constructor; simpl; auto.
Qed.

Lemma preserving_set_def (k : string) (v : pyval) : preserving (set_def k v).
Proof.
  intros s a s' H. unfold set_def in H. inversion H; subst.
  constructor; simpl; auto.
  - intros k0 H0. apply DictFacts.in_keys_set. auto.
  - apply DictFacts.nodup_set.
Qed.

Lemma preserving_mapM {A B : Type} (f : A -> M B) (l : list A) :
  (forall x, preserving (f x)) -> preserving (mapM f l).
Proof.
  intros Hf. induction l as [|x r IH]; simpl.
  - apply preserving_ret.
  - apply preserving_bind; auto. intros y.
    apply preserving_bind; auto. intros ys. apply preserving_ret.
Qed.

Lemma preserving_foldM {A B : Type} (f : A -> B -> M A) (l : list B) (a : A) :
  (forall a x, preserving (f a x)) -> preserving (foldM f l a).
Proof.
  intros Hf. revert a. induction l as [|x r IH]; intros a; simpl.
  - apply preserving_ret.
  - apply preserving_bind; auto.
Qed.

Lemma preserving_py_list (v : pyval) : preserving (py_list v).
Proof.
  unfold py_list. destruct (py_iter v); auto with py_inv.
Qed.

Lemma preserving_py_value (v : pyval) : preserving (py_value v).
Proof.
  destruct v; simpl; auto with py_inv.
Qed.

Lemma preserving_setitem_in (key k : string) (v : pyval) (d : pydict) :
  preserving (setitem_in key k v d).
Proof.
  unfold setitem_in. destruct (Dict.get key d) as [[]|];
    auto with py_inv.
Qed.

Lemma preserving_append_in (key : string) (v : pyval) (d : pydict) :
  preserving (append_in key v d).
Proof.
  unfold append_in. destruct (Dict.get key d) as [[]|];
    auto with py_inv.
Qed.

Lemma preserving_is_empty_in (key : string) (d : pydict) :
  preserving (is_empty_in key d).
Proof.
  unfold is_empty_in. destruct (Dict.get key d) as [[| | | | |[]| | | | |]|];
    auto with py_inv.
Qed.

#[local] Hint Resolve preserving_get_self preserving_set_seen_root
  preserving_set_def preserving_py_list preserving_py_value
  preserving_setitem_in preserving_append_in preserving_is_empty_in : py_inv.

(** One step of the goal-directed proof that a computation is
    [preserving]: split binds and loops, decide conditionals by cases. *)
Ltac preserving_step :=
  match goal with
  | |- forall _, _ => intro
  | |- preserving (bind _ _) => apply preserving_bind
  | |- preserving (mapM _ _) => apply preserving_mapM
  | |- preserving (foldM _ _ _) => apply preserving_foldM
  | |- preserving (if ?b then _ else _) => destruct b
  | |- preserving (match ?x with _ => _ end) => destruct x
  | |- preserving _ => solve [auto with py_inv]
  end.

(** ** Every compilation step extends the compiler object *)

Section Preservation.

Variable classes : list dataclass.

Lemma preserving_lookup_class (dc : nat) : preserving (lookup_class classes dc).
Proof. unfold lookup_class. repeat preserving_step. Qed.

Section Body.

Variable rec : ty -> option pyval -> SchemaAnnotation -> M pydict.
Hypothesis rec_preserving : forall t d a, preserving (rec t d a).

#[local] Hint Resolve preserving_lookup_class rec_preserving : py_inv.

Lemma preserving_create_dc_schema (dc : nat) :
  preserving (create_dc_schema classes rec dc).
Proof. unfold create_dc_schema, add_field. repeat preserving_step. Qed.

#[local] Hint Resolve preserving_create_dc_schema : py_inv.

Lemma preserving_get_dc_schema (dc : nat) (a : SchemaAnnotation) :
  preserving (get_dc_schema classes rec dc a).
Proof. unfold get_dc_schema. repeat preserving_step. Qed.

Lemma preserving_get_enum_schema (c : pyclass) (d : option pyval)
    (a : SchemaAnnotation) :
  preserving (get_enum_schema c d a).
Proof. unfold get_enum_schema. repeat preserving_step. Qed.

#[local] Hint Resolve preserving_get_dc_schema preserving_get_enum_schema
  : py_inv.

Lemma preserving_dispatch (t : ty) (d : option pyval) (a : SchemaAnnotation) :
  preserving (dispatch classes rec t d a).
Proof.
  destruct t; simpl;
    unfold get_union_schema, get_literal_schema, get_annotated_schema,
      get_dict_schema, get_list_schema, get_tuple_schema, get_set_schema,
      get_none_schema, get_str_schema, get_bool_schema, get_int_schema,
      get_number_schema, get_primitive_schema, get_datetime_schema,
      get_date_schema;
    repeat preserving_step.
Qed.

End Body.

Lemma preserving_get_field_schema (fuel : nat) :
  forall t d a, preserving (get_field_schema classes fuel t d a).
Proof.
  induction fuel as [|fuel IH]; intros t d a; simpl.
  - intros s x s' H. discriminate.
  - now apply preserving_dispatch.
Qed.

End Preservation.

(** ** The object fragment of a record *)

Section ObjectFragment.

Variable classes : list dataclass.
Variable rec : ty -> option pyval -> SchemaAnnotation -> M pydict.

(** What is known of the fragment [rec] returns for a field. *)
Variable Q : field -> pydict -> Prop.
Hypothesis rec_Q : forall f s frag s',
  rec (fld_type f) (fld_default f) SchemaAnnotation_new s = Ok (frag, s') ->
  Q f frag.

Lemma add_field_ok (schema1 : pydict) (fld : field) (st : GetSchema)
    (schema2 : pydict) (st' : GetSchema) (p : pydict) (r : list pyval) :
  add_field rec schema1 fld st = Ok (schema2, st') ->
  Dict.get "properties" schema1 = Some (VDict p) ->
  Dict.get "required" schema1 = Some (VList r) ->
  exists prop,
    Q fld prop /\
    let with_prop :=
      Dict.set "properties"
        (VDict (Dict.set (fld_name fld) (VDict prop) p)) schema1 in
    schema2 = if lacks_default fld
              then Dict.set "required"
                     (VList (r ++ [VStr (fld_name fld)])) with_prop
              else with_prop.
Proof.
  unfold add_field. intros H Hp Hr.
  apply bind_ok in H as (prop & s1 & Hrec & H).
  apply bind_ok in H as (sch & s2 & Hset & H).
  unfold setitem_in in Hset. rewrite Hp in Hset.
  apply ret_ok in Hset as [-> ->].
  exists prop. split; [eapply rec_Q; eassumption|].
  unfold lacks_default.
  destruct (fld_default fld), (fld_default_factory fld); simpl in H;
    try (apply ret_ok in H as [-> _]; reflexivity).
  unfold append_in in H.
  rewrite DictFacts.get_set_other, Hr in H by discriminate.
  apply ret_ok in H as [-> _]. reflexivity.
Qed.

Lemma add_fields_ok (fields : list field) :
  forall (schema1 : pydict) (st : GetSchema) (schema2 : pydict)
         (st' : GetSchema) (p : pydict) (r : list pyval),
  foldM (add_field rec) fields schema1 st = Ok (schema2, st') ->
  Dict.get "properties" schema1 = Some (VDict p) ->
  Dict.get "required" schema1 = Some (VList r) ->
  exists p',
    Dict.get "properties" schema2 = Some (VDict p')
    /\ Dict.get "required" schema2
       = Some (VList (r ++ map VStr (required_names fields)))
    /\ Dict.keys schema2 = Dict.keys schema1
    /\ (forall k, k <> "properties" -> k <> "required" ->
                  Dict.get k schema2 = Dict.get k schema1)
    /\ (forall k, ~ In k (map fld_name fields) -> Dict.get k p' = Dict.get k p)
    /\ (NoDup (map fld_name fields) ->
        forall f, In f fields ->
        exists prop, Dict.get (fld_name f) p' = Some (VDict prop) /\ Q f prop).
Proof.
  induction fields as [|f rest IH]; intros schema1 st schema2 st' p r H Hp Hr.
  - simpl in H. apply ret_ok in H as [-> ->].
    exists p. unfold required_names. simpl. rewrite app_nil_r.
    repeat split; auto. intros _ f [].
  - simpl in H. apply bind_ok in H as (sch & s1 & Hstep & H).
    destruct (add_field_ok _ _ _ Hstep Hp Hr) as (prop & HQ & Hsch).
    simpl in Hsch.
    set (p1 := Dict.set (fld_name f) (VDict prop) p) in *.
    set (with_prop := Dict.set "properties" (VDict p1) schema1) in *.
    assert (Hwp : Dict.get "properties" with_prop = Some (VDict p1))
      by apply DictFacts.get_set_same.
    assert (Hwr : Dict.get "required" with_prop = Some (VList r))
      by (unfold with_prop; now rewrite DictFacts.get_set_other by discriminate).
    assert (Hwk : Dict.keys with_prop = Dict.keys schema1).
    { unfold with_prop. rewrite DictFacts.keys_set. unfold Dict.contains.
      now rewrite Hp. }
    assert (Hwo : forall k, k <> "properties" ->
                            Dict.get k with_prop = Dict.get k schema1)
      by (intros k Hk; now apply DictFacts.get_set_other).
    assert (Hstep' : exists r1,
      Dict.get "properties" sch = Some (VDict p1)
      /\ Dict.get "required" sch = Some (VList r1)
      /\ Dict.keys sch = Dict.keys schema1
      /\ (forall k, k <> "properties" -> k <> "required" ->
                    Dict.get k sch = Dict.get k schema1)
      /\ r1 ++ map VStr (required_names rest)
         = r ++ map VStr (required_names (f :: rest))).
    { unfold required_names. simpl. destruct (lacks_default f); subst sch.
      - exists (r ++ [VStr (fld_name f)]). repeat split.
        + now rewrite DictFacts.get_set_other by discriminate.
        + apply DictFacts.get_set_same.
        + rewrite DictFacts.keys_set. unfold Dict.contains.
          now rewrite Hwr.
        + intros k Hk1 Hk2. rewrite DictFacts.get_set_other by exact Hk2.
          now apply Hwo.
        + simpl. now rewrite <- app_assoc.
      - exists r. repeat split; auto. }
    destruct Hstep' as (r1 & Hp1 & Hr1 & Hk1 & Ho1 & Hreq).
    destruct (IH _ _ _ _ _ _ H Hp1 Hr1) as (p' & Gp & Gr & Gk & Go & Gkeep & Gq).
    exists p'. repeat split.
    + exact Gp.
    + now rewrite Gr, Hreq.
    + congruence.
    + intros k Hka Hkb. rewrite Go by assumption. now apply Ho1.
    + intros k Hk. simpl in Hk. rewrite Gkeep by tauto.
      apply DictFacts.get_set_other. intros ->. tauto.
    + intros Hnd g Hg. simpl in Hnd.
      inversion Hnd as [|? ? Hnotin Hnd']; subst.
      destruct Hg as [<-|Hg].
      * exists prop. split; [|exact HQ].
        rewrite Gkeep by exact Hnotin. apply DictFacts.get_set_same.
      * now apply Gq.
Qed.

Lemma object_header_eq (cls : dataclass) :
  object_header cls
  = Dict.set "required" (VList [])
      (Dict.set "properties" (VDict [])
         (Dict.update [("type", VStr "object"); ("title", VStr (dc_name cls))]
            (schema (config_annotation cls)))).
Proof. reflexivity. Qed.

Lemma create_dc_schema_ok (dc : nat) (st : GetSchema) (sch : pydict)
    (st' : GetSchema) :
  create_dc_schema classes rec dc st = Ok (sch, st') ->
  exists cls p',
    nth_error classes dc = Some cls
    /\ Dict.get "properties" sch = Some (VDict p')
    /\ Dict.get "required" sch
       = match required_names (dc_fields cls) with
         | [] => None
         | l => Some (VList (map VStr l))
         end
    /\ (forall k, In k (Dict.keys sch) -> In k (Dict.keys (object_header cls)))
    /\ (forall k, k <> "properties" -> k <> "required" ->
                  Dict.get k sch = Dict.get k (object_header cls))
    /\ (NoDup (map fld_name (dc_fields cls)) ->
        forall f, In f (dc_fields cls) ->
        exists prop, Dict.get (fld_name f) p' = Some (VDict prop) /\ Q f prop)
    /\ NoDup (Dict.keys sch).
Proof.
  unfold create_dc_schema, lookup_class. intros H.
  apply bind_ok in H as (cls & s0 & Hcls & H).
  destruct (nth_error classes dc) as [cls0|] eqn:Hnth; [|discriminate].
  apply ret_ok in Hcls as [-> ->].
  change (Dict.display _) with (object_header cls0) in H.
  apply bind_ok in H as (schema1 & s1 & Hloop & H).
  apply bind_ok in H as (b & s2 & Hempty & H).
  assert (Hp0 : Dict.get "properties" (object_header cls0) = Some (VDict [])).
  { rewrite object_header_eq.
    rewrite DictFacts.get_set_other by discriminate.
    apply DictFacts.get_set_same. }
  assert (Hr0 : Dict.get "required" (object_header cls0) = Some (VList []))
    by (rewrite object_header_eq; apply DictFacts.get_set_same).
  destruct (add_fields_ok _ _ _ Hloop Hp0 Hr0)
    as (p' & Gp & Gr & Gk & Go & _ & Gq).
  simpl in Gr. exists cls0, p'. split; [reflexivity|].
  unfold is_empty_in in Hempty. rewrite Gr in Hempty.
  destruct (required_names (dc_fields cls0)) as [|n l] eqn:Hreq;
    simpl in Hempty; apply ret_ok in Hempty as [-> ->];
    apply ret_ok in H as [-> _].
  - repeat split.
    + now rewrite DictFacts.get_pop_other by discriminate.
    + apply DictFacts.get_pop_same. rewrite Gk. apply DictFacts.nodup_display.
    + intros k Hk. apply DictFacts.in_keys_pop in Hk. now rewrite <- Gk.
    + intros k Hk1 Hk2. rewrite DictFacts.get_pop_other by exact Hk2.
      now apply Go.
    + exact Gq.
    + apply DictFacts.nodup_pop. rewrite Gk. apply DictFacts.nodup_display.
  - repeat split; auto.
    + intros k Hk. now rewrite <- Gk.
    + rewrite Gk. apply DictFacts.nodup_display.
Qed.

End ObjectFragment.

(** ** Keys of the fragments *)

Lemma get_display_none (k : string) (items : list Dict.item) :
  Forall (item_lacks k) items -> Dict.get k (Dict.display items) = None.
Proof.
  unfold Dict.display.
  assert (G : forall acc, Dict.get k acc = None ->
    Forall (item_lacks k) items ->
    Dict.get k (fold_left (fun acc it =>
                 match it with
                 | KV k v => Dict.set k v acc
                 | Spread d => Dict.update acc d
                 end) items acc) = None).
  { induction items as [|[k' v|e] r IH]; intros acc Hacc Hall; simpl; auto;
      inversion Hall as [|? ? Hit Hall']; subst; simpl in Hit; apply IH; auto.
    - now rewrite DictFacts.get_set_other.
    - rewrite DictFacts.get_update_other; auto.
      now apply DictFacts.get_none_not_in. }
  now apply G.
Qed.

Lemma schema_get_none (a : SchemaAnnotation) (k : string) :
  existsb (String.eqb k) keywords = false -> Dict.get k (schema a) = None.
Proof.
  intros H. apply DictFacts.get_none_not_in. now apply schema_lacks.
Qed.

Lemma object_header_get_none (cls : dataclass) (k : string) :
  existsb (String.eqb k)
          ("type" :: "title" :: "properties" :: "required" :: keywords) = false ->
  Dict.get k (object_header cls) = None.
Proof.
  intros H. simpl in H.
  repeat (apply orb_false_iff in H; destruct H as [? H]).
  apply get_display_none.
  repeat constructor; simpl;
    try (apply String.eqb_neq; assumption).
  apply schema_get_none. simpl.
  repeat (apply orb_false_iff; split; try assumption).
Qed.

(** ** Required fields *)

Lemma in_required_names (fields : list field) (n : string) :
  In n (required_names fields) <->
  exists f, In f fields /\ fld_name f = n
            /\ fld_default f = None /\ fld_default_factory f = None.
Proof.
  unfold required_names. rewrite in_map_iff. split.
  - intros (f & Hn & Hf). apply filter_In in Hf as [Hf Hl].
    exists f. unfold lacks_default in Hl.
    destruct (fld_default f), (fld_default_factory f); try discriminate. auto.
  - intros (f & Hf & Hn & Hd & Hfac). exists f. split; auto.
    apply filter_In. split; auto. unfold lacks_default. now rewrite Hd, Hfac.
Qed.

(** C4.  The object fragment of a record lists under "required" the
    names of exactly the fields that have neither a default value nor a
    default factory, in declaration order, whatever their declared
    types; when there is no such field the fragment has no "required"
    key at all. *)
Theorem required_lists_fields_lacking_default
    (classes : list dataclass) (fuel dc : nat) (st : GetSchema)
    (sch : pydict) (st' : GetSchema) :
  create_dc_schema classes (get_field_schema classes fuel) dc st
    = Ok (sch, st') ->
  exists cls,
    nth_error classes dc = Some cls
    /\ Dict.get "required" sch
       = match required_names (dc_fields cls) with
         | [] => None
         | names => Some (VList (map VStr names))
         end
    /\ required_names (dc_fields cls)
       = map fld_name
           (filter (fun f => negb (is_present (fld_default f)
                                   || is_present (fld_default_factory f)))
                   (dc_fields cls))
    /\ (forall n, In n (required_names (dc_fields cls)) <->
          exists f, In f (dc_fields cls) /\ fld_name f = n
                    /\ fld_default f = None
                    /\ fld_default_factory f = None).
Proof.
  intros H.
  destruct (@create_dc_schema_ok classes _ (fun _ _ => True)
              (fun _ _ _ _ _ => I) _ _ _ _ H)
    as (cls & p' & Hcls & _ & Hreq & _).
  exists cls. repeat split; auto.
  - unfold required_names. f_equal. apply filter_ext. intros f.
    unfold lacks_default.
    now destruct (fld_default f), (fld_default_factory f).
  - apply in_required_names.
  - apply in_required_names.
Qed.

Lemma required_lists_fields_lacking_default_witness :
  exists sch st',
    create_dc_schema Fixtures.classes
      (get_field_schema Fixtures.classes 3) 4 (Fixtures.fresh 4)
    = Ok (sch, st')
    /\ Dict.get "required" sch = Some (VList [VStr "n"; VStr "s"]).
Proof.
  eexists. eexists. split.
  - lazy. reflexivity.
  - destruct (required_lists_fields_lacking_default
                Fixtures.classes 3 4 (Fixtures.fresh 4) eq_refl)
      as (cls & Hcls & Hreq & _).
    injection Hcls as <-. exact Hreq.
Defined.

(** ** Inverting a successful computation *)

Ltac inv_ok :=
  repeat match goal with
  | H : bind _ _ _ = Ok _ |- _ =>
      let a := fresh "a" in
      let s := fresh "s" in
      let H1 := fresh "H" in
      apply bind_ok in H as (a & s & H1 & H)
  | H : ret _ _ = Ok _ |- _ => apply ret_ok in H as [? ?]; subst
  | H : raise _ _ = Ok _ |- _ => discriminate H
  | H : get_self _ = Ok _ |- _ => unfold get_self in H; inversion H; subst; clear H
  | H : (if ?b then _ else _) _ = Ok _ |- _ => destruct b eqn:?
  | H : (match ?x with _ => _ end) _ = Ok _ |- _ => destruct x eqn:?
  end.

(** Proves that a dictionary display has no entry under a key that is
    none of its literal keys and no metadata keyword. *)
Ltac solve_lacks :=
  apply get_display_none;
  repeat (apply Forall_cons || apply Forall_nil);
  simpl item_lacks;
  try discriminate;
  try (apply schema_get_none; reflexivity);
  try solve_lacks.

Section NoDefault.

Variable classes : list dataclass.

Lemma get_field_schema_no_default (fuel : nat) :
  forall (t : ty) (a : SchemaAnnotation) (st : GetSchema) (frag : pydict)
         (st' : GetSchema),
  get_field_schema classes fuel t None a st = Ok (frag, st') ->
  Dict.get "default" frag = None.
Proof.
  induction fuel as [|fuel IH]; intros t a st frag st' H; [discriminate|].
  simpl in H. destruct t; simpl in H;
    unfold get_dc_schema, get_union_schema, get_literal_schema,
      get_annotated_schema, get_dict_schema, get_list_schema,
      get_tuple_schema, get_set_schema, get_none_schema, get_str_schema,
      get_bool_schema, get_int_schema, get_number_schema,
      get_primitive_schema, get_enum_schema, get_datetime_schema,
      get_date_schema in H;
    inv_ok; try solve_lacks; try discriminate.
  - (* the root, compiled in full *)
    match goal with
    | Hc : create_dc_schema _ _ _ _ = Ok _ |- _ =>
        destruct (@create_dc_schema_ok classes _ (fun _ _ => True)
                    (fun _ _ _ _ _ => I) _ _ _ _ Hc)
          as (cls & p' & _ & _ & _ & _ & Hother & _)
    end.
    rewrite Hother by discriminate.
    now apply object_header_get_none.
  - (* Annotated *)
    eapply IH; eassumption.
Qed.

End NoDefault.

Lemma field_by_name (fields : list field) (f g : field) :
  NoDup (map fld_name fields) -> In f fields -> In g fields ->
  fld_name f = fld_name g -> f = g.
Proof.
  induction fields as [|x r IH]; simpl; [tauto|].
  intros Hnd Hf Hg Hn. inversion Hnd as [|? ? Hnotin Hnd']; subst.
  destruct Hf as [<-|Hf], Hg as [<-|Hg]; auto.
  - exfalso. apply Hnotin. rewrite Hn. now apply in_map.
  - exfalso. apply Hnotin. rewrite <- Hn. now apply in_map.
Qed.

(** C10.  A field of a record that has a default factory and no default
    value is compiled without a default: its fragment under
    "properties" has no "default" key.  It is not required either: the
    fragment of the record has no "required" key, or that key holds a
    list in which the name of the field does not occur. *)
Theorem factory_default_not_rendered
    (classes : list dataclass) (fuel dc : nat) (cls : dataclass) (f : field)
    (st : GetSchema) (sch : pydict) (st' : GetSchema) :
  nth_error classes dc = Some cls ->
  NoDup (map fld_name (dc_fields cls)) ->
  In f (dc_fields cls) ->
  fld_default f = None ->
  fld_default_factory f <> None ->
  create_dc_schema classes (get_field_schema classes fuel) dc st
    = Ok (sch, st') ->
  exists props prop,
    Dict.get "properties" sch = Some (VDict props)
    /\ Dict.get (fld_name f) props = Some (VDict prop)
    /\ Dict.get "default" prop = None
    /\ match Dict.get "required" sch with
       | None => True
       | Some (VList required) => ~ In (VStr (fld_name f)) required
       | Some _ => False
       end.
Proof.
  intros Hcls Hnd Hf Hdef Hfac H.
  destruct (@create_dc_schema_ok classes _
              (fun g frag => fld_default g = None ->
                             Dict.get "default" frag = None)
              (fun g s frag s' Hrec Hg =>
                 get_field_schema_no_default classes fuel _ _ _
                   (eq_ind _ (fun d => get_field_schema classes fuel
                                         (fld_type g) d SchemaAnnotation_new s
                                       = Ok (frag, s')) Hrec _ Hg))
              _ _ _ _ H)
    as (cls' & props & Hcls' & Hprops & Hreq & _ & _ & Hq & _).
  rewrite Hcls in Hcls'. injection Hcls' as <-.
  destruct (Hq Hnd f Hf) as (prop & Hprop & Hnone).
  exists props, prop. repeat split; auto.
  assert (Hnot : ~ In (fld_name f) (required_names (dc_fields cls))).
  { intros Hin. apply in_required_names in Hin as (g & Hg & Hn & _ & Hgfac).
    assert (g = f) by (eapply field_by_name; eauto). subst g. contradiction. }
  rewrite Hreq.
  destruct (required_names (dc_fields cls)) as [|n l] eqn:E; [exact I|].
  intros Hin. apply in_map_iff in Hin as (x & Hx & Hin).
  injection Hx as ->. exact (Hnot Hin).
Qed.

Lemma factory_default_not_rendered_witness :
  exists sch st',
    create_dc_schema Fixtures.classes
      (get_field_schema Fixtures.classes 3) 4 (Fixtures.fresh 4)
    = Ok (sch, st')
    /\ Dict.get "required" sch = Some (VList [VStr "n"; VStr "s"])
    /\ exists props prop,
         Dict.get "properties" sch = Some (VDict props)
         /\ Dict.get "c" props = Some (VDict prop)
         /\ Dict.get "default" prop = None
         /\ match Dict.get "required" sch with
            | None => True
            | Some (VList required) => ~ In (VStr "c") required
            | Some _ => False
            end.
Proof.
  eexists. eexists. split; [lazy; reflexivity|].
  split; [reflexivity|].
  eapply (@factory_default_not_rendered Fixtures.classes 3 4
            Fixtures.DcOptional
            (Fixtures.fld_factory "c" TInt (fun _ => VInt 42))
            (Fixtures.fresh 4)).
  - reflexivity.
  - simpl. repeat constructor; simpl; intuition discriminate.
  - simpl. tauto.
  - reflexivity.
  - simpl. discriminate.
  - lazy. reflexivity.
Defined.

(** ** The payload of [SchemaConfig] *)

Lemma schema_title_none (a : SchemaAnnotation) :
  title a = None -> Dict.get "title" (schema a) = None.
Proof.
  intros Ht. apply DictFacts.get_none_not_in. rewrite schema_keys.
  unfold asdict. rewrite Ht.
  match goal with
  | |- ~ In _ (map _ (map _ (filter ?P (?x :: ?l)))) =>
      change (filter P (x :: l)) with (filter P l)
  end.
  intros Hin. apply in_filter_keys in Hin.
  cbn in Hin. intuition discriminate.
Qed.

Lemma keyword_not_structural (a : SchemaAnnotation) (k : string) (v : pyval) :
  Dict.get k (schema a) = Some v ->
  k <> "type" /\ k <> "properties" /\ k <> "required".
Proof.
  intros H.
  assert (Hin : In k keywords).
  { apply schema_keys_incl with (a := a). apply DictFacts.get_in_keys.
    congruence. }
  cbn in Hin. intuition (subst; discriminate).
Qed.

Lemma object_header_carries (cls : dataclass) :
  Dict.get "type" (object_header cls) = Some (VStr "object")
  /\ (title (config_annotation cls) = None ->
      Dict.get "title" (object_header cls) = Some (VStr (dc_name cls)))
  /\ (forall k v, Dict.get k (schema (config_annotation cls)) = Some v ->
                  Dict.get k (object_header cls) = Some v)
  /\ (forall k, In k (Dict.keys (object_header cls)) ->
                In k ["type"; "title"; "properties"; "required"]
                \/ In k (Dict.keys (schema (config_annotation cls)))).
Proof.
  rewrite object_header_eq. repeat split.
  - rewrite !DictFacts.get_set_other by discriminate.
    rewrite DictFacts.get_update_other; [reflexivity|].
    apply schema_lacks. reflexivity.
  - intros Ht. rewrite !DictFacts.get_set_other by discriminate.
    rewrite DictFacts.get_update by apply schema_nodup.
    now rewrite (schema_title_none _ Ht).
  - intros k v Hk. destruct (keyword_not_structural _ _ Hk) as (_ & Hp & Hr).
    rewrite !DictFacts.get_set_other by assumption.
    apply DictFacts.get_update_in; auto. apply schema_nodup.
  - intros k Hk.
    rewrite !DictFacts.in_keys_set, DictFacts.in_keys_update in Hk.
    simpl in *. intuition.
Qed.

Lemma create_dc_schema_carries (classes : list dataclass)
    (rec : ty -> option pyval -> SchemaAnnotation -> M pydict)
    (dc : nat) (st : GetSchema) (sch : pydict) (st' : GetSchema) :
  create_dc_schema classes rec dc st = Ok (sch, st') ->
  exists cls, nth_error classes dc = Some cls /\ carries_config cls sch.
Proof.
  intros H.
  destruct (@create_dc_schema_ok classes rec (fun _ _ => True)
              (fun _ _ _ _ _ => I) _ _ _ _ H)
    as (cls & p' & Hcls & _ & _ & Hkeys & Hother & _).
  destruct (object_header_carries cls) as (Ht & Htitle & Hkw & Hk).
  exists cls. split; [exact Hcls|]. unfold carries_config. repeat split.
  - now rewrite Hother by discriminate.
  - intros Hnone. rewrite Hother by discriminate. auto.
  - intros k v Hkv. destruct (keyword_not_structural _ _ Hkv) as (_ & Hp & Hr).
    rewrite Hother by assumption. auto.
  - intros k Hin. auto.
  - intros Hnone k Hin. destruct (Hk k (Hkeys k Hin)) as [G|G]; [exact G|].
    unfold config_annotation in G. rewrite Hnone in G. destruct G.
Qed.

Lemma get_dc_schema_first (classes : list dataclass)
    (rec : ty -> option pyval -> SchemaAnnotation -> M pydict)
    (dc : nat) (a : SchemaAnnotation) (st : GetSchema) :
  root st = dc -> seen_root st = false ->
  get_dc_schema classes rec dc a st
  = create_dc_schema classes rec dc
      {| root := root st; seen_root := true; defs := defs st |}.
Proof.
  intros Hr Hs. unfold get_dc_schema, bind, get_self, set_seen_root.
  cbv beta iota. subst dc. rewrite Nat.eqb_refl, Hs. cbv beta iota.
  destruct (create_dc_schema _ _ _ _) as [[x s]| |]; reflexivity.
Qed.

(** C9.  Whenever a record is compiled in full, as the root or into its
    entry of $defs, the keywords of the payload of its [SchemaConfig]
    are in its object fragment, next to "type" and, unless the payload
    has a title of its own, the record's name as "title"; the fragment
    has no key besides those, "properties" and "required", so a record
    without [SchemaConfig] gets none of them. *)
Theorem schema_config_is_merged
    (classes : list dataclass) (fuel dc : nat) (cls : dataclass)
    (a : SchemaAnnotation) (st : GetSchema) (frag : pydict)
    (st' : GetSchema) :
  nth_error classes dc = Some cls ->
  get_dc_schema classes (get_field_schema classes fuel) dc a st
    = Ok (frag, st') ->
  (dc = root st -> seen_root st = false -> carries_config cls frag)
  /\ (dc <> root st -> Dict.contains (dc_name cls) (defs st) = false ->
      exists entry,
        Dict.get (dc_name cls) (defs st') = Some (VDict entry)
        /\ carries_config cls entry).
Proof.
  intros Hcls H. split.
  - intros Hr Hs. rewrite get_dc_schema_first in H by auto.
    apply create_dc_schema_carries in H as (cls' & Hcls' & Hc).
    congruence.
  - intros Hne Hc. unfold get_dc_schema, lookup_class in H.
    apply bind_ok in H as (self & s0 & Hself & H).
    unfold get_self in Hself. injection Hself as <- <-.
    apply Nat.eqb_neq in Hne. rewrite Hne, Hcls in H.
    apply bind_ok in H as (cls' & s1 & Hl & H). apply ret_ok in Hl as [-> ->].
    rewrite Hc in H. simpl negb in H. cbv iota in H.
    apply bind_ok in H as (u & s2 & Hreg & H). apply ret_ok in H as [_ ->].
    apply bind_ok in Hreg as (sch & s3 & Hcreate & Hset).
    unfold set_def in Hset. injection Hset as _ <-. simpl.
    exists sch. split; [apply DictFacts.get_set_same|].
    apply create_dc_schema_carries in Hcreate as (cls' & Hcls' & Hcar).
    congruence.
Qed.

Lemma schema_config_is_merged_witness :
  (exists frag st',
     get_dc_schema Fixtures.classes (get_field_schema Fixtures.classes 3) 9
       SchemaAnnotation_new (Fixtures.fresh 9) = Ok (frag, st')
     /\ carries_config Fixtures.DcConfigured frag)
  /\ (exists frag st',
        get_dc_schema Fixtures.classes (get_field_schema Fixtures.classes 3) 9
          SchemaAnnotation_new
          {| root := 10; seen_root := true; defs := [] |} = Ok (frag, st')
        /\ exists entry,
             Dict.get "DcConfigured" (defs st') = Some (VDict entry)
             /\ carries_config Fixtures.DcConfigured entry).
Proof.
  split.
  - eexists. eexists. split.
    + lazy. reflexivity.
    + eapply (proj1 (@schema_config_is_merged Fixtures.classes 3 9
                       Fixtures.DcConfigured SchemaAnnotation_new
                       (Fixtures.fresh 9) _ _ eq_refl ltac:(lazy; reflexivity)));
        reflexivity.
  - eexists. eexists. split.
    + lazy. reflexivity.
    + eapply (proj2 (@schema_config_is_merged Fixtures.classes 3 9
                       Fixtures.DcConfigured SchemaAnnotation_new
                       {| root := 10; seen_root := true; defs := [] |}
                       _ _ eq_refl ltac:(lazy; reflexivity)));
        [discriminate | reflexivity].
Defined.

(** ** The document *)

Lemma root_fragment_keys (classes : list dataclass)
    (rec : ty -> option pyval -> SchemaAnnotation -> M pydict)
    (dc : nat) (st : GetSchema) (sch : pydict) (st' : GetSchema) :
  create_dc_schema classes rec dc st = Ok (sch, st') ->
  NoDup (Dict.keys sch)
  /\ Dict.get "$schema" sch = None
  /\ Dict.get "$defs" sch = None.
Proof.
  intros H.
  destruct (@create_dc_schema_ok classes rec (fun _ _ => True)
              (fun _ _ _ _ _ => I) _ _ _ _ H)
    as (cls & p' & _ & _ & _ & _ & Hother & _ & Hnd).
  repeat split; auto.
  - rewrite Hother by discriminate. now apply object_header_get_none.
  - rewrite Hother by discriminate. now apply object_header_get_none.
Qed.

(** What [__call__] builds from the root fragment and [self.defs]. *)
Lemma GetSchema_call_ok
    (classes : list dataclass) (fuel dc : nat) (doc : pydict) :
  get_schema classes fuel dc = Ok doc ->
  exists frag st',
    get_dc_schema classes (get_field_schema classes fuel) dc
      SchemaAnnotation_new {| root := dc; seen_root := false; defs := [] |}
    = Ok (frag, st')
    /\ doc = Dict.update
               [("$schema",
                 VStr "https://json-schema.org/draft/2020-12/schema")]
               (match defs st' with
                | [] => frag
                | _ :: _ => Dict.set "$defs" (VDict (defs st')) frag
                end)
    /\ NoDup (Dict.keys frag)
    /\ Dict.get "$schema" frag = None
    /\ Dict.get "$defs" frag = None.
Proof.
  unfold get_schema, GetSchema_call. intros H.
  destruct (get_dc_schema _ _ _ _ _) as [[frag st']| |] eqn:Hrun;
    try discriminate.
  exists frag, st'. split; [reflexivity|].
  rewrite get_dc_schema_first in Hrun by reflexivity.
  destruct (root_fragment_keys _ _ _ _ Hrun) as (Hnd & Hs & Hd).
  injection H as <-. repeat split; assumption.
Qed.

Lemma document_defs (frag registered : pydict) :
  NoDup (Dict.keys frag) ->
  Dict.get "$defs" frag = None ->
  Dict.get "$defs"
    (Dict.update
       [("$schema", VStr "https://json-schema.org/draft/2020-12/schema")]
       (match registered with
        | [] => frag
        | _ :: _ => Dict.set "$defs" (VDict registered) frag
        end))
  = match registered with
    | [] => None
    | _ :: _ => Some (VDict registered)
    end.
Proof.
  intros Hnd Hd. destruct registered as [|entry rest].
  - rewrite DictFacts.get_update by exact Hnd. now rewrite Hd.
  - rewrite DictFacts.get_update by now apply DictFacts.nodup_set.
    now rewrite DictFacts.get_set_same.
Qed.

(** C7.  The document [get_schema] returns has "$schema" set to the
    2020-12 dialect, every key of the root fragment with the fragment's
    value, and "$defs", holding the registered definitions, exactly
    when at least one definition was registered during the
    compilation. *)
Theorem document_assembly
    (classes : list dataclass) (fuel dc : nat) (doc : pydict) :
  get_schema classes fuel dc = Ok doc ->
  exists frag st',
    get_dc_schema classes (get_field_schema classes fuel) dc
      SchemaAnnotation_new {| root := dc; seen_root := false; defs := [] |}
    = Ok (frag, st')
    /\ Dict.get "$schema" doc
       = Some (VStr "https://json-schema.org/draft/2020-12/schema")
    /\ (forall k v, Dict.get k frag = Some v -> Dict.get k doc = Some v)
    /\ (forall k, k <> "$schema" -> k <> "$defs" ->
                  Dict.get k doc = Dict.get k frag)
    /\ Dict.get "$defs" doc
       = match defs st' with
         | [] => None
         | _ :: _ => Some (VDict (defs st'))
         end
    /\ (In "$defs" (Dict.keys doc) <-> defs st' <> []).
Proof.
  intros H.
  destruct (GetSchema_call_ok _ _ _ H)
    as (frag & st' & Hrun & -> & Hnd & Hs & Hd).
  exists frag, st'. split; [exact Hrun|].
  pose proof (@document_defs frag (defs st') Hnd Hd) as Hdefs.
  set (schema2 := match defs st' with
                  | [] => frag
                  | _ :: _ => Dict.set "$defs" (VDict (defs st')) frag
                  end) in *.
  assert (Hnd2 : NoDup (Dict.keys schema2)).
  { unfold schema2. destruct (defs st'); auto. now apply DictFacts.nodup_set. }
  assert (Hs2 : Dict.get "$schema" schema2 = None).
  { unfold schema2. destruct (defs st'); auto.
    now rewrite DictFacts.get_set_other by discriminate. }
  assert (Ho2 : forall k, k <> "$defs" -> Dict.get k schema2 = Dict.get k frag).
  { intros k Hk. unfold schema2. destruct (defs st'); auto.
    now apply DictFacts.get_set_other. }
  repeat split.
  - rewrite DictFacts.get_update by exact Hnd2. now rewrite Hs2.
  - intros k v Hk. rewrite DictFacts.get_update by exact Hnd2.
    rewrite Ho2 by congruence. now rewrite Hk.
  - intros k Hk1 Hk2. rewrite DictFacts.get_update by exact Hnd2.
    rewrite Ho2 by exact Hk2. destruct (Dict.get k frag); auto.
    simpl. apply String.eqb_neq in Hk1. now rewrite Hk1.
  - exact Hdefs.
  - rewrite DictFacts.get_in_keys, Hdefs. destruct (defs st'); congruence.
  - intros Hne. rewrite DictFacts.get_in_keys, Hdefs.
    destruct (defs st'); congruence.
Qed.

Lemma document_assembly_witness :
  exists doc,
    get_schema Fixtures.classes 4 0 = Ok doc
    /\ Dict.get "$schema" doc
       = Some (VStr "https://json-schema.org/draft/2020-12/schema")
    /\ In "$defs" (Dict.keys doc).
Proof.
  eexists. split.
  - lazy. reflexivity.
  - destruct (@document_assembly Fixtures.classes 4 0 _
                ltac:(lazy; reflexivity))
      as (frag & st' & Hrun & Hs & _ & _ & _ & Hiff).
    split; [exact Hs|]. apply Hiff.
    lazy in Hrun. injection Hrun as _ <-. discriminate.
Defined.

(** ** References to the root *)

Lemma setitem_in_pure (key k : string) (v : pyval) (d : pydict)
    (st : GetSchema) (d' : pydict) (st' : GetSchema) :
  setitem_in key k v d st = Ok (d', st') -> st' = st.
Proof. unfold setitem_in. intros H. inv_ok; auto; discriminate. Qed.

Lemma append_in_pure (key : string) (v : pyval) (d : pydict)
    (st : GetSchema) (d' : pydict) (st' : GetSchema) :
  append_in key v d st = Ok (d', st') -> st' = st.
Proof. unfold append_in. intros H. inv_ok; auto; discriminate. Qed.

Lemma is_empty_in_pure (key : string) (d : pydict)
    (st : GetSchema) (b : bool) (st' : GetSchema) :
  is_empty_in key d st = Ok (b, st') -> st' = st.
Proof. unfold is_empty_in. intros H. inv_ok; auto; discriminate. Qed.

(** Nothing is registered under a name that only the root has. *)
Section RootName.

Variable classes : list dataclass.
Variable dc : nat.
Variable n : string.
Hypothesis n_unshared : unshared_name classes dc n.

Section Body.

Variable rec : ty -> option pyval -> SchemaAnnotation -> M pydict.
Hypothesis rec_keeps : forall t d a st frag st',
  unregistered dc n st -> mentions_enum n t = false ->
  rec t d a st = Ok (frag, st') -> unregistered dc n st'.

Lemma keeps_args (args : list ty) :
  existsb (mentions_enum n) args = false ->
  forall st res st',
    unregistered dc n st ->
    mapM (fun arg => rec arg None SchemaAnnotation_new) args st
    = Ok (res, st') ->
    unregistered dc n st'.
Proof.
  induction args as [|x r IH]; simpl; intros Hm st res st' Hst H.
  - apply ret_ok in H as [_ ->]. exact Hst.
  - apply orb_false_iff in Hm as [Hx Hr].
    apply bind_ok in H as (y & s1 & Hy & H).
    apply bind_ok in H as (ys & s2 & Hys & H).
    apply ret_ok in H as [_ ->].
    eapply IH; [exact Hr | | exact Hys].
    eapply rec_keeps; [exact Hst | exact Hx | exact Hy].
Qed.

Lemma keeps_fields (fields : list field) :
  (forall f, In f fields -> mentions_enum n (fld_type f) = false) ->
  forall sch st sch' st',
    unregistered dc n st ->
    foldM (add_field rec) fields sch st = Ok (sch', st') ->
    unregistered dc n st'.
Proof.
  induction fields as [|f r IH]; simpl; intros Hm sch st sch' st' Hst H.
  - apply ret_ok in H as [_ ->]. exact Hst.
  - apply bind_ok in H as (sch1 & s1 & Hstep & H).
    eapply IH; [auto | | exact H].
    unfold add_field in Hstep.
    apply bind_ok in Hstep as (prop & s2 & Hprop & Hstep).
    apply bind_ok in Hstep as (sch2 & s3 & Hset & Hstep).
    apply setitem_in_pure in Hset. subst s3.
    assert (Hs2 : unregistered dc n s2)
      by (eapply rec_keeps; [exact Hst | apply Hm; now left | exact Hprop]).
    destruct (negb _).
    + apply append_in_pure in Hstep. now subst s1.
    + apply ret_ok in Hstep as [_ ->]. exact Hs2.
Qed.

Lemma keeps_create_dc_schema (i : nat) (st : GetSchema) (sch : pydict)
    (st' : GetSchema) :
  unregistered dc n st ->
  create_dc_schema classes rec i st = Ok (sch, st') ->
  unregistered dc n st'.
Proof.
  intros Hst H. unfold create_dc_schema, lookup_class in H.
  destruct (nth_error classes i) as [cls|] eqn:Hcls; [|discriminate].
  apply bind_ok in H as (cls' & s0 & Hl & H). apply ret_ok in Hl as [-> ->].
  apply bind_ok in H as (sch1 & s1 & Hloop & H).
  apply bind_ok in H as (b & s2 & Hempty & H).
  apply is_empty_in_pure in Hempty. subst s2.
  assert (Hs1 : unregistered dc n s1).
  { eapply keeps_fields; [| exact Hst | exact Hloop].
    exact (proj2 (n_unshared _ Hcls)). }
  destruct b; apply ret_ok in H as [_ ->]; exact Hs1.
Qed.

Lemma keeps_get_dc_schema (i : nat) (a : SchemaAnnotation) (st : GetSchema)
    (frag : pydict) (st' : GetSchema) :
  unregistered dc n st ->
  get_dc_schema classes rec i a st = Ok (frag, st') ->
  unregistered dc n st'.
Proof.
  intros Hst H. unfold get_dc_schema in H.
  apply bind_ok in H as (self & s0 & Hself & H).
  unfold get_self in Hself. injection Hself as <- <-.
  destruct (Nat.eqb i (root st)) eqn:Hi.
  - destruct (seen_root st).
    + apply ret_ok in H as [_ ->]. exact Hst.
    + apply bind_ok in H as (u & s1 & Hset & H).
      unfold set_seen_root in Hset. injection Hset as _ <-.
      apply bind_ok in H as (sch & s2 & Hcreate & H).
      apply ret_ok in H as [_ ->].
      eapply keeps_create_dc_schema; [| exact Hcreate].
      destruct Hst as [Hr Hd]. split; assumption.
  - unfold lookup_class in H.
    destruct (nth_error classes i) as [cls|] eqn:Hcls; [|discriminate].
    apply bind_ok in H as (cls' & s0 & Hl & H). apply ret_ok in Hl as [-> ->].
    apply bind_ok in H as (u & s1 & Hreg & H). apply ret_ok in H as [_ ->].
    destruct (negb _).
    + apply bind_ok in Hreg as (sch & s2 & Hcreate & Hset).
      unfold set_def in Hset. injection Hset as _ <-.
      destruct (keeps_create_dc_schema _ Hst Hcreate) as [Hr Hd].
      split; [exact Hr|]. simpl. rewrite DictFacts.in_keys_set.
      intros [->|Hin]; [|exact (Hd Hin)].
      apply Nat.eqb_neq in Hi. destruct Hst as [Hroot _].
      rewrite Hroot in Hi. exact (proj1 (n_unshared _ Hcls) Hi eq_refl).
    + apply ret_ok in Hreg as [_ ->]. exact Hst.
Qed.

Lemma keeps_get_enum_schema (c : pyclass) (d : option pyval)
    (a : SchemaAnnotation) (st : GetSchema) (frag : pydict)
    (st' : GetSchema) :
  unregistered dc n st ->
  String.eqb (cls_name c) n = false ->
  get_enum_schema c d a st = Ok (frag, st') ->
  unregistered dc n st'.
Proof.
  intros Hst Hc H. unfold get_enum_schema in H.
  apply bind_ok in H as (self & s0 & Hself & H).
  unfold get_self in Hself. injection Hself as <- <-.
  apply bind_ok in H as (u & s1 & Hreg & H).
  assert (Hs1 : unregistered dc n s1).
  { destruct (negb _).
    - unfold set_def in Hreg. injection Hreg as _ <-.
      destruct Hst as [Hr Hd]. split; [exact Hr|]. simpl.
      rewrite DictFacts.in_keys_set. intros [->|Hin]; [|exact (Hd Hin)].
      now rewrite String.eqb_refl in Hc.
    - apply ret_ok in Hreg as [_ ->]. exact Hst. }
  destruct d as [v|].
  - apply bind_ok in H as (value & s2 & Hv & H). apply ret_ok in H as [_ ->].
    unfold py_value in Hv. destruct v; try discriminate.
    apply ret_ok in Hv as [_ ->]. exact Hs1.
  - apply ret_ok in H as [_ ->]. exact Hs1.
Qed.

Lemma keeps_dispatch (t : ty) (d : option pyval) (a : SchemaAnnotation)
    (st : GetSchema) (frag : pydict) (st' : GetSchema) :
  unregistered dc n st -> mentions_enum n t = false ->
  dispatch classes rec t d a st = Ok (frag, st') ->
  unregistered dc n st'.
Proof.
  intros Hst Hm H. destruct t; simpl in H, Hm.
  - eapply keeps_get_dc_schema; eassumption.
  - unfold get_union_schema in H.
    destruct d; apply bind_ok in H as (l & s1 & Hl & H);
      apply ret_ok in H as [_ ->]; eapply keeps_args; eassumption.
  - unfold get_literal_schema in H. apply ret_ok in H as [_ ->]. exact Hst.
  - unfold get_annotated_schema in H.
    destruct metadata as [|m [|m2 r]]; try discriminate.
    eapply rec_keeps; eassumption.
  - unfold get_dict_schema in H.
    destruct (negb (_ || _)); [discriminate|].
    destruct args as [|key rest]; [apply ret_ok in H as [_ ->]; exact Hst|].
    destruct (negb (is_str key)); [discriminate|].
    destruct (nth_error (key :: rest) 1) as [value|] eqn:Hv; [|discriminate].
    apply bind_ok in H as (x & s1 & Hx & H). apply ret_ok in H as [_ ->].
    eapply rec_keeps; [exact Hst | | exact Hx].
    destruct rest as [|v rest]; [discriminate|]. injection Hv as <-.
    simpl in Hm. apply orb_false_iff in Hm as [_ Hm].
    now apply orb_false_iff in Hm as [Hm _].
  - unfold get_list_schema in H.
    destruct (negb (_ || _)); [discriminate|].
    destruct args as [|arg0 rest]; [apply ret_ok in H as [_ ->]; exact Hst|].
    apply bind_ok in H as (x & s1 & Hx & H). apply ret_ok in H as [_ ->].
    simpl in Hm. apply orb_false_iff in Hm as [Hm _].
    eapply rec_keeps; eassumption.
  - unfold get_tuple_schema in H.
    apply bind_ok in H as (schema1 & s1 & Hs1 & H).
    assert (s1 = st) as ->.
    { destruct d as [v|].
      - apply bind_ok in Hs1 as (l & s2 & Hl & Hs1).
        apply ret_ok in Hs1 as [_ ->]. unfold py_list in Hl.
        destruct (py_iter v); [|discriminate].
        now apply ret_ok in Hl as [_ ->].
      - now apply ret_ok in Hs1 as [_ ->]. }
    assert (Hall : forall res s2,
              mapM (fun arg => rec arg None SchemaAnnotation_new) args st
              = Ok (res, s2) -> unregistered dc n s2)
      by (intros res s2; now apply keeps_args).
    destruct args as [|arg0 [|a1 [|a2 r]]].
    + apply ret_ok in H as [_ ->]. exact Hst.
    + apply bind_ok in H as (x & s2 & Hx & H). apply ret_ok in H as [_ ->].
      eapply Hall. exact Hx.
    + simpl in Hm. apply orb_false_iff in Hm as [Hm0 _].
      destruct a1;
        apply bind_ok in H as (x & s2 & Hx & H); apply ret_ok in H as [_ ->];
        first [ eapply Hall; exact Hx
              | eapply rec_keeps; [exact Hst | exact Hm0 | exact Hx] ].
    + destruct a1;
        apply bind_ok in H as (x & s2 & Hx & H); apply ret_ok in H as [_ ->];
        eapply Hall; exact Hx.
  - unfold get_set_schema in H.
    destruct (negb (_ || _)); [discriminate|].
    destruct args as [|arg0 rest]; [apply ret_ok in H as [_ ->]; exact Hst|].
    apply bind_ok in H as (x & s1 & Hx & H). apply ret_ok in H as [_ ->].
    simpl in Hm. apply orb_false_iff in Hm as [Hm _].
    eapply rec_keeps; eassumption.
  - unfold get_none_schema, get_primitive_schema in H.
    destruct d; apply ret_ok in H as [_ ->]; exact Hst.
  - unfold get_str_schema, get_primitive_schema in H.
    destruct d; apply ret_ok in H as [_ ->]; exact Hst.
  - unfold get_bool_schema, get_primitive_schema in H.
    destruct d; apply ret_ok in H as [_ ->]; exact Hst.
  - unfold get_int_schema, get_primitive_schema in H.
    destruct d; apply ret_ok in H as [_ ->]; exact Hst.
  - unfold is_enum in Hm. destruct (sub_Number c).
    + unfold get_number_schema, get_primitive_schema in H.
      destruct d; apply ret_ok in H as [_ ->]; exact Hst.
    + destruct (sub_Enum c).
      * simpl in Hm. eapply keeps_get_enum_schema; eassumption.
      * destruct (sub_datetime c);
          [apply ret_ok in H as [_ ->]; exact Hst|].
        destruct (sub_date c); [|discriminate].
        apply ret_ok in H as [_ ->]. exact Hst.
  - discriminate.
Qed.

End Body.

Lemma keeps_get_field_schema (fuel : nat) :
  forall t d a st frag st',
    unregistered dc n st -> mentions_enum n t = false ->
    get_field_schema classes fuel t d a st = Ok (frag, st') ->
    unregistered dc n st'.
Proof.
  induction fuel as [|fuel IH]; intros t d a st frag st' Hst Hm H;
    [discriminate|].
  simpl in H. eapply keeps_dispatch; eassumption.
Qed.

End RootName.

(** C3.  The record passed to the entry point is compiled in full at
    its first occurrence: the first call of [get_dc_schema] is the call
    of [create_dc_schema] on it, with [seen_root] set, and the fragment
    it returns is the object fragment of the record, with "type",
    "title" and the keywords of its [SchemaConfig], a property for every
    field, holding what the field compiles to, and the "required" list;
    it is no reference.  From then on [seen_root] stays set during the
    whole compilation, and every reference to the root compiles to
    [{"allOf": [{"$ref": "#"}]}] with the metadata of the reference
    site, leaving the compiler object, and so $defs, as it was.  When
    no other record and no enumeration of the program has the name of
    the root, nothing is ever registered under that name: not during
    the first compilation, not by any later step, and the document has
    no such entry in "$defs". *)
Theorem root_inlined_then_referenced
    (classes : list dataclass) (fuel dc : nat) :
  (forall a st,
     root st = dc -> seen_root st = false ->
     get_dc_schema classes (get_field_schema classes fuel) dc a st
     = create_dc_schema classes (get_field_schema classes fuel) dc
         {| root := dc; seen_root := true; defs := defs st |})
  /\ (forall cls a st sch st',
     nth_error classes dc = Some cls ->
     root st = dc -> seen_root st = false ->
     get_dc_schema classes (get_field_schema classes fuel) dc a st
     = Ok (sch, st') ->
     carries_config cls sch
     /\ Dict.get "allOf" sch = None
     /\ (exists props,
           Dict.get "properties" sch = Some (VDict props)
           /\ (NoDup (map fld_name (dc_fields cls)) ->
               forall f, In f (dc_fields cls) ->
               exists prop s s',
                 Dict.get (fld_name f) props = Some (VDict prop)
                 /\ get_field_schema classes fuel (fld_type f)
                      (fld_default f) SchemaAnnotation_new s
                    = Ok (prop, s')))
     /\ Dict.get "required" sch
        = match required_names (dc_fields cls) with
          | [] => None
          | l => Some (VList (map VStr l))
          end
     /\ root st' = dc /\ seen_root st' = true
     /\ (unshared_name classes dc (dc_name cls) ->
         ~ In (dc_name cls) (Dict.keys (defs st)) ->
         ~ In (dc_name cls) (Dict.keys (defs st'))))
  /\ (forall rec a st,
        root st = dc -> seen_root st = true ->
        get_dc_schema classes rec dc a st = Ok (reference "#" a, st))
  /\ (forall t d a st frag st',
        root st = dc -> seen_root st = true ->
        get_field_schema classes fuel t d a st = Ok (frag, st') ->
        root st' = dc /\ seen_root st' = true)
  /\ (forall cls t d a st frag st',
        nth_error classes dc = Some cls ->
        unshared_name classes dc (dc_name cls) ->
        mentions_enum (dc_name cls) t = false ->
        root st = dc ->
        ~ In (dc_name cls) (Dict.keys (defs st)) ->
        get_field_schema classes fuel t d a st = Ok (frag, st') ->
        ~ In (dc_name cls) (Dict.keys (defs st')))
  /\ (forall cls doc,
        nth_error classes dc = Some cls ->
        unshared_name classes dc (dc_name cls) ->
        get_schema classes fuel dc = Ok doc ->
        Dict.get "type" doc = Some (VStr "object")
        /\ Dict.get "allOf" doc = None
        /\ forall registered,
             Dict.get "$defs" doc = Some (VDict registered) ->
             ~ In (dc_name cls) (Dict.keys registered)).
Proof.
  assert (First : forall cls a st sch st',
     nth_error classes dc = Some cls ->
     root st = dc -> seen_root st = false ->
     get_dc_schema classes (get_field_schema classes fuel) dc a st
     = Ok (sch, st') ->
     carries_config cls sch
     /\ Dict.get "allOf" sch = None
     /\ (exists props,
           Dict.get "properties" sch = Some (VDict props)
           /\ (NoDup (map fld_name (dc_fields cls)) ->
               forall f, In f (dc_fields cls) ->
               exists prop s s',
                 Dict.get (fld_name f) props = Some (VDict prop)
                 /\ get_field_schema classes fuel (fld_type f)
                      (fld_default f) SchemaAnnotation_new s
                    = Ok (prop, s')))
     /\ Dict.get "required" sch
        = match required_names (dc_fields cls) with
          | [] => None
          | l => Some (VList (map VStr l))
          end
     /\ root st' = dc /\ seen_root st' = true
     /\ (unshared_name classes dc (dc_name cls) ->
         ~ In (dc_name cls) (Dict.keys (defs st)) ->
         ~ In (dc_name cls) (Dict.keys (defs st')))).
  { intros cls a st sch st' Hcls Hr Hs H.
    rewrite get_dc_schema_first in H by assumption.
    pose proof (create_dc_schema_carries _ _ _ _ H) as (cls1 & Hcls1 & Hcar).
    destruct (@create_dc_schema_ok classes _
                (fun f prop => exists s s',
                   get_field_schema classes fuel (fld_type f) (fld_default f)
                     SchemaAnnotation_new s = Ok (prop, s'))
                (fun f s frag s' Hrec => ex_intro _ s (ex_intro _ s' Hrec))
                _ _ _ _ H)
      as (cls2 & props & Hcls2 & Hprops & Hreq & _ & Hother & Hq & _).
    assert (cls1 = cls) by congruence. assert (cls2 = cls) by congruence.
    subst cls1 cls2.
    pose proof (@preserving_create_dc_schema classes _
                  (preserving_get_field_schema classes fuel) dc _ _ _ H)
      as [Hroot Hseen _ _].
    simpl in Hroot, Hseen.
    split; [exact Hcar|]. split.
    { rewrite Hother by discriminate. now apply object_header_get_none. }
    split.
    { exists props. split; [exact Hprops|]. intros Hnd f Hf.
      destruct (Hq Hnd f Hf) as (prop & Hget & s & s' & Hrun).
      now exists prop, s, s'. }
    split; [exact Hreq|]. split; [congruence|]. split; [auto|].
    intros Hname Hd.
    apply (@keeps_create_dc_schema classes dc (dc_name cls) Hname
             (get_field_schema classes fuel)
             (keeps_get_field_schema Hname fuel) dc _ _ _
             (conj Hr Hd : unregistered dc (dc_name cls)
                             {| root := root st; seen_root := true;
                                defs := defs st |}) H). }
  split; [|split; [exact First|]]; [|split; [|split; [|split]]].
  - intros a st Hr Hs. rewrite get_dc_schema_first by assumption.
    now rewrite Hr.
  - intros rec a st Hr Hs. unfold get_dc_schema, bind, get_self.
    cbv beta iota. subst dc. now rewrite Nat.eqb_refl, Hs.
  - intros t d a st frag st' Hr Hs H.
    apply preserving_get_field_schema in H. destruct H as [Hroot Hseen _ _].
    split; [congruence | auto].
  - intros cls t d a st frag st' Hcls Hname Hm Hr Hd H.
    exact (proj2 (keeps_get_field_schema Hname fuel _ _ _ (conj Hr Hd) Hm H)).
  - intros cls doc Hcls Hname H.
    destruct (GetSchema_call_ok _ _ _ H)
      as (frag & st' & Hrun & -> & Hnd & Hs & Hd).
    destruct (First cls SchemaAnnotation_new
                {| root := dc; seen_root := false; defs := [] |} frag st'
                Hcls eq_refl eq_refl Hrun)
      as (Hcar & Hall & _ & _ & _ & _ & Hfree).
    specialize (Hfree Hname (fun x => x)).
    pose proof (@document_defs frag (defs st') Hnd Hd) as Hdefs.
    set (schema2 := match defs st' with
                    | [] => frag
                    | _ :: _ => Dict.set "$defs" (VDict (defs st')) frag
                    end) in *.
    assert (Hnd2 : NoDup (Dict.keys schema2)).
    { unfold schema2. destruct (defs st'); auto.
      now apply DictFacts.nodup_set. }
    assert (Ho2 : forall k, k <> "$defs" ->
                            Dict.get k schema2 = Dict.get k frag).
    { intros k Hk. unfold schema2. destruct (defs st'); auto.
      now apply DictFacts.get_set_other. }
    split; [|split].
    + rewrite DictFacts.get_update by exact Hnd2.
      rewrite Ho2 by discriminate. now rewrite (proj1 Hcar).
    + rewrite DictFacts.get_update by exact Hnd2.
      rewrite Ho2 by discriminate. now rewrite Hall.
    + intros registered Hreg. rewrite Hdefs in Hreg.
      destruct (defs st') as [|e r] eqn:E; [discriminate|].
      injection Hreg as <-. exact Hfree.
Qed.

Lemma root_inlined_then_referenced_witness :
  let seen := {| root := 2; seen_root := true; defs := [] |} in
  unshared_name Fixtures.classes 2 "DcRefsSelf"
  /\ (exists sch st',
        get_dc_schema Fixtures.classes (get_field_schema Fixtures.classes 3) 2
          SchemaAnnotation_new (Fixtures.fresh 2) = Ok (sch, st')
        /\ st' = seen
        /\ Dict.get "type" sch = Some (VStr "object")
        /\ Dict.get "title" sch = Some (VStr "DcRefsSelf")
        /\ Dict.get "required" sch
           = Some (VList [VStr "a"; VStr "b"; VStr "c"])
        /\ Dict.get "allOf" sch = None
        /\ Dict.get "properties" sch
           = Some (VDict
                     [ ("a", VDict [("type", VStr "string")]);
                       ("b", VDict
                               [("anyOf",
                                 VList
                                   [ VDict [("allOf",
                                             VList [VDict [("$ref", VStr "#")]])];
                                     VDict [("type", VStr "null")] ])]);
                       ("c", VDict
                               [("type", VStr "array");
                                ("items",
                                 VDict [("allOf",
                                         VList [VDict [("$ref", VStr "#")]])])])
                     ])
        /\ ~ In "DcRefsSelf" (Dict.keys (defs st')))
  /\ get_dc_schema Fixtures.classes (get_field_schema Fixtures.classes 0) 2
       SchemaAnnotation_new seen
     = Ok ([("allOf", VList [VDict [("$ref", VStr "#")]])], seen)
  /\ (exists frag st',
        get_field_schema Fixtures.classes 3 (TList [TDataclass 2]) None
          SchemaAnnotation_new seen = Ok (frag, st')
        /\ Dict.get "items" frag
           = Some (VDict [("allOf", VList [VDict [("$ref", VStr "#")]])])
        /\ root st' = 2 /\ seen_root st' = true
        /\ ~ In "DcRefsSelf" (Dict.keys (defs st')))
  /\ (exists doc,
        get_schema Fixtures.classes 3 2 = Ok doc
        /\ Dict.get "type" doc = Some (VStr "object")
        /\ Dict.get "$defs" doc = None).
Proof.
  intros seen.
  assert (Hname : unshared_name Fixtures.classes 2 "DcRefsSelf").
  { intros i cls H.
    do 11 (destruct i as [|i];
           [ injection H as <-; split;
             [ intros Hne; try discriminate; exfalso; now apply Hne
             | intros f Hf; simpl in Hf;
               repeat (destruct Hf as [<-|Hf]; [reflexivity|]);
               destruct Hf ]
           | ]).
    destruct i; discriminate. }
  destruct (root_inlined_then_referenced Fixtures.classes 3 2)
    as (_ & Hfirst & Href & Hkeep & Hfree & Hdoc).
  split; [exact Hname|]. split; [|split; [|split]].
  - eexists. eexists. split; [lazy; reflexivity|]. split; [reflexivity|].
    destruct (Hfirst Fixtures.DcRefsSelf SchemaAnnotation_new
                (Fixtures.fresh 2) _ _ eq_refl eq_refl eq_refl
                ltac:(lazy; reflexivity))
      as (Hcar & Hall & _ & Hreq & _ & _ & Hno).
    destruct Hcar as (Htype & Htitle & _).
    split; [exact Htype|]. split; [exact (Htitle eq_refl)|].
    split; [exact Hreq|]. split; [exact Hall|]. split; [reflexivity|].
    apply Hno; [exact Hname | intros []].
  - apply Href; reflexivity.
  - eexists. eexists. split; [lazy; reflexivity|].
    split; [reflexivity|].
    destruct (Hkeep (TList [TDataclass 2]) None SchemaAnnotation_new seen
                _ _ eq_refl eq_refl ltac:(lazy; reflexivity)) as [Hr Hs].
    split; [exact Hr|]. split; [exact Hs|].
    apply (Hfree Fixtures.DcRefsSelf (TList [TDataclass 2]) None
             SchemaAnnotation_new seen _ _ eq_refl Hname eq_refl eq_refl
             (fun x => x) ltac:(lazy; reflexivity)).
  - eexists. split; [lazy; reflexivity|].
    destruct (Hdoc Fixtures.DcRefsSelf _ eq_refl Hname
                ltac:(lazy; reflexivity)) as (Htype & _ & _).
    split; [exact Htype | reflexivity].
Defined.

(** ** Named types and $defs *)

Section NamedTypes.

Variable classes : list dataclass.

Lemma get_dc_schema_named (rec : ty -> option pyval -> SchemaAnnotation -> M pydict)
    (dc : nat) (cls : dataclass) (a : SchemaAnnotation) (st : GetSchema)
    (frag : pydict) (st' : GetSchema) :
  (forall t d b, preserving (rec t d b)) ->
  nth_error classes dc = Some cls ->
  dc <> root st ->
  get_dc_schema classes rec dc a st = Ok (frag, st') ->
  frag = reference (defs_path (dc_name cls)) a
  /\ In (dc_name cls) (Dict.keys (defs st')).
Proof.
  intros Hrec Hcls Hne H. unfold get_dc_schema, lookup_class in H.
  apply bind_ok in H as (self & s0 & Hself & H).
  unfold get_self in Hself. injection Hself as <- <-.
  apply Nat.eqb_neq in Hne. rewrite Hne, Hcls in H.
  apply bind_ok in H as (cls' & s1 & Hl & H). apply ret_ok in Hl as [-> ->].
  apply bind_ok in H as (u & s2 & Hreg & H). apply ret_ok in H as [-> ->].
  split; [reflexivity|].
  destruct (Dict.contains (dc_name cls) (defs st)) eqn:Hc; simpl in Hreg.
  - apply ret_ok in Hreg as [_ ->]. now apply DictFacts.contains_in_keys.
  - apply bind_ok in Hreg as (sch & s3 & _ & Hset).
    unfold set_def in Hset. injection Hset as _ <-. simpl.
    apply DictFacts.in_keys_set. now left.
Qed.

Lemma get_enum_schema_named (c : pyclass) (d : option pyval)
    (a : SchemaAnnotation) (st : GetSchema) (frag : pydict)
    (st' : GetSchema) :
  get_enum_schema c d a st = Ok (frag, st') ->
  frag = enum_reference (cls_name c) d a
  /\ In (cls_name c) (Dict.keys (defs st')).
Proof.
  intros H. unfold get_enum_schema in H.
  apply bind_ok in H as (self & s0 & Hself & H).
  unfold get_self in Hself. injection Hself as <- <-.
  apply bind_ok in H as (u & s1 & Hreg & H).
  assert (Hin : In (cls_name c) (Dict.keys (defs s1))).
  { destruct (Dict.contains (cls_name c) (defs st)) eqn:Hc; simpl in Hreg.
    - apply ret_ok in Hreg as [_ ->]. now apply DictFacts.contains_in_keys.
    - unfold set_def in Hreg. injection Hreg as _ <-. simpl.
      apply DictFacts.in_keys_set. now left. }
  destruct d as [m|].
  - apply bind_ok in H as (value & s2 & Hv & H).
    destruct m; try discriminate. apply ret_ok in Hv as [-> ->].
    apply ret_ok in H as [-> ->]. auto.
  - apply ret_ok in H as [-> ->]. auto.
Qed.

End NamedTypes.

(** C2, as the code has it.  A reference to a non-root record compiles
    to [{"allOf": [{"$ref": "#/$defs/<name>"}]}] with the metadata of
    the site spread in, whether the definition was just registered or
    was there already; a reference to a named enumeration compiles to
    the same, with "default" set to the value of the default member when
    the site has a default.  After either, $defs holds exactly one
    entry under the name; no later step adds a second one, and the
    final document carries these definitions. *)
Theorem named_type_defined_once (classes : list dataclass) (fuel : nat) :
  (forall t d a st frag st',
     NoDup (Dict.keys (defs st)) ->
     get_field_schema classes fuel t d a st = Ok (frag, st') ->
     NoDup (Dict.keys (defs st'))
     /\ (forall k, In k (Dict.keys (defs st)) ->
                   Dict.count k (defs st') = 1)
     /\ (forall dc cls,
           t = TDataclass dc -> nth_error classes dc = Some cls ->
           dc <> root st ->
           frag = reference (defs_path (dc_name cls)) a
           /\ Dict.count (dc_name cls) (defs st') = 1)
     /\ (forall c,
           t = TClass c -> is_enum c = true ->
           frag = enum_reference (cls_name c) d a
           /\ Dict.count (cls_name c) (defs st') = 1))
  /\ (forall dc doc,
        get_schema classes fuel dc = Ok doc ->
        exists frag final,
          get_dc_schema classes (get_field_schema classes fuel) dc
            SchemaAnnotation_new
            {| root := dc; seen_root := false; defs := [] |}
          = Ok (frag, final)
          /\ forall k, In k (Dict.keys (defs final)) ->
               Dict.get "$defs" doc = Some (VDict (defs final))
               /\ Dict.count k (defs final) = 1).
Proof.
  split.
  - intros t d a st frag st' Hnd H.
    destruct (preserving_get_field_schema classes fuel _ _ _ _ H)
      as [_ _ Hkeys Hnodup].
    specialize (Hnodup Hnd).
    split; [exact Hnodup|]. split; [|split].
    + intros k Hk. apply DictFacts.count_nodup; auto.
    + intros dc cls -> Hcls Hne.
      destruct fuel as [|fuel']; [discriminate|]. simpl in H.
      destruct (@get_dc_schema_named classes _ dc cls a st frag st'
                  (preserving_get_field_schema classes fuel') Hcls Hne H)
        as [Hfrag Hin].
      split; [exact Hfrag|]. now apply DictFacts.count_nodup.
    + intros c -> Henum.
      destruct fuel as [|fuel']; [discriminate|]. simpl in H.
      unfold is_enum in Henum. apply andb_true_iff in Henum as [Hn He].
      apply negb_true_iff in Hn. rewrite Hn, He in H.
      destruct (get_enum_schema_named _ _ _ _ H) as [Hfrag Hin].
      split; [exact Hfrag|]. now apply DictFacts.count_nodup.
  - intros dc doc H.
    destruct (GetSchema_call_ok _ _ _ H)
      as (frag & final & Hrun & -> & Hfrag & _ & Hd).
    pose proof (@document_defs frag (defs final) Hfrag Hd) as Hdefs.
    exists frag, final. split; [exact Hrun|]. intros k Hk.
    assert (Hnd : NoDup (Dict.keys (defs final))).
    { apply (@preserving_get_dc_schema classes _
               (preserving_get_field_schema classes fuel)) in Hrun.
      apply Hrun. simpl. constructor. }
    split.
    + rewrite Hdefs. destruct (defs final); [destruct Hk | reflexivity].
    + now apply DictFacts.count_nodup.
Qed.

Lemma named_type_defined_once_witness :
  exists frag1 st1 frag2 st2,
    get_field_schema Fixtures.classes 3 (TDataclass 1) None
      SchemaAnnotation_new {| root := 0; seen_root := true; defs := [] |}
    = Ok (frag1, st1)
    /\ get_field_schema Fixtures.classes 3 (TList [TDataclass 1]) None
         SchemaAnnotation_new st1
       = Ok (frag2, st2)
    /\ frag1 = reference "#/$defs/DcRefsChild" SchemaAnnotation_new
    /\ Dict.count "DcRefsChild" (defs st1) = 1
    /\ Dict.count "DcRefsChild" (defs st2) = 1.
Proof.
  eexists. eexists. eexists. eexists.
  split; [lazy; reflexivity|]. split; [lazy; reflexivity|].
  destruct (named_type_defined_once Fixtures.classes 3) as [Hstep _].
  match goal with
  | |- ?frag1 = _ /\ Dict.count _ (defs ?st1) = 1
       /\ Dict.count _ (defs ?st2) = 1 =>
      destruct (Hstep (TDataclass 1) None SchemaAnnotation_new
                  {| root := 0; seen_root := true; defs := [] |} frag1 st1
                  ltac:(constructor) ltac:(lazy; reflexivity))
        as (Hnd1 & _ & Hdc & _);
      destruct (Hdc 1 Fixtures.DcRefsChild eq_refl eq_refl
                  ltac:(discriminate)) as [Hfrag1 Hcount1];
      destruct (Hstep (TList [TDataclass 1]) None SchemaAnnotation_new
                  st1 _ st2 Hnd1 ltac:(lazy; reflexivity))
        as (_ & Hkeep & _)
  end.
  split; [exact Hfrag1|]. split; [exact Hcount1|].
  apply Hkeep. simpl. now left.
Defined.

(** The reference to a named enumeration in a field with a default has
    a "default" key, which the bare reference fragment has not: the
    field [b: MyEnum = MyEnum.a] of the test suite. *)
Lemma enum_reference_with_default_has_default :
  exists doc props b,
    get_schema Fixtures.classes 2 3 = Ok doc
    /\ Dict.get "properties" doc = Some (VDict props)
    /\ Dict.get "b" props = Some (VDict b)
    /\ Dict.get "default" b = Some (VInt 1)
    /\ b <> reference "#/$defs/MyEnum" SchemaAnnotation_new.
Proof.
  eexists. eexists. eexists.
  split; [lazy; reflexivity|].
  split; [reflexivity|]. split; [reflexivity|]. split; [reflexivity|].
  discriminate.
Qed.

(** ** Dates *)

(** The field [b] of [DcDateTime] is a date with a default value, and
    its fragment has no "default" key. *)
Lemma date_default_is_dropped :
  exists doc props b,
    In (Fixtures.fld_with "b" (TClass Fixtures.date)
          (VObject "datetime.date(2000, 1, 1)"))
       (dc_fields Fixtures.DcDateTime)
    /\ get_schema Fixtures.classes 2 5 = Ok doc
    /\ Dict.get "properties" doc = Some (VDict props)
    /\ Dict.get "b" props = Some (VDict b)
    /\ Dict.get "default" b = None.
Proof.
  eexists. eexists. eexists.
  split; [simpl; tauto|].
  split; [lazy; reflexivity|].
  split; [reflexivity|]. split; reflexivity.
Qed.

(** C5, as the code has it.  A date-time type compiles to
    [{"type": "string", "format": "date-time"}] and a date type to
    [{"type": "string", "format": "date"}], each with the metadata
    keywords spread in; the default value of the field is not looked
    at, and the fragment has no "default" key whether or not the field
    has a default. *)
Theorem temporal_types_ignore_default
    (classes : list dataclass) (fuel : nat) (c : pyclass)
    (default : option pyval) (a : SchemaAnnotation) (st : GetSchema) :
  (is_datetime c = true ->
   get_field_schema classes (S fuel) (TClass c) default a st
   = Ok (temporal_fragment "date-time" a, st))
  /\ (is_date c = true ->
      get_field_schema classes (S fuel) (TClass c) default a st
      = Ok (temporal_fragment "date" a, st))
  /\ (forall fmt, Dict.get "default" (temporal_fragment fmt a) = None).
Proof.
  split; [|split].
  - unfold is_datetime. intros H.
    apply andb_true_iff in H as [H Hdt]. apply andb_true_iff in H as [Hn He].
    apply negb_true_iff in Hn, He. simpl. now rewrite Hn, He, Hdt.
  - unfold is_date. intros H.
    apply andb_true_iff in H as [H Hd]. apply andb_true_iff in H as [H Hdt].
    apply andb_true_iff in H as [Hn He].
    apply negb_true_iff in Hn, He, Hdt. simpl. now rewrite Hn, He, Hdt, Hd.
  - intros fmt. unfold temporal_fragment. solve_lacks.
Qed.

Lemma temporal_types_ignore_default_witness :
  is_date Fixtures.date = true
  /\ get_field_schema Fixtures.classes 1 (TClass Fixtures.date)
       (Some (VObject "datetime.date(2000, 1, 1)")) SchemaAnnotation_new
       (Fixtures.fresh 5)
     = Ok ([("type", VStr "string"); ("format", VStr "date")],
           Fixtures.fresh 5).
Proof.
  split; [reflexivity|].
  apply (proj1 (proj2 (temporal_types_ignore_default Fixtures.classes 0
                         Fixtures.date
                         (Some (VObject "datetime.date(2000, 1, 1)"))
                         SchemaAnnotation_new (Fixtures.fresh 5)))).
  reflexivity.
Defined.

(** ** Mappings *)

Lemma foldM_each {A B : Type} (f : A -> B -> M A) (l : list B) :
  forall a s r, foldM f l a s = Ok r ->
  forall x, In x l -> exists a' s' r', f a' x s' = Ok r'.
Proof.
  induction l as [|y l IH]; intros a s r H x Hx; [destruct Hx|].
  simpl in H. destruct r as [b s2].
  apply bind_ok in H as (a1 & s1 & Hy & H).
  destruct Hx as [->|Hx].
  - now exists a, s, (a1, s1).
  - eapply IH; eassumption.
Qed.

Lemma create_dc_schema_compiles_fields (classes : list dataclass)
    (rec : ty -> option pyval -> SchemaAnnotation -> M pydict)
    (dc : nat) (cls : dataclass) (f : field) (st : GetSchema)
    (r : pydict * GetSchema) :
  nth_error classes dc = Some cls ->
  In f (dc_fields cls) ->
  create_dc_schema classes rec dc st = Ok r ->
  exists s r', rec (fld_type f) (fld_default f) SchemaAnnotation_new s = Ok r'.
Proof.
  intros Hcls Hf H. destruct r as [sch st'].
  unfold create_dc_schema, lookup_class in H. rewrite Hcls in H.
  apply bind_ok in H as (cls' & s0 & Hl & H). apply ret_ok in Hl as [-> ->].
  apply bind_ok in H as (schema1 & s1 & Hloop & _).
  destruct (foldM_each _ _ _ _ Hloop f Hf) as (a' & s' & [b s2] & Hstep).
  unfold add_field in Hstep.
  apply bind_ok in Hstep as (prop & s3 & Hrec & _).
  now exists s', (prop, s3).
Qed.

(** C8.  A mapping type with a first type argument other than [str]
    does not compile: the assertion of [get_dict_schema] fails, whatever
    the default, the metadata and the state.  A record with a field of
    such a type gets no document: [get_schema] does not return. *)
Theorem mapping_key_must_be_str
    (classes : list dataclass) (fuel : nat) (key : ty) (rest : list ty) :
  is_str key = false ->
  (forall default a st,
     get_field_schema classes (S fuel) (TDict (key :: rest)) default a st
     = Raise AssertionError)
  /\ (forall dc cls f doc,
        nth_error classes dc = Some cls ->
        In f (dc_fields cls) ->
        fld_type f = TDict (key :: rest) ->
        get_schema classes fuel dc <> Ok doc).
Proof.
  intros Hkey.
  assert (Hfail : forall n default a st,
            get_field_schema classes (S n) (TDict (key :: rest)) default a st
            = Raise AssertionError).
  { intros n default a st. simpl. unfold get_dict_schema.
    destruct (negb _); [reflexivity|]. now rewrite Hkey. }
  split; [apply Hfail|].
  intros dc cls f doc Hcls Hf Hty H.
  unfold get_schema, GetSchema_call in H.
  destruct (get_dc_schema _ _ _ _ _) as [[frag st']| |] eqn:Hrun;
    try discriminate.
  rewrite get_dc_schema_first in Hrun by reflexivity.
  destruct (@create_dc_schema_compiles_fields _ _ _ _ f _ _ Hcls Hf Hrun)
    as (s & r' & Hrec).
  rewrite Hty in Hrec. destruct fuel as [|n]; [discriminate|].
  rewrite Hfail in Hrec. discriminate.
Qed.

Lemma mapping_key_must_be_str_witness :
  is_str TInt = false
  /\ get_field_schema Fixtures.classes 4 (TDict [TInt; TStr]) None
       SchemaAnnotation_new (Fixtures.fresh 8)
     = Raise AssertionError
  /\ get_schema Fixtures.classes 3 8 = Raise AssertionError.
Proof.
  destruct (@mapping_key_must_be_str Fixtures.classes 3 TInt [TStr] eq_refl)
    as [Hsite Hdoc].
  split; [reflexivity|]. split; [apply Hsite|].
  destruct (get_schema Fixtures.classes 3 8) as [doc|e|] eqn:E.
  - exfalso.
    apply (Hdoc 8 Fixtures.DcIntKeys
             (Fixtures.fld "m" (TDict [TInt; TStr])) doc eq_refl).
    + simpl. tauto.
    + reflexivity.
    + exact E.
  - lazy in E. symmetry. exact E.
  - lazy in E. discriminate.
Defined.

(** ** Recursion through a record that is not the root *)

Lemma bind_out_of_fuel {A B : Type} (m : M A) (f : A -> M B) (s : GetSchema) :
  m s = OutOfFuel -> bind m f s = OutOfFuel.
Proof. unfold bind. now intros ->. Qed.

(** [create_dc_schema] starts by compiling the first field. *)
Lemma create_dc_schema_descends (classes : list dataclass)
    (rec : ty -> option pyval -> SchemaAnnotation -> M pydict)
    (dc : nat) (cls : dataclass) (f : field) (rest : list field)
    (st : GetSchema) :
  nth_error classes dc = Some cls ->
  dc_fields cls = f :: rest ->
  rec (fld_type f) (fld_default f) SchemaAnnotation_new st = OutOfFuel ->
  create_dc_schema classes rec dc st = OutOfFuel.
Proof.
  intros Hcls Hfields Hrec. unfold create_dc_schema, lookup_class.
  rewrite Hcls. unfold bind at 1. unfold ret at 1.
  cbv beta iota zeta. rewrite Hfields. apply bind_out_of_fuel. simpl foldM.
  apply bind_out_of_fuel. unfold add_field. now apply bind_out_of_fuel.
Qed.

(** A record that is not the root and whose name is not in $defs is
    compiled by [create_dc_schema] before anything is registered. *)
Lemma get_dc_schema_descends (classes : list dataclass)
    (rec : ty -> option pyval -> SchemaAnnotation -> M pydict)
    (dc : nat) (cls : dataclass) (a : SchemaAnnotation) (st : GetSchema) :
  nth_error classes dc = Some cls ->
  dc <> root st ->
  Dict.contains (dc_name cls) (defs st) = false ->
  create_dc_schema classes rec dc st = OutOfFuel ->
  get_dc_schema classes rec dc a st = OutOfFuel.
Proof.
  intros Hcls Hne Hc Hcreate. apply Nat.eqb_neq in Hne.
  unfold get_dc_schema, lookup_class. rewrite Hcls.
  unfold bind at 1. unfold get_self. cbv beta iota. rewrite Hne.
  unfold bind at 1. unfold ret at 1. cbv beta iota. rewrite Hc.
  simpl negb. cbv iota. apply bind_out_of_fuel. now apply bind_out_of_fuel.
Qed.

Lemma node_never_returns (fuel : nat) :
  forall st,
    root st = 6 -> Dict.contains "Node" (defs st) = false ->
    (forall d a,
       get_field_schema Fixtures.classes fuel (TDataclass 7) d a st
       = OutOfFuel)
    /\ (forall d a,
          get_field_schema Fixtures.classes fuel
            (TUnion [TDataclass 7; TNone]) d a st
          = OutOfFuel).
Proof.
  induction fuel as [|fuel IH]; intros st Hr Hc; [split; reflexivity|].
  destruct (IH st Hr Hc) as [IHdc IHunion]. split; intros d a.
  - simpl. apply get_dc_schema_descends with (cls := Fixtures.Node).
    + reflexivity.
    + rewrite Hr. discriminate.
    + exact Hc.
    + eapply create_dc_schema_descends; [reflexivity | reflexivity |].
      apply IHunion.
  - simpl. unfold get_union_schema.
    destruct d; apply bind_out_of_fuel; simpl mapM;
      apply bind_out_of_fuel; apply IHdc.
Qed.

(** C1, at the input where it fails.  [Outer] has a field of type
    [Node], and [Node] has a field of type [Optional[Node]].  The name
    of [Node] enters $defs only after [create_dc_schema] has returned,
    so the reference to [Node] inside [Node] descends again, and so on:
    whatever the recursion depth allowed, [get_schema] does not
    return. *)
Theorem non_root_recursion_never_returns (fuel : nat) :
  get_schema Fixtures.classes fuel 6 = OutOfFuel.
Proof.
  unfold get_schema, GetSchema_call.
  rewrite get_dc_schema_first by reflexivity.
  assert (H : create_dc_schema Fixtures.classes
                (get_field_schema Fixtures.classes fuel) 6
                {| root := 6; seen_root := true; defs := [] |} = OutOfFuel).
  { eapply create_dc_schema_descends; [reflexivity | reflexivity |].
    apply (node_never_returns fuel); reflexivity. }
  simpl root. simpl defs. now rewrite H.
Qed.

(** ** The two styles of metadata *)

Lemma map_key_filter_value (g : string -> string) (l : list (string * pyval)) :
  map (fun kv => (g (fst kv), snd kv))
      (filter (fun kv => negb (is_None (snd kv))) l)
  = filter (fun kv => negb (is_None (snd kv)))
           (map (fun kv => (g (fst kv), snd kv)) l).
Proof.
  induction l as [|[k v] r IH]; simpl; auto.
  destruct (negb (is_None v)); simpl; now rewrite IH.
Qed.

Lemma set_absent (k : string) (v : pyval) (d : pydict) :
  ~ In k (Dict.keys d) -> Dict.set k v d = d ++ [(k, v)].
Proof.
  induction d as [|[k0 v0] r IH]; simpl; auto.
  intros Hk. destruct (String.eqb k k0) eqn:E.
  - apply String.eqb_eq in E. subst. exfalso. apply Hk. now left.
  - f_equal. apply IH. tauto.
Qed.

(** A display of distinct keys is the list of its entries. *)
Lemma display_entries {A : Type} (g : A -> pyval) (l : list (string * A)) :
  NoDup (map fst l) ->
  Dict.display (map (fun kv => KV (fst kv) (g (snd kv))) l)
  = map (fun kv => (fst kv, g (snd kv))) l.
Proof.
  unfold Dict.display.
  assert (G : forall acc,
    NoDup (Dict.keys acc ++ map fst l) ->
    fold_left (fun acc it =>
                 match it with
                 | KV k v => Dict.set k v acc
                 | Spread d => Dict.update acc d
                 end)
              (map (fun kv => KV (fst kv) (g (snd kv))) l) acc
    = acc ++ map (fun kv => (fst kv, g (snd kv))) l).
  { induction l as [|[k x] r IH]; intros acc Hnd; simpl.
    - now rewrite app_nil_r.
    - simpl in Hnd.
      assert (Hk : ~ In k (Dict.keys acc)).
      { apply NoDup_remove_2 in Hnd. rewrite in_app_iff in Hnd. tauto. }
      rewrite set_absent by exact Hk. rewrite IH.
      + now rewrite <- app_assoc.
      + unfold Dict.keys in *. rewrite map_app, <- app_assoc. exact Hnd. }
  intros Hnd. now apply G.
Qed.

(** *** The codec *)

Lemma all_some_ok {A B : Type} (f : A -> option B) (l : list A) :
  forall l', Legacy.all_some (map f l) = Some l' ->
             Forall2 (fun x y => f x = Some y) l l'.
Proof.
  induction l as [|x r IH]; simpl; intros l' H.
  - injection H as <-. constructor.
  - destruct (f x) as [y|] eqn:E; [|discriminate].
    destruct (Legacy.all_some (map f r)) as [ys|]; [|discriminate].
    injection H as <-. constructor; auto.
Qed.

Lemma all_some_iff {A B : Type} (f : A -> option B) (l : list A) :
  (exists l', Legacy.all_some (map f l) = Some l')
  <-> Forall (fun x => exists y, f x = Some y) l.
Proof.
  induction l as [|x r IH]; simpl.
  - split; [constructor | now exists []].
  - split.
    + intros (l' & H). destruct (f x) as [y|] eqn:E; [|discriminate].
      destruct (Legacy.all_some (map f r)) as [ys|]; [|discriminate].
      constructor; [now exists y | apply IH; now exists ys].
    + intros H. inversion H as [|? ? (y & Hy) Hr]; subst.
      apply IH in Hr as (ys & Hys). rewrite Hy, Hys. now exists (y :: ys).
Qed.

Lemma encode_members_ok (d : pydict) (members : list (string * Legacy.json)) :
  Legacy.encode_members d = Some members ->
  Forall2 (fun kv m => fst m = fst kv /\ Legacy.encode (snd kv) = Some (snd m))
          d members.
Proof.
  unfold Legacy.encode_members. intros H. apply all_some_ok in H.
  induction H as [|[k v] [k' j] d' ms Hx _ IH]; constructor; auto.
  simpl in *. destruct (Legacy.encode v); [|discriminate].
  simpl in Hx. injection Hx as -> ->. auto.
Qed.

(** Decoding what was encoded from a dict gives the dict back, entry by
    entry, with every value as it comes back from JSON. *)
Lemma decode_encoded_members (d : pydict) (members : list (string * Legacy.json)) :
  NoDup (Dict.keys d) ->
  Legacy.encode_members d = Some members ->
  Legacy.decode_members members
  = map (fun kv => (fst kv, through_json (snd kv))) d.
Proof.
  intros Hnd H. apply encode_members_ok in H.
  assert (Hk : map fst members = map fst d).
  { clear Hnd. induction H as [|kv m d' ms [Hf _] _ IH]; simpl;
      [reflexivity | now rewrite Hf, IH]. }
  unfold Legacy.decode_members. rewrite display_entries
    by (rewrite Hk; exact Hnd).
  clear Hnd Hk.
  induction H as [|kv m d' ms [Hf He] _ IH]; simpl; [reflexivity|].
  f_equal; [|exact IH]. unfold through_json. now rewrite He, Hf.
Qed.

Lemma loads_dumps (d : pydict) (s : Legacy.json_text) :
  NoDup (Dict.keys d) ->
  Legacy.json_dumps d = Ok s ->
  Legacy.json_loads s = map (fun kv => (fst kv, through_json (snd kv))) d.
Proof.
  unfold Legacy.json_dumps. intros Hnd H.
  destruct (Legacy.encode_members d) as [members|] eqn:E; [|discriminate].
  injection H as <-. simpl. now apply decode_encoded_members.
Qed.

Lemma through_json_list (l : list pyval) :
  Legacy.encode (VList l) <> None ->
  through_json (VList l) = VList (map through_json l).
Proof.
  unfold through_json at 1. simpl.
  destruct (Legacy.all_some (map Legacy.encode l)) as [js|] eqn:E;
    [|intros H; now destruct H].
  intros _. simpl. f_equal. apply all_some_ok in E.
  induction E as [|x j l' js' Hx _ IH]; simpl; [reflexivity|].
  f_equal; [|exact IH]. unfold through_json. now rewrite Hx.
Qed.

(** A value that JSON has survives the round trip. *)
Lemma distinct_nodup (l : list string) : distinct l = true -> NoDup l.
Proof.
  induction l as [|x r IH]; simpl; [constructor|].
  intros H. apply andb_true_iff in H as [Hx Hr]. constructor; auto.
  intros Hin. apply negb_true_iff in Hx.
  assert (existsb (String.eqb x) r = true).
  { apply existsb_exists. exists x. split; [exact Hin|].
    apply String.eqb_refl. }
  congruence.
Qed.

Lemma json_native_round_trip (v : pyval) :
  json_native v = true ->
  exists j, Legacy.encode v = Some j /\ Legacy.decode j = v.
Proof.
  induction v using value_ind; simpl; intros Hn; try discriminate;
    try (eexists; split; reflexivity).
  - (* list *)
    assert (G : exists js, Legacy.all_some (map Legacy.encode l) = Some js
                           /\ map Legacy.decode js = l).
    { induction H as [|x r Hx _ IH]; simpl in *.
      - now exists [].
      - apply andb_true_iff in Hn as [Hnx Hnr].
        destruct (Hx Hnx) as (j & Hj & Hd).
        destruct (IH Hnr) as (js & Hjs & Hds).
        exists (j :: js). rewrite Hj, Hjs. simpl. now rewrite Hd, Hds. }
    destruct G as (js & Hjs & Hds). exists (Legacy.JArray js).
    rewrite Hjs. simpl. now rewrite Hds.
  - (* dict *)
    apply andb_true_iff in Hn as [Hdist Hn]. apply distinct_nodup in Hdist.
    assert (G : exists ms,
              Legacy.all_some
                (map (fun kv => option_map (pair (fst kv))
                                  (Legacy.encode (snd kv))) d) = Some ms
              /\ map fst ms = map fst d
              /\ map (fun kv => (fst kv, Legacy.decode (snd kv))) ms = d).
    { clear Hdist. induction H as [|[k x] r Hx _ IH]; simpl in *.
      - now exists [].
      - apply andb_true_iff in Hn as [Hnx Hnr].
        destruct (Hx Hnx) as (j & Hj & Hd).
        destruct (IH Hnr) as (ms & Hms & Hk & Hds).
        exists ((k, j) :: ms). rewrite Hj. simpl. rewrite Hms. simpl.
        now rewrite Hd, Hds, Hk. }
    destruct G as (ms & Hms & Hk & Hds). exists (Legacy.JObject ms).
    rewrite Hms. simpl. split; [reflexivity|].
    rewrite display_entries by (rewrite Hk; exact Hdist). now rewrite Hds.
Qed.

Lemma through_json_native (v : pyval) :
  json_native v = true -> through_json v = v.
Proof.
  intros H. destruct (json_native_round_trip v H) as (j & Hj & Hd).
  unfold through_json. now rewrite Hj.
Qed.

(** [json.dumps] accepts exactly the serialisable values. *)
Lemma encode_serialisable (v : pyval) :
  (exists j, Legacy.encode v = Some j) <-> json_serialisable v = true.
Proof.
  assert (L : forall l, Forall (fun v => (exists j, Legacy.encode v = Some j)
                                         <-> json_serialisable v = true) l ->
                        (exists js, Legacy.all_some (map Legacy.encode l)
                                    = Some js)
                        <-> forallb json_serialisable l = true).
  { intros l H. rewrite all_some_iff, forallb_forall, Forall_forall.
    rewrite Forall_forall in H. split; intros G x Hx; apply H; auto. }
  induction v using value_ind; simpl;
    try (split; [reflexivity | intros _; eexists; reflexivity]);
    try (split; [intros (j & Hj); discriminate | discriminate]).
  - rewrite <- (L l H). split.
    + intros (j & Hj). destruct (Legacy.all_some _) as [js|]; [|discriminate].
      now exists js.
    + intros (js & Hjs). rewrite Hjs. eexists. reflexivity.
  - rewrite <- (L l H). split.
    + intros (j & Hj). destruct (Legacy.all_some _) as [js|]; [|discriminate].
      now exists js.
    + intros (js & Hjs). rewrite Hjs. eexists. reflexivity.
  - assert (G : (exists ms,
                   Legacy.all_some
                     (map (fun kv => option_map (pair (fst kv))
                                       (Legacy.encode (snd kv))) d) = Some ms)
                <-> forallb (fun kv => json_serialisable (snd kv)) d = true).
    { rewrite all_some_iff, forallb_forall, Forall_forall.
      rewrite Forall_forall in H. split.
      - intros G kv Hkv. apply H; auto. destruct (G kv Hkv) as (y & Hy).
        destruct (Legacy.encode (snd kv)) as [j|]; [|discriminate].
        now exists j.
      - intros G kv Hkv. destruct (proj2 (H kv Hkv) (G kv Hkv)) as (j & Hj).
        rewrite Hj. eexists. reflexivity. }
    rewrite <- G. split.
    + intros (j & Hj). destruct (Legacy.all_some _) as [ms|]; [|discriminate].
      now exists ms.
    + intros (ms & Hms). rewrite Hms. eexists. reflexivity.
  - destruct mixed; [exact IHv|].
    split; [intros (j & Hj); discriminate | discriminate].
Qed.

Lemma dumps_serialisable (d : pydict) :
  (exists s, Legacy.json_dumps d = Ok s)
  <-> forallb (fun kv => json_serialisable (snd kv)) d = true.
Proof.
  unfold Legacy.json_dumps, Legacy.encode_members.
  rewrite forallb_forall. split.
  - intros (s & Hs) kv Hkv.
    destruct (Legacy.all_some _) as [ms|] eqn:E; [|discriminate].
    assert (G : exists ms, Legacy.all_some
                  (map (fun kv => option_map (pair (fst kv))
                                    (Legacy.encode (snd kv))) d) = Some ms)
      by now exists ms.
    apply all_some_iff in G. rewrite Forall_forall in G.
    destruct (G kv Hkv) as (y & Hy). apply encode_serialisable.
    destruct (Legacy.encode (snd kv)) as [j|]; [|discriminate]. now exists j.
  - intros G.
    assert (G' : exists ms, Legacy.all_some
                   (map (fun kv => option_map (pair (fst kv))
                                     (Legacy.encode (snd kv))) d) = Some ms).
    { apply all_some_iff. rewrite Forall_forall. intros kv Hkv.
      destruct (proj2 (encode_serialisable (snd kv)) (G kv Hkv)) as (j & Hj).
      rewrite Hj. eexists. reflexivity. }
    destruct G' as (ms & Hms). rewrite Hms. eexists. reflexivity.
Qed.

Lemma dumps_outcome (d : pydict) :
  Legacy.json_dumps d = Raise TypeError
  <-> forallb (fun kv => json_serialisable (snd kv)) d = false.
Proof.
  rewrite <- not_true_iff_false, <- dumps_serialisable.
  unfold Legacy.json_dumps. destruct (Legacy.encode_members d) as [ms|].
  - split; [discriminate|]. intros H. exfalso. apply H. eexists. reflexivity.
  - split; [|reflexivity]. intros _ (s & Hs). discriminate.
Qed.

(** *** The payload through the codec *)

Lemma asdict_decoded (a : SchemaAnnotation) :
  (forall l, examples a = Some l -> Legacy.encode (VList l) <> None) ->
  asdict (decoded a)
  = map (fun kv => (fst kv, through_json (snd kv))) (asdict a).
Proof.
  intros He. unfold asdict, decoded.
  cbn [map fst snd title description examples deprecated min_length
         max_length pattern format minimum maximum exclusive_minimum
         exclusive_maximum multiple_of min_items max_items unique_items].
  repeat (f_equal; [f_equal|]).
  all: try match goal with
       | |- opt _ ?o = through_json (opt _ ?o) =>
           destruct o as [[]|]; reflexivity
       | |- opt _ ?o = through_json (opt _ ?o) =>
           destruct o; reflexivity
       end.
  - destruct (examples a) as [l|]; [|reflexivity].
    simpl. symmetry. apply through_json_list. now apply He.
  - destruct (unique_items a); reflexivity.
Qed.

Lemma asdict_none_kept (a : SchemaAnnotation) :
  Forall (fun kv => is_None (through_json (snd kv)) = is_None (snd kv))
         (asdict a).
Proof.
  unfold asdict. repeat constructor; simpl.
  all: try match goal with
       | |- is_None (through_json (opt _ ?o)) = _ =>
           destruct o as [[]|]; reflexivity
       | |- is_None (through_json (opt _ ?o)) = _ =>
           destruct o; reflexivity
       end.
  destruct (examples a) as [l|]; [|reflexivity].
  unfold through_json. simpl.
  destruct (Legacy.all_some (map Legacy.encode l)); reflexivity.
Qed.

Lemma filter_map_values (F : pyval -> pyval) (l : pydict) :
  Forall (fun kv => is_None (F (snd kv)) = is_None (snd kv)) l ->
  map (fun kv => (fst kv, F (snd kv)))
      (filter (fun kv => negb (is_None (snd kv))) l)
  = filter (fun kv => negb (is_None (snd kv)))
           (map (fun kv => (fst kv, F (snd kv))) l).
Proof.
  induction 1 as [|[k v] r Hx _ IH]; simpl; [reflexivity|].
  simpl in Hx. rewrite Hx. destruct (negb (is_None v)); simpl; now rewrite IH.
Qed.

Lemma examples_in_schema (a : SchemaAnnotation) (l : list pyval) :
  examples a = Some l -> In ("examples", VList l) (schema a).
Proof.
  intros He. unfold schema.
  apply (in_map (fun kv => (key_map_get (fst kv), snd kv)) _
                ("examples", VList l)).
  apply filter_In. split; [|reflexivity].
  unfold asdict. rewrite He. simpl. tauto.
Qed.

(** What the older compiler decodes from the text of a payload is the
    keyword mapping of the payload as it comes back from JSON. *)
Lemma payload_through_json (a : SchemaAnnotation) (s : Legacy.json_text) :
  Legacy.json_dumps (schema a) = Ok s ->
  Legacy.json_loads s = schema (decoded a).
Proof.
  intros H. rewrite (@loads_dumps (schema a) s (schema_nodup a) H).
  assert (He : forall l, examples a = Some l ->
                         Legacy.encode (VList l) <> None).
  { intros l Hl. apply examples_in_schema in Hl.
    assert (G : exists s, Legacy.json_dumps (schema a) = Ok s) by now exists s.
    apply dumps_serialisable in G. rewrite forallb_forall in G.
    specialize (G _ Hl).
    apply encode_serialisable in G as (j & Hj). simpl in Hj. simpl.
    congruence. }
  unfold schema. rewrite (asdict_decoded a He).
  rewrite <- (filter_map_values through_json (asdict_none_kept a)).
  rewrite !map_map. reflexivity.
Qed.

Lemma decoded_native (a : SchemaAnnotation) :
  all_examples json_native (examples a) = true -> decoded a = a.
Proof.
  destruct a as [t d e dep minl maxl p f mi ma emi ema mo mini maxi u].
  unfold decoded. simpl. intros H. f_equal.
  destruct e as [l|]; [|reflexivity]. simpl in *. f_equal.
  induction l as [|x r IH]; simpl in *; [reflexivity|].
  apply andb_true_iff in H as [Hx Hr].
  now rewrite (through_json_native x Hx), IH.
Qed.

(** The keyword mapping of the typed object with the thirteen fields,
    entry by entry. *)
Lemma typed_schema
    (t d : option string) (e : option (list pyval)) (dep : option bool)
    (minl maxl : option Z) (p f : option string)
    (mi ma emi ema mo : option number) :
  schema (typed_of t d e dep minl maxl p f mi ma emi ema mo)
  = filter (fun kv => negb (is_None (snd kv)))
      [ ("title", opt VStr t);
        ("description", opt VStr d);
        ("examples", opt VList e);
        ("deprecated", opt VBool dep);
        ("minLength", opt VInt minl);
        ("maxLength", opt VInt maxl);
        ("pattern", opt VStr p);
        ("format", opt VStr f);
        ("minimum", opt number_val mi);
        ("maximum", opt number_val ma);
        ("exclusiveMinimum", opt number_val emi);
        ("exclusiveMaximum", opt number_val ema);
        ("multipleOf", opt number_val mo) ].
Proof.
  unfold schema. rewrite map_key_filter_value.
  unfold typed_of, asdict.
  cbn [map fst snd title description examples deprecated min_length
         max_length pattern format minimum maximum exclusive_minimum
         exclusive_maximum multiple_of min_items max_items unique_items].
  change (key_map_get "title") with "title".
  change (key_map_get "description") with "description".
  change (key_map_get "examples") with "examples".
  change (key_map_get "deprecated") with "deprecated".
  change (key_map_get "min_length") with "minLength".
  change (key_map_get "max_length") with "maxLength".
  change (key_map_get "pattern") with "pattern".
  change (key_map_get "format") with "format".
  change (key_map_get "minimum") with "minimum".
  change (key_map_get "maximum") with "maximum".
  change (key_map_get "exclusive_minimum") with "exclusiveMinimum".
  change (key_map_get "exclusive_maximum") with "exclusiveMaximum".
  change (key_map_get "multiple_of") with "multipleOf".
  match goal with
  | |- filter ?P ?l16 = filter ?P ?l13 =>
      change l16 with
        (l13 ++ [ (key_map_get "min_items", opt VInt None);
                  (key_map_get "max_items", opt VInt None);
                  (key_map_get "unique_items", opt VBool None) ])
  end.
  rewrite filter_app. simpl (filter _ [_; _; _]).
  now rewrite app_nil_r.
Qed.

(** The text [annotation] encodes is the keyword mapping of the typed
    object with the same thirteen fields. *)
Lemma annotation_dumps_schema
    (t d : option string) (e : option (list pyval)) (dep : option bool)
    (minl maxl : option Z) (p f : option string)
    (mi ma emi ema mo : option number) :
  Legacy.annotation t d e dep minl maxl p f mi ma emi ema mo
  = Legacy.json_dumps
      (schema (typed_of t d e dep minl maxl p f mi ma emi ema mo)).
Proof. rewrite typed_schema. reflexivity. Qed.

Lemma forallb_filter_keep {A : Type} (P Q : A -> bool) (l : list A) :
  (forall x, Q x = false -> P x = true) ->
  forallb P (filter Q l) = forallb P l.
Proof.
  intros H. induction l as [|x r IH]; simpl; [reflexivity|].
  destruct (Q x) eqn:E; simpl; rewrite IH; [reflexivity|].
  now rewrite (H x E).
Qed.

Lemma serialisable_number (n : option number) :
  json_serialisable (opt number_val n) = json_number n.
Proof. destruct n as [[]|]; reflexivity. Qed.

(** When every value of the typed object with the thirteen fields can be
    encoded. *)
Lemma typed_serialisable
    (t d : option string) (e : option (list pyval)) (dep : option bool)
    (minl maxl : option Z) (p f : option string)
    (mi ma emi ema mo : option number) :
  forallb (fun kv => json_serialisable (snd kv))
          (schema (typed_of t d e dep minl maxl p f mi ma emi ema mo))
  = all_examples json_serialisable e
    && json_number mi && json_number ma && json_number emi
    && json_number ema && json_number mo.
Proof.
  unfold schema.
  assert (G : forall (g : string * pyval -> string * pyval) l,
            (forall kv, snd (g kv) = snd kv) ->
            forallb (fun kv => json_serialisable (snd kv)) (map g l)
            = forallb (fun kv => json_serialisable (snd kv)) l).
  { intros g l Hg. induction l as [|x r IH]; simpl; [reflexivity|].
    now rewrite Hg, IH. }
  rewrite G by reflexivity.
  rewrite forallb_filter_keep.
  2: { intros [k v] Hv. simpl in *. destruct v; try discriminate.
       reflexivity. }
  unfold typed_of, asdict.
  cbn [forallb snd title description examples deprecated min_length
         max_length pattern format minimum maximum exclusive_minimum
         exclusive_maximum multiple_of min_items max_items unique_items].
  rewrite !serialisable_number.
  destruct t, d, dep, minl, maxl, p, f; cbn [opt json_serialisable andb];
    destruct e; cbn [opt json_serialisable all_examples andb];
    rewrite ?andb_true_r, ?andb_assoc; reflexivity.
Qed.

(** The two styles differ in three ways.  The free function has no
    parameter for [min_items]: no call of it gives the keyword mapping
    of [SchemaAnnotation(min_items=1)].  A tuple among the examples
    comes back from the text as a list, while the typed object keeps
    the tuple.  And a number that JSON does not have, a [Decimal], makes
    the free function raise [TypeError], while the typed object keeps
    it. *)
Lemma metadata_styles_differ :
  ~ (forall a : SchemaAnnotation,
       exists t d e dep minl maxl p f mi ma emi ema mo s,
         Legacy.annotation t d e dep minl maxl p f mi ma emi ema mo = Ok s
         /\ Legacy.load_extra (Some s) = schema a)
  /\ (exists s,
        Legacy.annotation None None (Some [VTuple [VInt 1; VInt 2]]) None
          None None None None None None None None None = Ok s
        /\ Legacy.load_extra (Some s)
           = [("examples", VList [VList [VInt 1; VInt 2]])]
        /\ schema (typed_of None None (Some [VTuple [VInt 1; VInt 2]]) None
                     None None None None None None None None None)
           = [("examples", VList [VTuple [VInt 1; VInt 2]])])
  /\ (Legacy.annotation None None None None None None None None
        (Some (NOther "Decimal('1.5')")) None None None None
      = Raise TypeError
      /\ schema (typed_of None None None None None None None None
                   (Some (NOther "Decimal('1.5')")) None None None None)
         = [("minimum", VObject "Decimal('1.5')")]).
Proof.
  split; [|split].
  - intros H.
    destruct (H {| title := None; description := None; examples := None;
                   deprecated := None; min_length := None;
                   max_length := None; pattern := None; format := None;
                   minimum := None; maximum := None;
                   exclusive_minimum := None; exclusive_maximum := None;
                   multiple_of := None; min_items := Some 1%Z;
                   max_items := None; unique_items := None |})
      as (t & d & e & dep & minl & maxl & p & f & mi & ma & emi & ema & mo
          & s & Hs & E).
    rewrite annotation_dumps_schema in Hs.
    simpl in E. rewrite (payload_through_json _ Hs) in E.
    assert (Hin : In ("minItems", VInt 1)
                     (schema (decoded (typed_of t d e dep minl maxl p f mi ma
                                         emi ema mo))))
      by (rewrite E; now left).
    unfold schema in Hin. apply in_map_iff in Hin as ([k v] & Heq & Hin).
    apply filter_In in Hin as [Hin Hv].
    unfold decoded, typed_of, asdict in Hin.
    cbn [title description examples deprecated min_length max_length pattern
           format minimum maximum exclusive_minimum exclusive_maximum
           multiple_of min_items max_items unique_items In] in Hin.
    repeat (destruct Hin as [Hin|Hin];
            [ injection Hin as <- <-; cbn in Heq, Hv; discriminate |]).
    destruct Hin.
  - eexists. split; [reflexivity|]. split; reflexivity.
  - split; reflexivity.
Qed.

(** C6, as the code has it.  Take any assignment of the thirteen fields
    that both styles know (title, description, examples, deprecated,
    min_length, max_length, pattern, format, minimum, maximum,
    exclusive_minimum, exclusive_maximum, multiple_of).  The free
    function raises [TypeError] exactly when a value among the examples
    cannot be written as JSON or a number is neither an int nor a float;
    otherwise it returns a text, and what is decoded from the text is
    the keyword mapping of the typed object, under the same JSON Schema
    key names in the same order, with every example as it comes back
    from JSON.  The two mappings are equal whenever the examples are
    values that JSON has.  Neither holds a null value, and the typed
    object emits nothing for its three further fields when they are
    unset. *)
Theorem metadata_styles_agree
    (t d : option string) (e : option (list pyval)) (dep : option bool)
    (minl maxl : option Z) (p f : option string)
    (mi ma emi ema mo : option number) :
  let typed := typed_of t d e dep minl maxl p f mi ma emi ema mo in
  let text := Legacy.annotation t d e dep minl maxl p f mi ma emi ema mo in
  let encodable :=
    all_examples json_serialisable e
    && json_number mi && json_number ma && json_number emi
    && json_number ema && json_number mo in
  (encodable = false <-> text = Raise TypeError)
  /\ (encodable = true <-> exists s, text = Ok s)
  /\ (forall s,
        text = Ok s ->
        Legacy.load_extra (Some s) = schema (decoded typed)
        /\ Dict.keys (Legacy.load_extra (Some s)) = Dict.keys (schema typed)
        /\ (forall k v, In (k, v) (Legacy.load_extra (Some s)) -> v <> VNone))
  /\ (all_examples json_native e = true ->
      forall s, text = Ok s -> Legacy.load_extra (Some s) = schema typed)
  /\ (forall k v, In (k, v) (schema typed) -> v <> VNone)
  /\ (forall k,
        In k (Dict.keys (schema typed))
        -> In k [ "title"; "description"; "examples"; "deprecated";
                  "minLength"; "maxLength"; "pattern"; "format"; "minimum";
                  "maximum"; "exclusiveMinimum"; "exclusiveMaximum";
                  "multipleOf" ]).
Proof.
  intros typed text encodable.
  assert (Htext : text = Legacy.json_dumps (schema typed))
    by apply annotation_dumps_schema.
  assert (Henc : forallb (fun kv => json_serialisable (snd kv)) (schema typed)
                 = encodable) by apply typed_serialisable.
  assert (Hdec : forall s, text = Ok s ->
                           Legacy.load_extra (Some s) = schema (decoded typed)).
  { intros s Hs. rewrite Htext in Hs. simpl.
    now apply payload_through_json. }
  split; [|split; [|split; [|split; [|split]]]].
  - rewrite Htext, <- Henc. symmetry. apply dumps_outcome.
  - rewrite Htext, <- Henc. symmetry. apply dumps_serialisable.
  - intros s Hs. split; [now apply Hdec|]. rewrite (Hdec s Hs). split.
    + rewrite !schema_keys. f_equal.
      rewrite Htext in Hs.
      assert (G : exists s, Legacy.json_dumps (schema typed) = Ok s)
        by now exists s.
      rewrite asdict_decoded.
      * rewrite <- (filter_map_values through_json (asdict_none_kept typed)).
        rewrite map_map. reflexivity.
      * intros l Hl. apply examples_in_schema in Hl.
        apply dumps_serialisable in G. rewrite forallb_forall in G.
        specialize (G _ Hl).
        apply encode_serialisable in G as (j & Hj). simpl in Hj. simpl.
        congruence.
    + intros k v. apply schema_not_none.
  - intros Hnat s Hs. rewrite (Hdec s Hs).
    now rewrite (decoded_native typed Hnat).
  - intros k v. apply schema_not_none.
  - intros k Hk. unfold typed in Hk. rewrite typed_schema in Hk.
    unfold Dict.keys in Hk. rewrite <- map_id in Hk.
    apply in_filter_keys in Hk. rewrite map_id in Hk. exact Hk.
Qed.

Lemma metadata_styles_agree_witness :
  exists s,
    Legacy.annotation (Some "size") None (Some [VInt 1; VList [VStr "a"]])
      None (Some 3%Z) None None None (Some (NFloat 3 (-1))) None None None
      None = Ok s
    /\ Legacy.load_extra (Some s)
       = [ ("title", VStr "size");
           ("examples", VList [VInt 1; VList [VStr "a"]]);
           ("minLength", VInt 3);
           ("minimum", VFloat 3 (-1)) ]
    /\ Legacy.load_extra (Some s)
       = schema (typed_of (Some "size") None
                   (Some [VInt 1; VList [VStr "a"]]) None (Some 3%Z) None
                   None None (Some (NFloat 3 (-1))) None None None None).
Proof.
  eexists. split; [reflexivity|]. split; [reflexivity|].
  apply (proj1 (proj2 (proj2 (proj2
           (metadata_styles_agree (Some "size") None
              (Some [VInt 1; VList [VStr "a"]]) None (Some 3%Z) None None
              None (Some (NFloat 3 (-1))) None None None None))))).
  - reflexivity.
  - reflexivity.
Defined.

(** * Further properties *)

(** ** More on dictionaries and displays *)

Lemma update_disjoint (e : pydict) :
  forall d, NoDup (Dict.keys (d ++ e)) -> Dict.update d e = d ++ e.
Proof.
  unfold Dict.update.
  induction e as [|[k v] r IH]; intros d Hnd; simpl.
  - now rewrite app_nil_r.
  - assert (Hk : ~ In k (Dict.keys d)).
    { unfold Dict.keys in *. rewrite map_app in Hnd. simpl in Hnd.
      apply NoDup_remove_2 in Hnd. rewrite in_app_iff in Hnd. tauto. }
    simpl fst. simpl snd. rewrite set_absent by exact Hk.
    rewrite IH; rewrite <- app_assoc; simpl; auto.
Qed.

Lemma update_nil (e : pydict) :
  NoDup (Dict.keys e) -> Dict.update [] e = e.
Proof. intros H. now apply update_disjoint. Qed.

Lemma display_snoc (items : list Dict.item) (e : pydict) :
  Dict.display (items ++ [Spread e]) = Dict.update (Dict.display items) e.
Proof. unfold Dict.display. now rewrite fold_left_app. Qed.

(** The last spread of a display decides the value of its keys. *)
Lemma get_display_last (items : list Dict.item) (e : pydict) (k : string)
    (v : pyval) :
  last items (KV "" VNone) = Spread e ->
  NoDup (Dict.keys e) ->
  Dict.get k e = Some v ->
  Dict.get k (Dict.display items) = Some v.
Proof.
  intros Hlast Hnd Hget.
  assert (Hne : items <> []) by (intros ->; discriminate).
  rewrite (@app_removelast_last _ items (KV "" VNone) Hne), Hlast, display_snoc.
  now apply DictFacts.get_update_in.
Qed.

Lemma dict_ext (d : pydict) :
  forall e, Dict.keys d = Dict.keys e -> NoDup (Dict.keys d) ->
            (forall k, Dict.get k d = Dict.get k e) -> d = e.
Proof.
  induction d as [|[k v] r IH]; intros [|[k' v'] r'] Hk Hnd Hget;
    try discriminate; auto.
  simpl in Hk. injection Hk as <- Hk.
  inversion Hnd as [|? ? Hnotin Hnd']; subst.
  assert (v = v').
  { specialize (Hget k). simpl in Hget. rewrite String.eqb_refl in Hget.
    congruence. }
  subst v'. f_equal. apply IH; auto.
  intros k0. specialize (Hget k0). simpl in Hget.
  destruct (String.eqb k0 k) eqn:E; auto.
  apply String.eqb_eq in E. subst k0.
  assert (Dict.get k r = None) as -> by now apply DictFacts.get_none_not_in.
  symmetry. apply DictFacts.get_none_not_in. unfold Dict.keys in *.
  now rewrite <- Hk.
Qed.

(** ** More on the monad *)

Lemma mapM_ok {A B : Type} (f : A -> M B) (l : list A) :
  forall s ys s', mapM f l s = Ok (ys, s') ->
  Forall2 (fun x y => exists s1 s2, f x s1 = Ok (y, s2)) l ys.
Proof.
  induction l as [|x r IH]; intros s ys s' H; simpl in H.
  - apply ret_ok in H as [-> _]. constructor.
  - apply bind_ok in H as (y & s1 & Hy & H).
    apply bind_ok in H as (ys' & s2 & Hr & H).
    apply ret_ok in H as [-> _]. constructor; eauto.
Qed.

Lemma mapM_each {A B : Type} (f : A -> M B) (l : list A) (s : GetSchema)
    (r : list B * GetSchema) (x : A) :
  mapM f l s = Ok r -> In x l -> exists s1 r1, f x s1 = Ok r1.
Proof.
  destruct r as [ys s']. intros H Hx. apply mapM_ok in H.
  induction H as [|x0 y l0 ys0 (s1 & s2 & Hxy) _ IH]; [destruct Hx|].
  destruct Hx as [->|Hx]; eauto.
Qed.

(** ** Lookups in a metadata payload *)

Lemma get_filter_value (P : pyval -> bool) (l : pydict) (k : string)
    (v : pyval) :
  NoDup (Dict.keys l) -> In (k, v) l ->
  Dict.get k (filter (fun kv => P (snd kv)) l)
  = if P v then Some v else None.
Proof.
  induction l as [|[k0 v0] r IH]; simpl; [tauto|].
  intros Hnd Hin. inversion Hnd as [|? ? Hnotin Hnd']; subst.
  destruct Hin as [Heq|Hin].
  - injection Heq as -> ->. destruct (P v) eqn:E; simpl.
    + now rewrite String.eqb_refl.
    + apply DictFacts.get_none_not_in. intros Hin. apply Hnotin.
      unfold Dict.keys in *. rewrite <- (map_id (map fst r)).
      apply (in_filter_keys (fun x => x) (fun kv => P (snd kv))).
      now rewrite map_id.
  - assert (k <> k0).
    { intros ->. apply Hnotin. unfold Dict.keys.
      change k0 with (fst (k0, v)). now apply in_map. }
    destruct (P v0); simpl; auto.
    apply String.eqb_neq in H. rewrite H. auto.
Qed.

Lemma schema_as_filter (a : SchemaAnnotation) :
  schema a
  = filter (fun kv => negb (is_None (snd kv)))
           (map (fun kv => (key_map_get (fst kv), snd kv)) (asdict a)).
Proof. unfold schema. apply map_key_filter_value. Qed.

Lemma renamed_asdict_keys (a : SchemaAnnotation) :
  Dict.keys (map (fun kv => (key_map_get (fst kv), snd kv)) (asdict a))
  = keywords.
Proof. reflexivity. Qed.

Lemma schema_get_field (a : SchemaAnnotation) (k : string) (v : pyval) :
  In (k, v) (asdict a) ->
  Dict.get (key_map_get k) (schema a) = if is_None v then None else Some v.
Proof.
  intros Hin. rewrite schema_as_filter.
  rewrite (@get_filter_value (fun v => negb (is_None v)) _
             (key_map_get k) v).
  - now destruct (is_None v).
  - rewrite renamed_asdict_keys. exact keywords_nodup.
  - apply in_map_iff. exists (k, v). auto.
Qed.



(** ** Metadata at a site *)

(** Unfolds the compilers of the shapes that have no state of their
    own. *)
Ltac unfold_shapes H :=
  unfold get_union_schema, get_literal_schema, get_annotated_schema,
    get_dict_schema, get_list_schema, get_tuple_schema, get_set_schema,
    get_none_schema, get_str_schema, get_bool_schema, get_int_schema,
    get_number_schema, get_primitive_schema, get_datetime_schema,
    get_date_schema in H.

(** Proves that a display ending in a spread has the entries of the
    spread. *)
Ltac solve_spread :=
  first
    [ eassumption
    | eapply get_display_last;
      [ reflexivity
      | first [ apply schema_nodup | apply DictFacts.nodup_display ]
      | solve_spread ] ].

(** X2.  The metadata of a site wins: whatever the type, other than an
    [Annotated] wrapper (which brings its own payload) and the first
    emission of the root (which drops the metadata), every keyword of
    the metadata is in the fragment with the metadata's value, also
    where the compiler sets the same key itself ("format",
    "uniqueItems", "minItems", "maxItems"). *)
Theorem site_metadata_overrides
    (classes : list dataclass) (fuel : nat) (t : ty) (d : option pyval)
    (a : SchemaAnnotation) (st : GetSchema) (frag : pydict)
    (st' : GetSchema) :
  is_annotated t = false ->
  first_root_emission t st = false ->
  get_field_schema classes fuel t d a st = Ok (frag, st') ->
  forall k v, Dict.get k (schema a) = Some v -> Dict.get k frag = Some v.
Proof.
  intros Hann Hfirst H k v Hk.
  destruct fuel as [|fuel]; [discriminate|]. simpl in H.
  destruct t; try discriminate; simpl in H; unfold_shapes H.
  1: { (* record *)
    unfold get_dc_schema in H. simpl in Hfirst.
    apply bind_ok in H as (self & s0 & Hself & H).
    unfold get_self in Hself. injection Hself as <- <-.
    destruct (Nat.eqb dc (root st)) eqn:Eroot.
    - destruct (seen_root st); [|discriminate].
      apply ret_ok in H as [-> _]. solve_spread.
    - inv_ok. all: solve_spread. }
  all: try unfold get_enum_schema in H.
  all: inv_ok.
  all: try match goal with
           | |- context [match ?x with Some _ => _ | None => _ end] =>
               destruct x
           end.
  all: solve_spread.
Qed.

Lemma site_metadata_overrides_witness :
  exists frag st',
    get_field_schema Fixtures.classes 1 (TSet []) None MoreFixtures.loose
      (Fixtures.fresh 0) = Ok (frag, st')
    /\ Dict.get "uniqueItems" frag = Some (VBool false).
Proof.
  eexists. eexists. split; [lazy; reflexivity|].
  eapply (@site_metadata_overrides Fixtures.classes 1 (TSet []) None
            MoreFixtures.loose (Fixtures.fresh 0)).
  - reflexivity.
  - reflexivity.
  - lazy. reflexivity.
  - reflexivity.
Defined.

(** ** Leaves: builtin types, numbers, literals *)

Lemma get_display_before_last (items : list Dict.item) (e : pydict)
    (k : string) :
  last items (KV "" VNone) = Spread e ->
  NoDup (Dict.keys e) ->
  Dict.get k e = None ->
  Dict.get k (Dict.display items)
  = Dict.get k (Dict.display (removelast items)).
Proof.
  intros Hlast Hnd Hget.
  assert (Hne : items <> []) by (intros ->; discriminate).
  rewrite (@app_removelast_last _ items (KV "" VNone) Hne) at 1.
  rewrite Hlast, display_snoc, DictFacts.get_update by exact Hnd.
  now rewrite Hget.
Qed.

(** Looks a key up in a display that ends in the spread of a payload
    that has not the key. *)
Ltac solve_kv a :=
  rewrite (@get_display_before_last _ (schema a))
    by first [ reflexivity
             | apply schema_nodup
             | apply schema_get_none; reflexivity ];
  reflexivity.

(** X3.  A builtin type ([None], [str], [bool], [int]) or a subclass of
    [numbers.Number] always compiles, without touching the compiler
    object, to a fragment whose "type" is the JSON name of the type and
    whose "default" is the default of the field as it is, or absent
    when the field has none; no metadata can change either key. *)
Theorem primitive_fragment
    (classes : list dataclass) (fuel : nat) (t : ty) (name : string)
    (d : option pyval) (a : SchemaAnnotation) (st : GetSchema) :
  primitive_name t = Some name ->
  exists frag,
    get_field_schema classes (S fuel) t d a st = Ok (frag, st)
    /\ Dict.get "type" frag = Some (VStr name)
    /\ Dict.get "default" frag = d.
Proof.
  intros Hn.
  destruct t; simpl in Hn; try discriminate;
    try (destruct (sub_Number c) eqn:Enum; [|discriminate]);
    injection Hn as <-; simpl; try rewrite Enum;
    unfold get_none_schema, get_str_schema, get_bool_schema, get_int_schema,
      get_number_schema, get_primitive_schema;
    destruct d; eexists; (split; [reflexivity|]); split; solve_kv a.
Qed.

Lemma primitive_fragment_witness :
  exists frag,
    get_field_schema Fixtures.classes 1 (TClass MoreFixtures.Level)
      (Some MoreFixtures.Level_LOW) SchemaAnnotation_new (Fixtures.fresh 0)
    = Ok (frag, Fixtures.fresh 0)
    /\ Dict.get "type" frag = Some (VStr "number")
    /\ Dict.get "default" frag = Some MoreFixtures.Level_LOW.
Proof.
  apply (@primitive_fragment Fixtures.classes 0 (TClass MoreFixtures.Level)).
  reflexivity.
Defined.

(** X4.  A [Literal] type always compiles, without touching the
    compiler object: "enum" lists the literal values in the order of
    the declaration, whatever they are, and "default" is the default of
    the field as it is; no metadata can change either key. *)
Theorem literal_fragment
    (classes : list dataclass) (fuel : nat) (args : list pyval)
    (d : option pyval) (a : SchemaAnnotation) (st : GetSchema) :
  exists frag,
    get_field_schema classes (S fuel) (TLiteral args) d a st = Ok (frag, st)
    /\ Dict.get "enum" frag = Some (VList args)
    /\ Dict.get "default" frag = d.
Proof.
  simpl. unfold get_literal_schema.
  eexists. split; [reflexivity|]. destruct d as [d0|]; split.
  - rewrite (@get_display_before_last _
               (Dict.display [KV "default" d0; Spread (schema a)]))
      by first [ reflexivity | apply DictFacts.nodup_display | solve_lacks ].
    reflexivity.
  - eapply get_display_last;
      [reflexivity | apply DictFacts.nodup_display | solve_kv a].
  - rewrite (@get_display_before_last _ (Dict.display [Spread (schema a)]))
      by first [ reflexivity | apply DictFacts.nodup_display | solve_lacks ].
    reflexivity.
  - solve_lacks.
Qed.

(** ** Unions *)

(** X5.  A union compiles to "anyOf" with one fragment per member, in
    the order of the declaration; each one is the member compiled
    without default and without metadata, so none has a "default" key.
    The default of the field is put on the union as it is (a member of
    an enumeration is not replaced by its value). *)
Theorem union_fragment
    (classes : list dataclass) (fuel : nat) (args : list ty)
    (d : option pyval) (a : SchemaAnnotation) (st : GetSchema)
    (frag : pydict) (st' : GetSchema) :
  get_field_schema classes (S fuel) (TUnion args) d a st = Ok (frag, st') ->
  exists members,
    Dict.get "anyOf" frag = Some (VList (map VDict members))
    /\ Forall2 (fun arg member =>
                  exists s s',
                    get_field_schema classes fuel arg None
                      SchemaAnnotation_new s = Ok (member, s'))
               args members
    /\ Forall (fun member => Dict.get "default" member = None) members
    /\ Dict.get "default" frag = d.
Proof.
  simpl. unfold get_union_schema. intros H.
  assert (G : exists members s0,
            mapM (fun arg => get_field_schema classes fuel arg None
                               SchemaAnnotation_new) args st
            = Ok (members, s0)
            /\ Dict.get "anyOf" frag = Some (VList (map VDict members))
            /\ Dict.get "default" frag = d).
  { destruct d as [d0|];
      apply bind_ok in H as (members & s0 & Hm & H);
      apply ret_ok in H as [-> _];
      exists members, s0; (split; [exact Hm|]); split; solve_kv a. }
  destruct G as (members & s0 & Hm & Hany & Hdef).
  exists members. apply mapM_ok in Hm.
  repeat split; auto.
  clear - Hm. induction Hm as [|arg m l ms (s & s' & Hrun) _ IH]; constructor.
  - eapply get_field_schema_no_default. exact Hrun.
  - exact IH.
Qed.

Lemma union_fragment_witness :
  exists frag st',
    get_field_schema Fixtures.classes 2 (TUnion [TInt; TStr])
      (Some (VInt 42)) SchemaAnnotation_new (Fixtures.fresh 0)
    = Ok (frag, st')
    /\ Dict.get "anyOf" frag
       = Some (VList [VDict [("type", VStr "integer")];
                      VDict [("type", VStr "string")]])
    /\ Dict.get "default" frag = Some (VInt 42).
Proof.
  eexists. eexists. split; [lazy; reflexivity|].
  destruct (@union_fragment Fixtures.classes 1 [TInt; TStr] (Some (VInt 42))
              SchemaAnnotation_new (Fixtures.fresh 0) _ _
              ltac:(lazy; reflexivity))
    as (members & Hany & _ & _ & Hdef).
  split; [reflexivity | exact Hdef].
Defined.

(** ** Containers *)

Lemma py_list_pure (v : pyval) (s : GetSchema) (l : list pyval)
    (s' : GetSchema) :
  py_list v s = Ok (l, s') -> s' = s.
Proof.
  unfold py_list. destruct (py_iter v); intros H; inv_ok; auto; discriminate.
Qed.

(** X6.  A container declared without type arguments ([dict], [list],
    [set], [tuple]) compiles, without touching the compiler object, to
    its bare form: "type" is "object" for a mapping and "array"
    otherwise, and there is no "items", "additionalProperties" or
    "prefixItems".  Without a default it always compiles. *)
Theorem bare_container_fragment
    (classes : list dataclass) (fuel : nat) (t : ty) (name : string)
    (a : SchemaAnnotation) (st : GetSchema) :
  bare_container t = Some name ->
  (exists frag, get_field_schema classes (S fuel) t None a st = Ok (frag, st))
  /\ (forall d frag st',
        get_field_schema classes (S fuel) t d a st = Ok (frag, st') ->
        st' = st
        /\ Dict.get "type" frag = Some (VStr name)
        /\ Dict.get "items" frag = None
        /\ Dict.get "additionalProperties" frag = None
        /\ Dict.get "prefixItems" frag = None).
Proof.
  intros Hb.
  destruct t as [| | | |[|? ?]|[|? ?]|[|? ?]|[|? ?]| | | | | |];
    try discriminate; injection Hb as <-; simpl;
    unfold get_dict_schema, get_list_schema, get_set_schema,
      get_tuple_schema; cbn [List.length Nat.eqb orb negb].
  all: split; [eexists; reflexivity|].
  all: intros d frag st' H.
  all: inv_ok.
  all: repeat split; try solve_lacks.
  all: try solve_kv a.
  all: try solve_kv a.
  all: try (rewrite (@get_display_before_last _ (Dict.display _))
         by first [ reflexivity | apply DictFacts.nodup_display | solve_lacks ];
       reflexivity).
  eapply py_list_pure. eassumption.
Qed.

Lemma bare_container_fragment_witness :
  exists frag,
    get_field_schema Fixtures.classes 1 (TTuple []) None SchemaAnnotation_new
      (Fixtures.fresh 0) = Ok (frag, Fixtures.fresh 0)
    /\ Dict.get "type" frag = Some (VStr "array")
    /\ Dict.get "prefixItems" frag = None.
Proof.
  destruct (@bare_container_fragment Fixtures.classes 0 (TTuple []) "array"
              SchemaAnnotation_new (Fixtures.fresh 0) eq_refl)
    as [[frag Hrun] Hall].
  exists frag. split; [exact Hrun|].
  destruct (Hall None frag _ Hrun) as (_ & Ht & _ & _ & Hp). auto.
Defined.

Lemma get_display_split (items : list Dict.item) (e : pydict) (k : string) :
  last items (KV "" VNone) = Spread e ->
  NoDup (Dict.keys e) ->
  Dict.get k (Dict.display items)
  = match Dict.get k e with
    | Some v => Some v
    | None => Dict.get k (Dict.display (removelast items))
    end.
Proof.
  intros Hlast Hnd.
  assert (Hne : items <> []) by (intros ->; discriminate).
  rewrite (@app_removelast_last _ items (KV "" VNone) Hne) at 1.
  now rewrite Hlast, display_snoc, DictFacts.get_update by exact Hnd.
Qed.

(** [tuple[T, ...]] apart, a tuple with arguments compiles each of
    them. *)
Lemma get_tuple_schema_fixed
    (rec : ty -> option pyval -> SchemaAnnotation -> M pydict)
    (args : list ty) (d : option pyval) (a : SchemaAnnotation) :
  args <> [] -> variadic args = false ->
  get_tuple_schema rec args d a
  = (schema1 <-
       match d with
       | None => ret (Dict.display [ Spread (schema a) ])
       | Some d0 =>
           l <- py_list d0 ;;
           ret (Dict.display [ KV "default" (VList l);
                               Spread (schema a) ])
       end ;;
     prefix <- mapM (fun arg => rec arg None SchemaAnnotation_new) args ;;
     ret (Dict.display
            [ KV "type" (VStr "array");
              KV "prefixItems" (VList (map VDict prefix));
              KV "minItems" (VInt (Z.of_nat (List.length args)));
              KV "maxItems" (VInt (Z.of_nat (List.length args)));
              Spread schema1 ])).
Proof.
  intros Hne Hv. unfold get_tuple_schema.
  destruct args as [|a0 [|a1 [|a2 r]]]; try congruence; try reflexivity.
  all: destruct a1; try discriminate; reflexivity.
Qed.

(** X7.  A tuple with positional arguments (not [tuple[T, ...]])
    compiles to "prefixItems" with one fragment per argument, in order,
    each compiled without default and without metadata, and to no
    "items".  "minItems" and "maxItems" are the number of arguments,
    unless the metadata of the site sets [min_items] or [max_items],
    which then replace them. *)
Theorem fixed_tuple_fragment
    (classes : list dataclass) (fuel : nat) (args : list ty)
    (d : option pyval) (a : SchemaAnnotation) (st : GetSchema)
    (frag : pydict) (st' : GetSchema) :
  args <> [] -> variadic args = false ->
  get_field_schema classes (S fuel) (TTuple args) d a st = Ok (frag, st') ->
  exists prefix,
    Dict.get "prefixItems" frag = Some (VList (map VDict prefix))
    /\ Forall2 (fun arg item =>
                  exists s s',
                    get_field_schema classes fuel arg None
                      SchemaAnnotation_new s = Ok (item, s'))
               args prefix
    /\ Dict.get "minItems" frag
       = Some (VInt (match min_items a with
                     | Some n => n
                     | None => Z.of_nat (List.length args)
                     end))
    /\ Dict.get "maxItems" frag
       = Some (VInt (match max_items a with
                     | Some n => n
                     | None => Z.of_nat (List.length args)
                     end))
    /\ Dict.get "items" frag = None.
Proof.
  intros Hne Hv H. simpl in H. rewrite get_tuple_schema_fixed in H by auto.
  apply bind_ok in H as (schema1 & s1 & Hs1 & H).
  apply bind_ok in H as (prefix & s2 & Hm & H).
  apply ret_ok in H as [-> _].
  pose proof (@schema_get_field a "min_items" (opt VInt (min_items a))
                ltac:(simpl; tauto)) as Gmin.
  pose proof (@schema_get_field a "max_items" (opt VInt (max_items a))
                ltac:(simpl; tauto)) as Gmax.
  change (key_map_get "min_items") with "minItems" in Gmin.
  change (key_map_get "max_items") with "maxItems" in Gmax.
  assert (Hs : exists pre,
            schema1 = Dict.display (pre ++ [Spread (schema a)])
            /\ Dict.get "minItems" (Dict.display pre) = None
            /\ Dict.get "maxItems" (Dict.display pre) = None
            /\ Dict.get "items" (Dict.display pre) = None
            /\ Dict.get "prefixItems" (Dict.display pre) = None).
  { destruct d as [d0|].
    - apply bind_ok in Hs1 as (l & s3 & _ & Hs1). apply ret_ok in Hs1 as [-> _].
      exists [KV "default" (VList l)]. repeat split; reflexivity.
    - apply ret_ok in Hs1 as [-> _]. exists []. repeat split; reflexivity. }
  destruct Hs as (pre & -> & Pmin & Pmax & Pitems & Pprefix).
  assert (Hget : forall k,
            Dict.get k (Dict.display (pre ++ [Spread (schema a)]))
            = match Dict.get k (schema a) with
              | Some v => Some v
              | None => Dict.get k (Dict.display pre)
              end).
  { intros k. rewrite display_snoc. apply DictFacts.get_update.
    apply schema_nodup. }
  exists prefix. split; [|split; [|split; [|split]]].
  - rewrite (@get_display_split _
               (Dict.display (pre ++ [Spread (schema a)])))
      by first [reflexivity | apply DictFacts.nodup_display].
    rewrite Hget, Pprefix, schema_get_none by reflexivity. reflexivity.
  - eapply mapM_ok. exact Hm.
  - rewrite (@get_display_split _
               (Dict.display (pre ++ [Spread (schema a)])))
      by first [reflexivity | apply DictFacts.nodup_display].
    rewrite Hget, Pmin, Gmin. now destruct (min_items a).
  - rewrite (@get_display_split _
               (Dict.display (pre ++ [Spread (schema a)])))
      by first [reflexivity | apply DictFacts.nodup_display].
    rewrite Hget, Pmax, Gmax. now destruct (max_items a).
  - rewrite (@get_display_split _
               (Dict.display (pre ++ [Spread (schema a)])))
      by first [reflexivity | apply DictFacts.nodup_display].
    rewrite Hget, Pitems, schema_get_none by reflexivity. reflexivity.
Qed.

Lemma fixed_tuple_fragment_witness :
  exists frag st',
    get_field_schema Fixtures.classes 2 (TTuple [TInt; TStr]) None
      MoreFixtures.loose (Fixtures.fresh 0) = Ok (frag, st')
    /\ Dict.get "minItems" frag = Some (VInt 5)
    /\ Dict.get "maxItems" frag = Some (VInt 2).
Proof.
  eexists. eexists. split; [lazy; reflexivity|].
  destruct (@fixed_tuple_fragment Fixtures.classes 1 [TInt; TStr] None
              MoreFixtures.loose (Fixtures.fresh 0) _ _
              ltac:(discriminate) eq_refl ltac:(lazy; reflexivity))
    as (prefix & _ & _ & Hmin & Hmax & _).
  split; [exact Hmin | exact Hmax].
Defined.

(** X8.  [tuple[T, ...]] in a field without default compiles exactly as
    [list[T]] does: same fragment, same state afterwards, same
    failure. *)
Theorem variadic_tuple_is_list
    (classes : list dataclass) (fuel : nat) (t : ty) (d : option pyval)
    (a : SchemaAnnotation) (st : GetSchema) :
  get_field_schema classes (S fuel) (TTuple [t; TEllipsis]) None a st
  = get_field_schema classes (S fuel) (TList [t]) d a st.
Proof.
  simpl. unfold get_tuple_schema, get_list_schema. simpl negb. cbv iota.
  unfold bind at 1. unfold ret at 1. cbv beta iota.
  change (Dict.display [Spread (schema a)]) with (Dict.update [] (schema a)).
  rewrite update_nil by apply schema_nodup.
  reflexivity.
Qed.




(** X10.  A set compiles as the list with the same arguments does, with
    "uniqueItems" added: both succeed or fail alike and leave the same
    state, the two fragments agree on every other key, and
    "uniqueItems" is [true] unless the metadata of the site sets
    [unique_items]. *)
Theorem set_is_list_with_unique_items
    (classes : list dataclass) (fuel : nat) (args : list ty)
    (d : option pyval) (a : SchemaAnnotation) (st : GetSchema) :
  match get_field_schema classes (S fuel) (TList args) d a st,
        get_field_schema classes (S fuel) (TSet args) d a st with
  | Ok (as_list, s1), Ok (as_set, s2) =>
      s1 = s2
      /\ (forall k, k <> "uniqueItems" ->
                    Dict.get k as_set = Dict.get k as_list)
      /\ Dict.get "uniqueItems" as_set
         = Some (VBool (match unique_items a with
                        | Some b => b
                        | None => true
                        end))
  | Raise e1, Raise e2 => e1 = e2
  | OutOfFuel, OutOfFuel => True
  | _, _ => False
  end.
Proof.
  simpl. unfold get_list_schema, get_set_schema.
  destruct (negb _); [reflexivity|].
  pose proof (@schema_get_field a "unique_items" (opt VBool (unique_items a))
                ltac:(simpl; tauto)) as Gu.
  change (key_map_get "unique_items") with "uniqueItems" in Gu.
  assert (Hcmp : forall pre_list pre_set,
            (forall k, k <> "uniqueItems" ->
               Dict.get k (Dict.display pre_set)
               = Dict.get k (Dict.display pre_list)) ->
            Dict.get "uniqueItems" (Dict.display pre_set)
            = Some (VBool true) ->
            let as_list := Dict.display (pre_list ++ [Spread (schema a)]) in
            let as_set := Dict.display (pre_set ++ [Spread (schema a)]) in
            (forall k, k <> "uniqueItems" ->
                       Dict.get k as_set = Dict.get k as_list)
            /\ Dict.get "uniqueItems" as_set
               = Some (VBool (match unique_items a with
                              | Some b => b
                              | None => true
                              end))).
  { intros pre_list pre_set Hsame Hu. simpl. rewrite !display_snoc. split.
    - intros k Hk. rewrite !DictFacts.get_update by apply schema_nodup.
      now rewrite Hsame.
    - rewrite DictFacts.get_update by apply schema_nodup.
      rewrite Gu, Hu. now destruct (unique_items a). }
  destruct args as [|arg0 rest].
  - unfold ret. split; [reflexivity|].
    apply (Hcmp [KV "type" (VStr "array")]
                [KV "type" (VStr "array"); KV "uniqueItems" (VBool true)]);
      [|reflexivity].
    intros k Hk. simpl. apply String.eqb_neq in Hk.
    destruct (String.eqb k "type"); [reflexivity|]. now rewrite Hk.
  - unfold bind, ret.
    destruct (get_field_schema classes fuel arg0 None SchemaAnnotation_new st)
      as [[items s]| |]; auto.
    split; [reflexivity|].
    apply (Hcmp [KV "type" (VStr "array"); KV "items" (VDict items)]
                [KV "type" (VStr "array"); KV "items" (VDict items);
                 KV "uniqueItems" (VBool true)]);
      [|reflexivity].
    intros k Hk. simpl. apply String.eqb_neq in Hk.
    destruct (String.eqb k "type"); [reflexivity|].
    destruct (String.eqb k "items"); [reflexivity|]. now rewrite Hk.
Qed.

(** ** Named enumerations *)

(** X11.  A named enumeration is registered once: if its name is not a
    key of $defs, [{"title": name, "enum": values}], with the values of
    the members in definition order, is appended under the name; if the
    name is a key already, $defs is left as it is, whatever is stored
    there.  [root] and [seen_root] are never touched.  A default that
    is not a member of an enumeration makes the compilation raise
    [AttributeError]. *)
Theorem enum_registration
    (classes : list dataclass) (fuel : nat) (c : pyclass)
    (d : option pyval) (a : SchemaAnnotation) (st : GetSchema) :
  is_enum c = true ->
  (forall v, d = Some v -> is_member v = false ->
     get_field_schema classes (S fuel) (TClass c) d a st
     = Raise AttributeError)
  /\ (forall frag st',
        get_field_schema classes (S fuel) (TClass c) d a st = Ok (frag, st') ->
        root st' = root st
        /\ seen_root st' = seen_root st
        /\ defs st'
           = if Dict.contains (cls_name c) (defs st)
             then defs st
             else defs st ++ [(cls_name c, enum_definition c)]).
Proof.
  intros Henum. unfold is_enum in Henum.
  apply andb_true_iff in Henum as [Hn He]. apply negb_true_iff in Hn.
  simpl. rewrite Hn, He. unfold get_enum_schema. split.
  - intros v -> Hv. unfold bind, get_self, set_def, ret.
    destruct (Dict.contains (cls_name c) (defs st)); simpl;
      destruct v; try discriminate; reflexivity.
  - intros frag st' H.
    apply bind_ok in H as (self & s0 & Hself & H).
    unfold get_self in Hself. injection Hself as <- <-.
    apply bind_ok in H as (u & s1 & Hreg & H).
    assert (Hst : s1 = st').
    { destruct d as [v|].
      - apply bind_ok in H as (value & s2 & Hv & H).
        apply ret_ok in H as [_ ->].
        destruct v; try discriminate. now apply ret_ok in Hv as [_ ->].
      - now apply ret_ok in H as [_ ->]. }
    subst s1.
    destruct (Dict.contains (cls_name c) (defs st)) eqn:Hc; simpl in Hreg.
    + apply ret_ok in Hreg as [_ ->]. auto.
    + unfold set_def in Hreg. injection Hreg as _ <-. simpl.
      repeat split. apply set_absent.
      intros Hin. apply DictFacts.contains_in_keys in Hin. congruence.
Qed.

Lemma enum_registration_witness :
  is_enum Fixtures.MyEnum = true
  /\ get_field_schema Fixtures.classes 1 (TClass Fixtures.MyEnum)
       (Some VNone) SchemaAnnotation_new (Fixtures.fresh 3)
     = Raise AttributeError
  /\ exists frag st',
       get_field_schema Fixtures.classes 1 (TClass Fixtures.MyEnum) None
         SchemaAnnotation_new (Fixtures.fresh 3) = Ok (frag, st')
       /\ defs st'
          = [("MyEnum",
              VDict [("title", VStr "MyEnum");
                     ("enum", VList [VInt 1; VInt 2])])].
Proof.
  split; [reflexivity|]. split.
  - apply (proj1 (@enum_registration Fixtures.classes 0 Fixtures.MyEnum
                    (Some VNone) SchemaAnnotation_new (Fixtures.fresh 3)
                    eq_refl) VNone); reflexivity.
  - eexists. eexists. split; [lazy; reflexivity|].
    apply (proj2 (@enum_registration Fixtures.classes 0 Fixtures.MyEnum
                    None SchemaAnnotation_new (Fixtures.fresh 3) eq_refl)
             [("allOf", VList [VDict [("$ref", VStr "#/$defs/MyEnum")]])]).
    lazy. reflexivity.
Defined.

(** ** Names that are taken *)

(** X12.  A record other than the root whose name is already a key of
    $defs is not compiled again: the reference to that entry is
    returned and the compiler object is left as it is.  Its fields are
    not looked at (the statement holds for every way of compiling
    fields, also one that always fails), and it does not matter what
    the entry is: another record or an enumeration of the same name
    takes the place of this one silently. *)
Theorem registered_name_is_reused
    (classes : list dataclass)
    (rec : ty -> option pyval -> SchemaAnnotation -> M pydict)
    (fuel dc : nat) (cls : dataclass) (d : option pyval)
    (a : SchemaAnnotation) (st : GetSchema) :
  nth_error classes dc = Some cls ->
  dc <> root st ->
  Dict.contains (dc_name cls) (defs st) = true ->
  get_dc_schema classes rec dc a st
    = Ok (reference (defs_path (dc_name cls)) a, st)
  /\ get_field_schema classes (S fuel) (TDataclass dc) d a st
     = Ok (reference (defs_path (dc_name cls)) a, st).
Proof.
  intros Hcls Hne Hc. apply Nat.eqb_neq in Hne.
  assert (G : forall r, get_dc_schema classes r dc a st
                        = Ok (reference (defs_path (dc_name cls)) a, st)).
  { intros r. unfold get_dc_schema, lookup_class, bind, get_self, ret.
    rewrite Hne, Hcls, Hc. reflexivity. }
  split; [apply G|]. simpl. apply G.
Qed.

Lemma registered_name_is_reused_witness :
  exists frag st',
    get_field_schema Collision.classes 3 (TDataclass 1) None
      SchemaAnnotation_new {| root := 0; seen_root := true; defs := [] |}
    = Ok (frag, st')
    /\ get_field_schema Collision.classes 3 (TDataclass 2) None
         SchemaAnnotation_new st'
       = Ok (reference "#/$defs/Item" SchemaAnnotation_new, st').
Proof.
  eexists. eexists. split; [lazy; reflexivity|].
  match goal with
  | |- get_field_schema _ _ _ _ _ ?st = _ =>
      apply (proj2 (@registered_name_is_reused Collision.classes
                      (get_field_schema Collision.classes 2) 2 2
                      Collision.OtherItem None SchemaAnnotation_new st
                      eq_refl ltac:(discriminate) eq_refl))
  end.
Defined.

(** ** The exact shape of fragments and documents *)

Lemma add_fields_order (classes : list dataclass)
    (rec : ty -> option pyval -> SchemaAnnotation -> M pydict)
    (fields : list field) :
  forall (schema1 : pydict) (st : GetSchema) (schema2 : pydict)
         (st' : GetSchema) (p : pydict) (r : list pyval),
  foldM (add_field rec) fields schema1 st = Ok (schema2, st') ->
  Dict.get "properties" schema1 = Some (VDict p) ->
  Dict.get "required" schema1 = Some (VList r) ->
  NoDup (Dict.keys p ++ map fld_name fields) ->
  exists p',
    Dict.get "properties" schema2 = Some (VDict p')
    /\ Dict.keys p' = Dict.keys p ++ map fld_name fields.
Proof.
  induction fields as [|f rest IH]; intros schema1 st schema2 st' p r H Hp Hr Hnd.
  - simpl in H. apply ret_ok in H as [-> _]. exists p.
    simpl. now rewrite app_nil_r.
  - simpl in H. apply bind_ok in H as (sch & s1 & Hstep & H).
    destruct (@add_field_ok rec (fun _ _ => True) (fun _ _ _ _ _ => I)
                _ _ _ _ _ _ _ Hstep Hp Hr) as (prop & _ & Hsch).
    simpl in Hsch.
    set (p1 := Dict.set (fld_name f) (VDict prop) p) in *.
    assert (Hk1 : Dict.keys p1 = Dict.keys p ++ [fld_name f]).
    { unfold p1. rewrite set_absent.
      - unfold Dict.keys. now rewrite map_app.
      - simpl in Hnd. apply NoDup_remove_2 in Hnd.
        rewrite in_app_iff in Hnd. tauto. }
    assert (Hp1 : Dict.get "properties" sch = Some (VDict p1)
                  /\ exists r1, Dict.get "required" sch = Some (VList r1)).
    { subst sch. destruct (lacks_default f).
      - split.
        + rewrite DictFacts.get_set_other by discriminate.
          apply DictFacts.get_set_same.
        + eexists. apply DictFacts.get_set_same.
      - split.
        + apply DictFacts.get_set_same.
        + exists r. now rewrite DictFacts.get_set_other by discriminate. }
    destruct Hp1 as (Hp1 & r1 & Hr1).
    destruct (IH _ _ _ _ _ _ H Hp1 Hr1) as (p' & Gp & Gk).
    + rewrite Hk1, <- app_assoc. exact Hnd.
    + exists p'. split; [exact Gp|]. rewrite Gk, Hk1, <- app_assoc.
      reflexivity.
Qed.

(** X13.  The object fragment of a record without [SchemaConfig] and
    with distinct field names is exactly "type", "title" (the name of
    the record), "properties" and, when some field is required,
    "required", in this order; the keys of "properties" are the names of
    the fields in declaration order. *)
Theorem object_fragment_shape
    (classes : list dataclass) (fuel dc : nat) (cls : dataclass)
    (st : GetSchema) (sch : pydict) (st' : GetSchema) :
  nth_error classes dc = Some cls ->
  dc_SchemaConfig cls = None ->
  NoDup (map fld_name (dc_fields cls)) ->
  create_dc_schema classes (get_field_schema classes fuel) dc st
    = Ok (sch, st') ->
  exists props,
    sch = [ ("type", VStr "object");
            ("title", VStr (dc_name cls));
            ("properties", VDict props) ]
          ++ match required_names (dc_fields cls) with
             | [] => []
             | names => [("required", VList (map VStr names))]
             end
    /\ Dict.keys props = map fld_name (dc_fields cls).
Proof.
  intros Hcls Hcfg Hnd H.
  unfold create_dc_schema, lookup_class in H. rewrite Hcls in H.
  apply bind_ok in H as (cls' & s0 & Hl & H). apply ret_ok in Hl as [-> ->].
  rewrite Hcfg in H. cbv zeta in H.
  apply bind_ok in H as (schema1 & s1 & Hloop & H).
  apply bind_ok in H as (b & s2 & Hempty & H).
  set (header := Dict.display _) in Hloop.
  assert (Hh : header = [ ("type", VStr "object");
                          ("title", VStr (dc_name cls));
                          ("properties", VDict []);
                          ("required", VList []) ]) by reflexivity.
  assert (Hp0 : Dict.get "properties" header = Some (VDict []))
    by (rewrite Hh; reflexivity).
  assert (Hr0 : Dict.get "required" header = Some (VList []))
    by (rewrite Hh; reflexivity).
  destruct (@add_fields_ok (get_field_schema classes fuel) (fun _ _ => True)
              (fun _ _ _ _ _ => I) _ _ _ _ _ _ _ Hloop Hp0 Hr0)
    as (p' & Gp & Gr & Gk & Go & _).
  destruct (@add_fields_order classes _ _ _ _ _ _ _ _ Hloop Hp0 Hr0)
    as (p'' & Gp' & Gkeys); [exact Hnd|].
  rewrite Gp in Gp'. injection Gp' as <-.
  simpl in Gr, Gkeys. exists p'. split; [|exact Gkeys].
  assert (Hs1 : schema1
                = [ ("type", VStr "object");
                    ("title", VStr (dc_name cls));
                    ("properties", VDict p');
                    ("required",
                     VList (map VStr (required_names (dc_fields cls)))) ]).
  { apply dict_ext.
    - rewrite Gk, Hh. reflexivity.
    - rewrite Gk. apply DictFacts.nodup_display.
    - intros k. destruct (String.eqb k "properties") eqn:E1.
      { apply String.eqb_eq in E1. subst k. rewrite Gp. reflexivity. }
      destruct (String.eqb k "required") eqn:E2.
      { apply String.eqb_eq in E2. subst k. rewrite Gr. reflexivity. }
      apply String.eqb_neq in E1, E2. rewrite Go, Hh by assumption.
      apply String.eqb_neq in E1, E2. simpl. now rewrite E1, E2. }
  subst schema1. unfold is_empty_in in Hempty. simpl in Hempty.
  destruct (required_names (dc_fields cls)) as [|n l]; simpl in Hempty;
    apply ret_ok in Hempty as [-> _]; apply ret_ok in H as [-> _];
    reflexivity.
Qed.

Lemma object_fragment_shape_witness :
  NoDup (map fld_name (dc_fields Fixtures.DcRefsChild))
  /\ exists sch st' props,
       create_dc_schema Fixtures.classes (get_field_schema Fixtures.classes 2)
         1 (Fixtures.fresh 0) = Ok (sch, st')
       /\ sch = [ ("type", VStr "object");
                  ("title", VStr "DcRefsChild");
                  ("properties", VDict props);
                  ("required", VList [VStr "c"]) ]
       /\ Dict.keys props = ["c"].
Proof.
  assert (Hnd : NoDup (map fld_name (dc_fields Fixtures.DcRefsChild)))
    by (simpl; repeat constructor; simpl; tauto).
  split; [exact Hnd|].
  destruct (@object_fragment_shape Fixtures.classes 2 1 Fixtures.DcRefsChild
              (Fixtures.fresh 0) _ _ eq_refl eq_refl Hnd
              ltac:(lazy; reflexivity))
    as (props & Hsch & Hkeys).
  eexists. eexists. exists props.
  split; [lazy; reflexivity|]. split; [exact Hsch | exact Hkeys].
Defined.

(** X14.  The document is the root fragment with "$schema" put in front
    and, when definitions were registered, "$defs" put at the end:
    these are the keys, in this order, that a serialisation of the
    document shows. *)
Theorem document_key_order
    (classes : list dataclass) (fuel dc : nat) (doc : pydict) :
  get_schema classes fuel dc = Ok doc ->
  exists frag st',
    get_dc_schema classes (get_field_schema classes fuel) dc
      SchemaAnnotation_new {| root := dc; seen_root := false; defs := [] |}
    = Ok (frag, st')
    /\ doc
       = ("$schema", VStr "https://json-schema.org/draft/2020-12/schema")
         :: frag
         ++ match defs st' with
            | [] => []
            | _ :: _ => [("$defs", VDict (defs st'))]
            end.
Proof.
  intros H.
  destruct (GetSchema_call_ok _ _ _ H)
    as (frag & st' & Hrun & -> & Hnd & Hs & Hd).
  exists frag, st'. split; [exact Hrun|].
  apply DictFacts.get_none_not_in in Hs, Hd.
  destruct (defs st') as [|entry rest].
  - rewrite app_nil_r. apply (update_disjoint frag [_]).
    simpl. constructor; assumption.
  - rewrite set_absent by exact Hd.
    apply (update_disjoint (frag ++ [_]) [_]).
    simpl. unfold Dict.keys in *. rewrite map_app. simpl.
    constructor.
    + rewrite in_app_iff. simpl. intros [G|[G|[]]]; [tauto | discriminate].
    + apply NoDup_app; auto.
      * repeat constructor. simpl. tauto.
      * intros x Hx [<-|[]]. tauto.
Qed.

Lemma document_key_order_witness :
  exists doc frag,
    get_schema Fixtures.classes 3 3 = Ok doc
    /\ doc
       = ("$schema", VStr "https://json-schema.org/draft/2020-12/schema")
         :: frag
         ++ [("$defs",
              VDict [("MyEnum",
                      VDict [("title", VStr "MyEnum");
                             ("enum", VList [VInt 1; VInt 2])])])].
Proof.
  destruct (@document_key_order Fixtures.classes 3 3 _
              ltac:(lazy; reflexivity))
    as (frag & st' & Hrun & Hdoc).
  eexists. exists frag. split; [lazy; reflexivity|].
  lazy in Hrun. injection Hrun as <- <-. exact Hdoc.
Defined.

(** ** Types that cannot be compiled *)

Lemma broken_never_compiles (classes : list dataclass) (fuel : nat) :
  forall t d a st frag st',
    broken t = true ->
    get_field_schema classes fuel t d a st <> Ok (frag, st').
Proof.
  induction fuel as [|fuel IH]; intros t d a st frag st' Hb H;
    [discriminate|].
  assert (IHin : forall args x d0 a0 s r,
            In x args -> broken x = true ->
            get_field_schema classes fuel x d0 a0 s = Ok r -> False).
  { intros args x d0 a0 s [fr s'] _ Hx Hrun. exact (IH _ _ _ _ _ _ Hx Hrun). }
  assert (IHmap : forall args s r,
            existsb broken args = true ->
            mapM (fun arg => get_field_schema classes fuel arg None
                               SchemaAnnotation_new) args s = Ok r -> False).
  { intros args s r Hex Hm. apply existsb_exists in Hex as (x & Hx & Hbx).
    destruct (@mapM_each _ _ _ _ _ _ _ Hm Hx) as (s1 & r1 & Hrun).
    exact (IHin args x _ _ _ _ Hx Hbx Hrun). }
  simpl in H. destruct t; simpl in Hb; try discriminate; simpl in H.
  - (* union *)
    unfold get_union_schema in H.
    destruct d; apply bind_ok in H as (ms & s1 & Hm & _);
      exact (IHmap _ _ _ Hb Hm).
  - (* Annotated *)
    unfold get_annotated_schema in H.
    destruct metadata as [|m [|m2 r]]; try discriminate.
    simpl in Hb. exact (IH _ _ _ _ _ _ Hb H).
  - (* dict *)
    unfold get_dict_schema in H.
    destruct args as [|key [|value [|x r]]]; try discriminate.
    simpl in H. destruct (is_str key); simpl in Hb, H; [|discriminate].
    apply bind_ok in H as (ad & s1 & Hrun & _).
    exact (IH _ _ _ _ _ _ Hb Hrun).
  - (* list *)
    unfold get_list_schema in H.
    destruct args as [|arg0 [|x r]]; try discriminate.
    simpl in H. apply bind_ok in H as (items & s1 & Hrun & _).
    exact (IH _ _ _ _ _ _ Hb Hrun).
  - (* tuple *)
    unfold get_tuple_schema in H.
    apply bind_ok in H as (schema1 & s1 & _ & H).
    destruct args as [|arg0 rest]; [discriminate|].
    assert (Hcases :
              (exists s r, get_field_schema classes fuel arg0 None
                             SchemaAnnotation_new s = Ok r
                           /\ rest = [TEllipsis])
              \/ (exists s r,
                    mapM (fun arg => get_field_schema classes fuel arg None
                                       SchemaAnnotation_new)
                         (arg0 :: rest) s = Ok r
                    /\ variadic (arg0 :: rest) = false)).
    { destruct rest as [|a1 [|a2 r]].
      - right. apply bind_ok in H as (p & s2 & Hm & _). eauto.
      - destruct a1;
          try (right; apply bind_ok in H as (p & s2 & Hm & _);
               now eauto).
        left. apply bind_ok in H as (items & s2 & Hrun & _). eauto.
      - right. destruct a1; apply bind_ok in H as (p & s2 & Hm & _); eauto. }
    destruct Hcases as [(s & [fr s2] & Hrun & ->) | (s & r & Hm & Hv)].
    + exact (IH _ _ _ _ _ _ Hb Hrun).
    + apply (IHmap (arg0 :: rest) s r); [|exact Hm].
      destruct rest as [|a1 [|a2 r']]; try destruct a1;
        try discriminate; exact Hb.
  - (* set *)
    unfold get_set_schema in H.
    destruct args as [|arg0 [|x r]]; try discriminate.
    simpl in H. apply bind_ok in H as (items & s1 & Hrun & _).
    exact (IH _ _ _ _ _ _ Hb Hrun).
  - (* class *)
    apply negb_true_iff in Hb.
    repeat (apply orb_false_iff in Hb; destruct Hb as [Hb ?]).
    rewrite Hb in H. repeat match goal with
                            | E : _ c = false |- _ => rewrite E in H; clear E
                            end.
    discriminate.
Qed.

(** X15.  A type with a defect of shape never compiles, whatever the
    default, the metadata and the state: an unsupported class, a stray
    [...], a wrapper with other than one payload, a list or set with
    more than one argument, a mapping with other than two arguments or
    a key type other than [str], and every union, wrapper, list, set,
    tuple or mapping value type that contains one.  A record with a
    field of such a type gets no document. *)
Theorem broken_type_is_fatal (classes : list dataclass) (fuel : nat) (t : ty) :
  broken t = true ->
  (forall d a st frag st',
     get_field_schema classes fuel t d a st <> Ok (frag, st'))
  /\ (forall dc cls f doc,
        nth_error classes dc = Some cls ->
        In f (dc_fields cls) ->
        fld_type f = t ->
        get_schema classes fuel dc <> Ok doc).
Proof.
  intros Hb. split.
  - intros d a st frag st'. now apply broken_never_compiles.
  - intros dc cls f doc Hcls Hf Hty H.
    unfold get_schema, GetSchema_call in H.
    destruct (get_dc_schema _ _ _ _ _) as [[frag st']| |] eqn:Hrun;
      try discriminate.
    rewrite get_dc_schema_first in Hrun by reflexivity.
    destruct (@create_dc_schema_compiles_fields _ _ _ _ f _ _ Hcls Hf Hrun)
      as (s & [fr s'] & Hrec).
    rewrite Hty in Hrec. eapply broken_never_compiles; eassumption.
Qed.

Lemma broken_type_is_fatal_witness :
  broken (TClass MoreFixtures.Path) = true
  /\ get_schema Collision.classes 3 2 = Raise NotImplementedError.
Proof.
  split; [reflexivity|].
  destruct (@broken_type_is_fatal Collision.classes 3
              (TClass MoreFixtures.Path) eq_refl) as [_ Hdoc].
  destruct (get_schema Collision.classes 3 2) as [doc|e|] eqn:E.
  - exfalso.
    apply (Hdoc 2 Collision.OtherItem
             (Fixtures.fld "where" (TClass MoreFixtures.Path)) doc eq_refl).
    + simpl. tauto.
    + reflexivity.
    + exact E.
  - lazy in E. symmetry. exact E.
  - lazy in E. discriminate.
Defined.

(** ** Termination without other records *)

Lemma settles_ret {A : Type} (a : A) (st : GetSchema) : settles (ret a) st.
Proof. reflexivity. Qed.

Lemma settles_raise {A : Type} (e : exn) (st : GetSchema) :
  settles (@raise A e) st.
Proof. exact I. Qed.

Lemma settles_bind {A B : Type} (m : M A) (f : A -> M B) (st : GetSchema) :
  settles m st -> (forall a, settles (f a) st) -> settles (bind m f) st.
Proof.
  unfold settles, bind. intros Hm Hf.
  destruct (m st) as [[a s]| |]; auto. subst s. apply Hf.
Qed.

Lemma settles_mapM {A B : Type} (f : A -> M B) (l : list A) (st : GetSchema) :
  (forall x, In x l -> settles (f x) st) -> settles (mapM f l) st.
Proof.
  induction l as [|x r IH]; intros Hf; simpl.
  - apply settles_ret.
  - apply settles_bind; [apply Hf; now left|]. intros y.
    apply settles_bind; [apply IH; intros; apply Hf; now right|].
    intros ys. apply settles_ret.
Qed.

Lemma settles_foldM {A B : Type} (f : A -> B -> M A) (l : list B)
    (st : GetSchema) :
  (forall a x, In x l -> settles (f a x) st) ->
  forall a, settles (foldM f l a) st.
Proof.
  induction l as [|x r IH]; intros Hf a; simpl.
  - apply settles_ret.
  - apply settles_bind; [apply Hf; now left|]. intros a'.
    apply IH. intros; apply Hf; now right.
Qed.

Lemma settles_py_list (v : pyval) (st : GetSchema) : settles (py_list v) st.
Proof.
  unfold py_list.
  destruct (py_iter v); first [apply settles_ret | apply settles_raise].
Qed.

Lemma settles_setitem_in (key k : string) (v : pyval) (d : pydict)
    (st : GetSchema) :
  settles (setitem_in key k v d) st.
Proof.
  unfold setitem_in. destruct (Dict.get key d) as [[]|];
    first [apply settles_ret | apply settles_raise].
Qed.

Lemma settles_append_in (key : string) (v : pyval) (d : pydict)
    (st : GetSchema) :
  settles (append_in key v d) st.
Proof.
  unfold append_in. destruct (Dict.get key d) as [[]|];
    first [apply settles_ret | apply settles_raise].
Qed.

Lemma settles_is_empty_in (key : string) (d : pydict) (st : GetSchema) :
  settles (is_empty_in key d) st.
Proof.
  unfold is_empty_in. destruct (Dict.get key d) as [[| | | | |[]| | | | |]|];
    first [apply settles_ret | apply settles_raise].
Qed.

Lemma settles_bind_ret {A B : Type} (a : A) (f : A -> M B) (st : GetSchema) :
  settles (f a) st -> settles (bind (ret a) f) st.
Proof. unfold settles, bind, ret. auto. Qed.

Lemma depth_pos (t : ty) : 1 <= depth t.
Proof. destruct t; simpl; lia. Qed.

Lemma depth_arg (args : list ty) (x : ty) (fuel : nat) :
  In x args -> S (list_max (map depth args)) <= S fuel -> depth x <= fuel.
Proof.
  intros Hx Hle. assert (Hmax : list_max (map depth args) <= fuel) by lia.
  apply list_max_le in Hmax. rewrite Forall_forall in Hmax.
  apply Hmax. now apply in_map.
Qed.

(** One step of the proof that a computation settles. *)
Ltac settles_step :=
  match goal with
  | |- forall _, _ => intro
  | |- settles (bind _ _) _ => apply settles_bind
  | |- settles (ret _) _ => apply settles_ret
  | |- settles (raise _) _ => apply settles_raise
  | |- settles (py_list _) _ => apply settles_py_list
  | |- settles (if ?b then _ else _) _ => destruct b
  end.

Lemma self_contained_settles (classes : list dataclass) (fuel : nat) :
  forall t d a st,
    seen_root st = true ->
    self_contained (root st) t = true ->
    depth t <= fuel ->
    settles (get_field_schema classes fuel t d a) st.
Proof.
  induction fuel as [|fuel IH]; intros t d a st Hseen Hsc Hd.
  - pose proof (depth_pos t). lia.
  - assert (IHarg : forall args x d0 a0,
              forallb (self_contained (root st)) args = true ->
              S (list_max (map depth args)) <= S fuel ->
              In x args ->
              settles (get_field_schema classes fuel x d0 a0) st).
    { intros args x d0 a0 Hall Hle Hx. apply IH; auto.
      - rewrite forallb_forall in Hall. now apply Hall.
      - eapply depth_arg; eassumption. }
    assert (IHmap : forall args,
              forallb (self_contained (root st)) args = true ->
              S (list_max (map depth args)) <= S fuel ->
              settles (mapM (fun arg => get_field_schema classes fuel arg None
                                          SchemaAnnotation_new) args) st).
    { intros args Hall Hle. apply settles_mapM. intros x Hx.
      now apply (IHarg args). }
    destruct t; simpl in Hsc, Hd; simpl.
    + (* the root itself *)
      apply Nat.eqb_eq in Hsc. subst dc.
      unfold settles, get_dc_schema, bind, get_self.
      now rewrite Nat.eqb_refl, Hseen.
    + unfold get_union_schema. destruct d; repeat settles_step; auto.
    + unfold get_literal_schema. apply settles_ret.
    + unfold get_annotated_schema.
      destruct metadata as [|m [|m2 r]]; try apply settles_raise.
      apply IH; auto. lia.
    + unfold get_dict_schema.
      destruct args as [|key [|value [|x r]]];
        cbn [List.length Nat.eqb orb negb nth_error];
        try apply settles_ret; try apply settles_raise.
      destruct (is_str key); cbn [negb]; [|apply settles_raise].
      repeat settles_step.
      apply (IHarg [key; value]); auto. simpl. tauto.
    + unfold get_list_schema.
      destruct args as [|arg0 [|x r]];
        cbn [List.length Nat.eqb orb negb];
        try apply settles_ret; try apply settles_raise.
      repeat settles_step. apply (IHarg [arg0]); auto. now left.
    + unfold get_tuple_schema. apply settles_bind.
      { destruct d; repeat settles_step. }
      intros schema1.
      destruct args as [|arg0 [|a1 [|a2 r]]]; try destruct a1;
        repeat settles_step;
        try (apply IHmap; assumption).
      apply (IHarg [arg0; TEllipsis]); auto. now left.
    + unfold get_set_schema.
      destruct args as [|arg0 [|x r]];
        cbn [List.length Nat.eqb orb negb];
        try apply settles_ret; try apply settles_raise.
      repeat settles_step. apply (IHarg [arg0]); auto. now left.
    + unfold get_none_schema, get_primitive_schema; destruct d; apply settles_ret.
    + unfold get_str_schema, get_primitive_schema; destruct d; apply settles_ret.
    + unfold get_bool_schema, get_primitive_schema; destruct d; apply settles_ret.
    + unfold get_int_schema, get_primitive_schema; destruct d; apply settles_ret.
    + unfold is_enum in Hsc. apply negb_true_iff in Hsc.
      destruct (sub_Number c) eqn:En.
      * unfold get_number_schema, get_primitive_schema.
        destruct d; apply settles_ret.
      * simpl in Hsc. rewrite Hsc.
        unfold get_datetime_schema, get_date_schema.
        repeat settles_step.
    + apply settles_raise.
Qed.

(** X16.  Compilation can only fail to terminate through a record other
    than the root.  With the root emitted, a type that mentions no
    record other than the root and no named enumeration compiles in at
    most as many nested calls as its nesting depth: it yields a
    fragment, leaving the compiler object as it was, or raises.  So a
    record whose fields are all such types (references to itself
    included) always gets an answer from [get_schema], and a document it
    gets has no "$defs". *)
Theorem self_contained_record_terminates
    (classes : list dataclass) (fuel : nat) :
  (forall t d a st,
     seen_root st = true ->
     self_contained (root st) t = true ->
     depth t <= fuel ->
     match get_field_schema classes fuel t d a st with
     | Ok (_, st') => st' = st
     | Raise _ => True
     | OutOfFuel => False
     end)
  /\ (forall dc cls,
        nth_error classes dc = Some cls ->
        Forall (fun f => self_contained dc (fld_type f) = true
                         /\ depth (fld_type f) <= fuel) (dc_fields cls) ->
        match get_schema classes fuel dc with
        | Ok doc => Dict.get "$defs" doc = None
        | Raise _ => True
        | OutOfFuel => False
        end).
Proof.
  split.
  - intros t d a st Hseen Hsc Hd. now apply self_contained_settles.
  - intros dc cls Hcls Hall. rewrite Forall_forall in Hall.
    set (st1 := {| root := dc; seen_root := true; defs := [] |}).
    assert (Hcreate : settles (create_dc_schema classes
                                 (get_field_schema classes fuel) dc) st1).
    { unfold create_dc_schema, lookup_class. rewrite Hcls.
      apply settles_bind_ret. cbv zeta. apply settles_bind.
      - apply settles_foldM. intros sch f Hf. unfold add_field.
        apply settles_bind.
        + destruct (Hall f Hf) as [Hsc Hd].
          now apply self_contained_settles.
        + intros prop. apply settles_bind; [apply settles_setitem_in|].
          intros sch'. destruct (negb _);
            [apply settles_append_in | apply settles_ret].
      - intros schema1. apply settles_bind; [apply settles_is_empty_in|].
        intros b. destruct b; apply settles_ret. }
    unfold settles, st1 in Hcreate.
    destruct (get_schema classes fuel dc) as [doc|e|] eqn:E; [|exact I|].
    + destruct (GetSchema_call_ok _ _ _ E)
        as (frag & st' & Hrun & -> & Hnd & _ & Hd).
      rewrite get_dc_schema_first in Hrun by reflexivity.
      simpl root in Hrun. simpl defs in Hrun.
      rewrite Hrun in Hcreate. subst st'.
      exact (@document_defs frag [] Hnd Hd).
    + unfold get_schema, GetSchema_call in E.
      rewrite get_dc_schema_first in E by reflexivity.
      simpl root in E. simpl defs in E.
      destruct (create_dc_schema _ _ _ _) as [[frag st']| |];
        [discriminate | discriminate | exact Hcreate].
Qed.

Lemma self_contained_record_terminates_witness :
  exists doc,
    get_schema Fixtures.classes 3 2 = Ok doc
    /\ Dict.get "$defs" doc = None.
Proof.
  pose proof (proj2 (self_contained_record_terminates Fixtures.classes 3)
                2 Fixtures.DcRefsSelf eq_refl) as H.
  assert (Hall : Forall (fun f => self_contained 2 (fld_type f) = true
                                  /\ depth (fld_type f) <= 3)
                        (dc_fields Fixtures.DcRefsSelf)).
  { simpl. repeat constructor; simpl; lia. }
  specialize (H Hall).
  destruct (get_schema Fixtures.classes 3 2) as [doc|e|] eqn:E.
  - exists doc. split; [reflexivity | exact H].
  - lazy in E. discriminate.
  - destruct H.
Defined.

(** ** The older compiler against the newer one *)

Lemma bind_ext {A B : Type} (m1 m2 : M A) (f1 f2 : A -> M B) (s : GetSchema) :
  m1 s = m2 s -> (forall a s', f1 a s' = f2 a s') ->
  bind m1 f1 s = bind m2 f2 s.
Proof.
  unfold bind. intros -> Hf. destruct (m2 s) as [[a s']| |]; auto.
Qed.

Lemma bind_ret_l {A B : Type} (a : A) (f : A -> M B) (s : GetSchema) :
  bind (ret a) f s = f a s.
Proof. reflexivity. Qed.

(** A program whose payloads hold values that JSON has is the program
    that comes back from JSON. *)
Lemma decoded_native_type (t : ty) :
  native_type t = true -> decoded_type t = t.
Proof.
  assert (L : forall args,
            Forall (fun t => native_type t = true -> decoded_type t = t) args ->
            forallb native_type args = true ->
            map decoded_type args = args).
  { intros args H. induction H as [|x r Hx _ IH]; simpl; [reflexivity|].
    intros Hn. apply andb_true_iff in Hn as [Hnx Hnr].
    now rewrite (Hx Hnx), (IH Hnr). }
  induction t using type_ind; simpl; intros Hn; try reflexivity;
    try (now rewrite (L args H Hn)).
  apply andb_true_iff in Hn as [Hb Hm]. rewrite (IHt Hb). f_equal.
  induction metadata as [|m r IH]; simpl in *; [reflexivity|].
  apply andb_true_iff in Hm as [Hm Hr].
  now rewrite (decoded_native m Hm), (IH Hr).
Qed.

Lemma decoded_native_program (classes : list dataclass) :
  native_program classes = true -> map decoded_class classes = classes.
Proof.
  unfold native_program. induction classes as [|cls r IH]; simpl;
    [reflexivity|].
  intros H. apply andb_true_iff in H as [Hc Hr]. rewrite (IH Hr). f_equal.
  destruct cls as [name fields config]. unfold decoded_class. simpl in *.
  f_equal. induction fields as [|f fs IHf]; simpl in *; [reflexivity|].
  apply andb_true_iff in Hc as [Hf Hfs]. rewrite (IHf Hfs). f_equal.
  destruct f as [fname ftype fdefault ffactory]. unfold decoded_field.
  simpl in *. now rewrite (decoded_native_type ftype Hf).
Qed.

Lemma Forall2_nth_error {A B : Type} (R : A -> B -> Prop) (l : list A)
    (l' : list B) :
  Forall2 R l l' ->
  forall i,
    match nth_error l i, nth_error l' i with
    | Some x, Some y => R x y
    | None, None => True
    | _, _ => False
    end.
Proof.
  induction 1 as [|x y r r' Hxy _ IH]; intros [|i]; simpl; auto.
  apply IH.
Qed.

(** Steps of inverting a translation that succeeded. *)
Ltac inv_some :=
  repeat match goal with
  | H : Some _ = Some ?y |- _ => injection H as H; subst y
  | H : None = Some _ |- _ => discriminate H
  | H : option_map _ ?o = Some _ |- _ =>
      destruct o eqn:?; cbn [option_map] in H
  | H : match ?o with Some _ => _ | None => _ end = Some _ |- _ =>
      destruct o eqn:?
  | H : Legacy.all_some (map _ (_ :: _)) = Some _ |- _ =>
      cbn [map Legacy.all_some] in H
  | H : Legacy.all_some (map _ []) = Some _ |- _ =>
      cbn [map Legacy.all_some] in H
  end.

Section OlderCompiler.

Variable classes : list dataclass.
Variable lclasses : list LegacyCompiler.ldataclass.

(** No record has a [SchemaConfig] with keywords: the older compiler
    does not know [SchemaConfig]. *)
Hypothesis no_config : forall dc cls,
  nth_error classes dc = Some cls -> schema (config_annotation cls) = [].

Hypothesis translated :
  LegacyCompiler.to_legacy_program classes = Some lclasses.

Let dclasses := map decoded_class classes.

Section Body.

Variable rec : ty -> option pyval -> SchemaAnnotation -> M pydict.
Variable lrec :
  LegacyCompiler.lty -> option pyval -> option Legacy.json_text -> M pydict.

Hypothesis lrec_rec : forall t lt d extra a s,
  LegacyCompiler.to_legacy t = Some lt ->
  Legacy.load_extra extra = schema a ->
  lrec lt d extra s = rec (decoded_type t) d a s.

Lemma lrec_rec_nested (t : ty) (lt : LegacyCompiler.lty) (d : option pyval)
    (s : GetSchema) :
  LegacyCompiler.to_legacy t = Some lt ->
  lrec lt d None s = rec (decoded_type t) d SchemaAnnotation_new s.
Proof. intros H. now apply lrec_rec. Qed.

Lemma lrec_rec_args (args : list ty) :
  forall (largs : list LegacyCompiler.lty) (s : GetSchema),
    Legacy.all_some (map LegacyCompiler.to_legacy args) = Some largs ->
    mapM (fun arg => lrec arg None None) largs s
    = mapM (fun arg => rec arg None SchemaAnnotation_new)
           (map decoded_type args) s.
Proof.
  induction args as [|x r IH]; intros largs s H; inv_some.
  - reflexivity.
  - simpl. apply bind_ext; [now apply lrec_rec_nested|].
    intros y s'. apply bind_ext; auto.
Qed.

Lemma translated_length (args : list ty) (largs : list LegacyCompiler.lty) :
  Legacy.all_some (map LegacyCompiler.to_legacy args) = Some largs ->
  List.length largs = List.length (map decoded_type args).
Proof.
  intros H. apply all_some_ok in H. apply Forall2_length in H.
  now rewrite length_map.
Qed.

Lemma add_field_agrees (sch : pydict) (f : field) (lf : LegacyCompiler.lfield)
    (s : GetSchema) :
  LegacyCompiler.to_legacy_field f = Some lf ->
  LegacyCompiler.add_field lrec sch lf s
  = add_field rec sch (decoded_field f) s.
Proof.
  unfold LegacyCompiler.to_legacy_field. intros H. inv_some.
  unfold LegacyCompiler.add_field, add_field. simpl.
  apply bind_ext; auto using lrec_rec_nested.
Qed.

Lemma add_fields_agree (fields : list field) :
  forall (lfields : list LegacyCompiler.lfield) (sch : pydict) (s : GetSchema),
    Legacy.all_some (map LegacyCompiler.to_legacy_field fields)
    = Some lfields ->
    foldM (LegacyCompiler.add_field lrec) lfields sch s
    = foldM (add_field rec) (map decoded_field fields) sch s.
Proof.
  induction fields as [|f r IH]; intros lfields sch s H; inv_some.
  - reflexivity.
  - simpl. apply bind_ext; [now apply add_field_agrees|].
    intros sch' s'. now apply IH.
Qed.

(** The two tables of classes, index by index. *)
Lemma lookup_translated (dc : nat) :
  match nth_error classes dc with
  | Some cls =>
      exists lfields,
        nth_error lclasses dc
        = Some {| LegacyCompiler.ldc_name := dc_name cls;
                  LegacyCompiler.ldc_fields := lfields |}
        /\ Legacy.all_some
             (map LegacyCompiler.to_legacy_field (dc_fields cls))
           = Some lfields
  | None => nth_error lclasses dc = None
  end.
Proof.
  pose proof (Forall2_nth_error (all_some_ok _ _ translated) dc) as H.
  destruct (nth_error classes dc) as [cls|],
           (nth_error lclasses dc) as [lcls|].
  - unfold LegacyCompiler.to_legacy_class in H. inv_some. eauto.
  - destruct H.
  - destruct H.
  - reflexivity.
Qed.

Lemma create_dc_schema_agrees (dc : nat) (s : GetSchema) :
  LegacyCompiler.create_dc_schema lclasses lrec dc s
  = create_dc_schema dclasses rec dc s.
Proof.
  unfold LegacyCompiler.create_dc_schema, create_dc_schema,
    LegacyCompiler.lookup_class, lookup_class, dclasses.
  rewrite nth_error_map. pose proof (lookup_translated dc) as H.
  destruct (nth_error classes dc) as [cls|] eqn:Hcls.
  - destruct H as (lfields & -> & Hfields).
    cbn [option_map]. rewrite !bind_ret_l. cbv zeta.
    change (match dc_SchemaConfig (decoded_class cls) with
            | Some (Some a) => a
            | _ => SchemaAnnotation_new
            end) with (config_annotation cls).
    rewrite (no_config _ Hcls).
    apply bind_ext; auto. simpl LegacyCompiler.ldc_fields.
    simpl dc_fields. now apply add_fields_agree.
  - rewrite H. reflexivity.
Qed.

Lemma get_dc_schema_agrees (dc : nat) (extra : option Legacy.json_text)
    (a : SchemaAnnotation) (s : GetSchema) :
  Legacy.load_extra extra = schema a ->
  LegacyCompiler.get_dc_schema lclasses lrec dc extra s
  = get_dc_schema dclasses rec dc a s.
Proof.
  intros Hload.
  unfold LegacyCompiler.get_dc_schema, get_dc_schema. cbv zeta.
  rewrite Hload. apply bind_ext; auto. intros self s'.
  destruct (Nat.eqb dc (root self)).
  - destruct (seen_root self); auto.
    apply bind_ext; auto. intros u s2. apply bind_ext; auto.
    apply create_dc_schema_agrees.
  - unfold LegacyCompiler.lookup_class, lookup_class, dclasses.
    rewrite nth_error_map. pose proof (lookup_translated dc) as H.
    destruct (nth_error classes dc) as [cls|].
    + destruct H as (lfields & -> & _).
      cbn [option_map]. rewrite !bind_ret_l. simpl LegacyCompiler.ldc_name.
      simpl dc_name.
      apply bind_ext; auto.
      destruct (negb _); auto. apply bind_ext; auto.
      apply create_dc_schema_agrees.
    + rewrite H. reflexivity.
Qed.

Lemma is_str_translated (t : ty) (lt : LegacyCompiler.lty) :
  LegacyCompiler.to_legacy t = Some lt ->
  LegacyCompiler.l_is_str lt = is_str (decoded_type t).
Proof. destruct t; simpl; intros H; inv_some; reflexivity. Qed.

Lemma is_ellipsis_translated (t : ty) (lt : LegacyCompiler.lty) :
  LegacyCompiler.to_legacy t = Some lt ->
  match t with
  | TEllipsis => lt = LegacyCompiler.LEllipsis
  | _ => lt <> LegacyCompiler.LEllipsis
  end.
Proof. destruct t; simpl; intros H; inv_some; auto; discriminate. Qed.

Lemma dispatch_agrees (t : ty) (lt : LegacyCompiler.lty) (d : option pyval)
    (extra : option Legacy.json_text) (a : SchemaAnnotation) (s : GetSchema) :
  LegacyCompiler.to_legacy t = Some lt ->
  Legacy.load_extra extra = schema a ->
  LegacyCompiler.dispatch lclasses lrec lt d extra s
  = dispatch dclasses rec (decoded_type t) d a s.
Proof.
  intros Ht Hload. destruct t; simpl in Ht.
  - inv_some. now apply get_dc_schema_agrees.
  - inv_some. simpl.
    unfold LegacyCompiler.get_union_schema, get_union_schema. cbv zeta.
    rewrite Hload. destruct d; apply bind_ext; auto using lrec_rec_args.
  - inv_some. simpl.
    unfold LegacyCompiler.get_literal_schema, get_literal_schema. cbv zeta.
    now rewrite Hload.
  - destruct (LegacyCompiler.to_legacy t) as [lbase|] eqn:Hbase;
      [|discriminate].
    destruct metadata as [|m [|m2 r]]; inv_some; simpl; auto.
    + unfold LegacyCompiler.get_annotated_schema, get_annotated_schema.
      apply lrec_rec; [exact Hbase|]. simpl.
      apply payload_through_json.
      destruct (Legacy.json_dumps (schema m)); try discriminate.
      simpl in *. congruence.
  - inv_some. simpl.
    unfold LegacyCompiler.get_dict_schema, get_dict_schema. cbv zeta.
    rewrite Hload.
    destruct args as [|key [|value [|x r]]]; inv_some;
      cbn [map List.length Nat.eqb orb negb nth_error]; auto.
    rewrite (is_str_translated key) by assumption.
    destruct (is_str (decoded_type key)); cbn [negb]; auto.
    apply bind_ext; auto using lrec_rec_nested.
  - inv_some. simpl.
    unfold LegacyCompiler.get_list_schema, get_list_schema. cbv zeta.
    rewrite Hload.
    destruct args as [|arg0 [|x r]]; inv_some;
      cbn [map List.length Nat.eqb orb negb]; auto.
    apply bind_ext; auto using lrec_rec_nested.
  - inv_some. simpl.
    unfold LegacyCompiler.get_tuple_schema, get_tuple_schema. cbv zeta.
    rewrite Hload.
    match goal with
    | H : Legacy.all_some _ = Some ?l |- _ =>
        rewrite (@translated_length _ _ H);
        pose proof (fun s => @lrec_rec_args args l s H) as Hargs
    end.
    apply bind_ext; auto. intros schema1 s'.
    destruct args as [|arg0 [|a1 [|a2 r]]]; inv_some; auto.
    + apply bind_ext; auto.
    + match goal with
      | H : LegacyCompiler.to_legacy a1 = Some _ |- _ =>
          pose proof (is_ellipsis_translated a1 H) as He
      end.
      destruct a1; subst; cbn [map decoded_type];
        try (match goal with
             | |- context [match ?l with LegacyCompiler.LEllipsis => _
                                    | _ => _ end] =>
                 destruct l; try (exfalso; now apply He)
             end);
        apply bind_ext; auto using lrec_rec_nested.
    + match goal with
      | H : LegacyCompiler.to_legacy a1 = Some _ |- _ =>
          pose proof (is_ellipsis_translated a1 H) as He
      end.
      destruct a1; subst; cbn [map decoded_type];
        try (match goal with
             | |- context [match ?l with LegacyCompiler.LEllipsis => _
                                    | _ => _ end] =>
                 destruct l; try (exfalso; now apply He)
             end);
        apply bind_ext; auto.
  - inv_some. simpl.
    unfold LegacyCompiler.get_set_schema, get_set_schema. cbv zeta.
    rewrite Hload.
    destruct args as [|arg0 [|x r]]; inv_some;
      cbn [map List.length Nat.eqb orb negb]; auto.
    apply bind_ext; auto using lrec_rec_nested.
  - inv_some. simpl.
    unfold LegacyCompiler.get_none_schema, get_none_schema,
      LegacyCompiler.get_primitive_schema, get_primitive_schema. cbv zeta.
    now rewrite Hload.
  - inv_some. simpl.
    unfold LegacyCompiler.get_str_schema, get_str_schema,
      LegacyCompiler.get_primitive_schema, get_primitive_schema. cbv zeta.
    now rewrite Hload.
  - inv_some. simpl.
    unfold LegacyCompiler.get_bool_schema, get_bool_schema,
      LegacyCompiler.get_primitive_schema, get_primitive_schema. cbv zeta.
    now rewrite Hload.
  - inv_some. simpl.
    unfold LegacyCompiler.get_int_schema, get_int_schema,
      LegacyCompiler.get_primitive_schema, get_primitive_schema. cbv zeta.
    now rewrite Hload.
  - inv_some. simpl.
    unfold LegacyCompiler.get_number_schema, get_number_schema,
      LegacyCompiler.get_primitive_schema, get_primitive_schema,
      LegacyCompiler.get_enum_schema, get_enum_schema,
      LegacyCompiler.get_datetime_schema, get_datetime_schema,
      LegacyCompiler.get_date_schema, get_date_schema. cbv zeta.
    now rewrite Hload.
  - inv_some. reflexivity.
Qed.

End Body.

Lemma get_field_schema_agrees (fuel : nat) :
  forall t lt d extra a s,
    LegacyCompiler.to_legacy t = Some lt ->
    Legacy.load_extra extra = schema a ->
    LegacyCompiler.get_field_schema lclasses fuel lt d extra s
    = get_field_schema dclasses fuel (decoded_type t) d a s.
Proof.
  induction fuel as [|fuel IH]; intros t lt d extra a s Ht Hload;
    [reflexivity|].
  simpl. now apply dispatch_agrees.
Qed.

End OlderCompiler.

(** X17.  The two compilers agree, up to what JSON does to the
    payloads.  Take a program without [SchemaConfig] keywords, and the
    same program for the older compiler, in which every payload is the
    text that [json.dumps] returns for its keyword mapping.  The older
    [get_schema] then returns the same document, raises the same
    exception or fails to return, exactly as the newer one does on the
    program whose payloads hold their examples as they come back from
    JSON (a tuple as a list).  When the examples are values that JSON
    has, that is the program itself. *)
Theorem older_compiler_agrees
    (classes : list dataclass) (lclasses : list LegacyCompiler.ldataclass)
    (fuel dc : nat) :
  (forall i cls, nth_error classes i = Some cls ->
                 schema (config_annotation cls) = []) ->
  LegacyCompiler.to_legacy_program classes = Some lclasses ->
  LegacyCompiler.get_schema lclasses fuel dc
  = get_schema (map decoded_class classes) fuel dc
  /\ (native_program classes = true ->
      LegacyCompiler.get_schema lclasses fuel dc
      = get_schema classes fuel dc).
Proof.
  intros Hcfg Hprog.
  assert (E : LegacyCompiler.get_schema lclasses fuel dc
              = get_schema (map decoded_class classes) fuel dc).
  { unfold LegacyCompiler.get_schema, LegacyCompiler.GetSchema_call,
      get_schema, GetSchema_call. cbv zeta.
    rewrite (@get_dc_schema_agrees classes lclasses Hcfg Hprog
               (get_field_schema (map decoded_class classes) fuel)
               (LegacyCompiler.get_field_schema lclasses fuel)
               (fun t lt d extra a s Ht Hl =>
                  @get_field_schema_agrees classes lclasses Hcfg Hprog fuel
                    t lt d extra a s Ht Hl)
               dc None SchemaAnnotation_new _ eq_refl).
    reflexivity. }
  split; [exact E|]. intros Hnative.
  now rewrite E, (decoded_native_program classes Hnative).
Qed.

Lemma older_compiler_agrees_witness :
  (exists lclasses doc,
     LegacyCompiler.to_legacy_program Annotated.classes = Some lclasses
     /\ get_schema Annotated.classes 4 0 = Ok doc
     /\ LegacyCompiler.get_schema lclasses 4 0 = Ok doc)
  /\ (exists lclasses,
        LegacyCompiler.to_legacy_program [Annotated.DcPair] = Some lclasses
        /\ LegacyCompiler.get_schema lclasses 4 0
           = get_schema (map decoded_class [Annotated.DcPair]) 4 0
        /\ LegacyCompiler.get_schema lclasses 4 0
           <> get_schema [Annotated.DcPair] 4 0).
Proof.
  split.
  - eexists. eexists. split; [lazy; reflexivity|].
    split; [lazy; reflexivity|].
    match goal with
    | |- LegacyCompiler.get_schema ?l _ _ = _ =>
        rewrite (proj2 (@older_compiler_agrees Annotated.classes l 4 0
                          ltac:(intros [|[|[|i]]] cls H; try discriminate;
                                injection H as <-; reflexivity)
                          ltac:(lazy; reflexivity))
                   ltac:(reflexivity))
    end.
    lazy. reflexivity.
  - eexists. split; [lazy; reflexivity|]. split.
    + match goal with
      | |- LegacyCompiler.get_schema ?l _ _ = _ =>
          apply (proj1 (@older_compiler_agrees [Annotated.DcPair] l 4 0
                          ltac:(intros [|[|i]] cls H; try discriminate;
                                injection H as <-; reflexivity)
                          ltac:(lazy; reflexivity)))
      end.
    + intros H. lazy in H. discriminate H.
Defined.
